(** * chartify: the Chart and Logo classes of [chartify/_core/chart.py]

    A shallow embedding of the chart object, its label and legend setters,
    the export path ([show], [save], [_figure_to_png]) and the dormant logo
    overlay, followed by the properties of the specification that concern
    them.

    Python objects live in a store addressed by locations, so that the
    aliasing the code relies on (the subtitle glyph is referenced both by
    the chart and by the figure's renderer list, the legend is re-attached
    rather than copied) is visible.  Methods are computations in a small
    state-and-exception monad over that store. *)

From Stdlib Require Import ZArith QArith String Ascii List Lia Bool.
From stdpp Require Import base tactics option list numbers strings pretty.
Import ListNotations.
Local Open Scope Z_scope.
Local Open Scope string_scope.
Local Open Scope list_scope.

(** ** Python values *)

Definition loc := nat.

(** The values that reach the parameters of the methods modelled here.
    Float literals (legend coordinates) are carried as rationals; no
    arithmetic is performed on them. *)
#[warnings="-register-all"]
Inductive value : Type :=
| PyNone
| PyBool (b : bool)
| PyInt (n : Z)
| PyFloat (q : Q)
| PyStr (s : string)
| PyTuple (vs : list value)
| PyRef (l : loc).

(** [v == 'literal'] for a string literal. *)
Definition py_eq_str (v : value) (s : string) : bool :=
  match v with
  | PyStr t => String.eqb t s
  | _ => false
  end.

(** [v in [s1, ..., sn]] for a list of string literals. *)
Definition py_in_strs (v : value) (l : list string) : bool :=
  existsb (py_eq_str v) l.

(** [v is None] *)
Definition py_is_none (v : value) : bool :=
  match v with PyNone => true | _ => false end.

(** Truth value of an object, as tested by [if v:]. *)
Definition py_truthy (v : value) : bool :=
  match v with
  | PyNone => false
  | PyBool b => b
  | PyInt n => negb (n =? 0)%Z
  | PyFloat q => negb (Qeq_bool q 0)
  | PyStr s => negb (String.eqb s "")
  | PyTuple vs => match vs with [] => false | _ => true end
  | PyRef _ => true
  end.

(** ** [repr] of strings and of lists of strings

    Used by [str.format] when a list is substituted into a message.  Bytes
    above 127 are passed through (printable non-ASCII text is not escaped
    by Python 3). *)

Definition hex_digit (n : N) : ascii :=
  match n with
  | 0 => "0" | 1 => "1" | 2 => "2" | 3 => "3" | 4 => "4" | 5 => "5"
  | 6 => "6" | 7 => "7" | 8 => "8" | 9 => "9" | 10 => "a" | 11 => "b"
  | 12 => "c" | 13 => "d" | 14 => "e" | _ => "f"
  end%N%char.

Fixpoint str_contains (c : ascii) (s : string) : bool :=
  match s with
  | EmptyString => false
  | String d s' => Ascii.eqb c d || str_contains c s'
  end.

Definition squote : ascii := ascii_of_N 39.
Definition dquote : ascii := ascii_of_N 34.
Definition backslash : ascii := ascii_of_N 92.

Definition repr_quote (s : string) : ascii :=
  if str_contains squote s && negb (str_contains dquote s)
  then dquote else squote.

Definition repr_char (q c : ascii) : string :=
  let n := N_of_ascii c in
  if Ascii.eqb c q || Ascii.eqb c backslash then String backslash (String c "")
  else if (n =? 9)%N then String backslash "t"
  else if (n =? 10)%N then String backslash "n"
  else if (n =? 13)%N then String backslash "r"
  else if (n <? 32)%N || (n =? 127)%N
       then String backslash (String "x"%char
              (String (hex_digit (n / 16)) (String (hex_digit (n mod 16)) "")))
  else String c "".

Fixpoint repr_body (q : ascii) (s : string) : string :=
  match s with
  | EmptyString => ""
  | String c s' => repr_char q c +:+ repr_body q s'
  end.

Definition py_repr_str (s : string) : string :=
  let q := repr_quote s in
  String q (repr_body q s) +:+ String q "".

Fixpoint py_join (sep : string) (l : list string) : string :=
  match l with
  | [] => ""
  | [x] => x
  | x :: l' => x +:+ sep +:+ py_join sep l'
  end.

Definition py_repr_str_list (l : list string) : string :=
  "[" +:+ py_join ", " (map py_repr_str l) +:+ "]".

(** ** Exceptions and the method monad *)

(** [LibraryError] stands for any failure raised inside a collaborator that
    is not part of this file (style, plot and axis helpers, the browser
    driver, the image library's file access). *)
Inductive exn : Type :=
| ValueError (msg : string)
| KeyError (msg : string)
| TypeError (msg : string)
| IndexError (msg : string)
| ZeroDivisionError (msg : string)
| AttributeError (msg : string)
| LibraryError (origin msg : string).

Inductive res (A : Type) : Type :=
| Ok (a : A)
| Err (e : exn).
Arguments Ok {A} a.
Arguments Err {A} e.

(** A failure of a collaborator, reported as text, enters the model as a
    [LibraryError]. *)
Definition foreign {A : Type} (origin : string) (r : string + A) : res A :=
  match r with
  | inl msg => Err (LibraryError origin msg)
  | inr a => Ok a
  end.

(** ** Images (the part of PIL's [Image] the code touches) *)

Definition pixel : Type := (Z * Z * Z * Z)%type.   (* R, G, B, A *)

Definition alpha (p : pixel) : Z := snd p.

Definition pixel_nonzero (p : pixel) : bool :=
  match p with
  | (r, g, b, a) => negb ((r =? 0)%Z && (g =? 0)%Z && (b =? 0)%Z && (a =? 0)%Z)
  end.

(** [size] is (width, height); [pix x y] is the pixel in column [x] of row
    [y], the origin being the upper left corner. *)
Record Image : Type := mkImage {
  size : Z * Z;
  pix : Z -> Z -> pixel
}.

Inductive resample_filter : Type := NEAREST | BILINEAR | BICUBIC | LANCZOS.

(** ** The objects of the store *)

Inductive place : Type := PlaceLeft | PlaceRight | PlaceAbove | PlaceBelow | PlaceCenter.

(** [bokeh.models.Title] *)
Record Title : Type := mkTitle {
  title_text : string;
  title_align : string;
  title_text_color : string;
  title_text_font_size : string;
  title_text_font : string;
  title_plot : option loc
}.

(** [bokeh.models.Label] *)
Record Label : Type := mkLabel {
  label_x : Q;
  label_y : Z;
  label_x_units : string;
  label_y_units : string;
  label_level : string;
  label_text : string;
  label_text_color : string;
  label_text_font_size : string;
  label_text_align : string;
  label_name : string;
  label_plot : option loc
}.

(** [bokeh.models.Legend] *)
Record Legend : Type := mkLegend {
  legend_location : value;
  legend_orientation : value;
  legend_visible : bool;
  legend_plot : option loc
}.

(** The figure: its title glyph, the renderer list and the layout panels
    hold locations of glyph objects. *)
Record Figure : Type := mkFigure {
  fig_title : loc;
  renderers : list loc;
  fig_left : list loc;
  fig_right : list loc;
  fig_above : list loc;
  fig_below : list loc;
  fig_center : list loc;
  toolbar_location : value;
  toolbar_logo : value;
  fig_x_range : option (list string);
  fig_y_range : option (list string);
  fig_x_axis_type : value;
  fig_y_axis_type : value;
  fig_plot_width : Z;
  fig_plot_height : Z;
  fig_tools : string
}.

(** What the chart reads from its [Style] object (module
    [chartify._core.style], outside this file): the pixel size of the
    layout and the subtitle settings. *)
Record Style : Type := mkStyle {
  _layout : value;
  plot_width : Z;
  plot_height : Z;
  subtitle_align : string;
  subtitle_text_color : string;
  subtitle_text_size : string;
  subtitle_text_font : string;
  subtitle_location : place
}.

Record Chart : Type := mkChart {
  _x_axis_type : value;
  _y_axis_type : value;
  _blank_labels : value;
  style : Style;
  figure : loc;
  plot : string;
  axes : string;
  _source : loc;
  _subtitle_glyph : loc
}.

Record Logo : Type := mkLogo {
  _chart : loc;
  _logo_image : option Image;
  _path : string;
  _logo_file_mapping : list (string * string)
}.

Inductive obj : Type :=
| OTitle (t : Title)
| OLabel (l : Label)
| OLegend (g : Legend)
| OGlyph (kind : string)
| OFigure (f : Figure)
| OChart (c : Chart)
| OLogo (l : Logo).

(** ** The world: object store and observable effects *)

Inductive file_content : Type :=
| FHtml (doc : string)
| FImage (img : Image).

Inductive shown : Type :=
| ShownFigure (fig : loc)
| ShownImage (img : Image).

Record world : Type := mkWorld {
  heap : list obj;
  warnings : list (string * string);   (* category, message *)
  stdout : list string;
  files : list (string * file_content);
  displayed : list shown
}.

Definition with_heap (h : list obj) (w : world) : world :=
  mkWorld h (warnings w) (stdout w) (files w) (displayed w).

Definition M (A : Type) : Type := world -> res A * world.

Definition ret {A} (a : A) : M A := fun w => (Ok a, w).

Definition raise {A} (e : exn) : M A := fun w => (Err e, w).

Definition bind {A B} (m : M A) (k : A -> M B) : M B :=
  fun w => match m w with
           | (Ok a, w') => k a w'
           | (Err e, w') => (Err e, w')
           end.

Definition lift {A} (r : res A) : M A := fun w => (r, w).

Declare Scope py_scope.
Delimit Scope py_scope with py.
Notation "x <- m ;; k" := (bind m (fun x => k))
  (at level 100, m at next level, right associativity) : py_scope.
Notation "m ;;; k" := (bind m (fun _ => k))
  (at level 100, right associativity) : py_scope.
Local Open Scope py_scope.

(** Allocation of a fresh object, attribute reads and writes. *)
Definition alloc (o : obj) : M loc :=
  fun w => (Ok (length (heap w)), with_heap (heap w ++ [o]) w).

Definition load (l : loc) : M obj :=
  fun w => match heap w !! l with
           | Some o => (Ok o, w)
           | None => (Err (AttributeError "no such object"), w)
           end.

Definition store (l : loc) (o : obj) : M unit :=
  fun w => (Ok tt, with_heap (<[l := o]> (heap w)) w).

Definition load_chart (l : loc) : M Chart :=
  o <- load l ;;
  match o with OChart c => ret c | _ => raise (AttributeError "not a Chart") end.

Definition load_figure (l : loc) : M Figure :=
  o <- load l ;;
  match o with OFigure f => ret f | _ => raise (AttributeError "not a figure") end.

Definition load_title (l : loc) : M Title :=
  o <- load l ;;
  match o with OTitle t => ret t | _ => raise (AttributeError "not a Title") end.

Definition load_label (l : loc) : M Label :=
  o <- load l ;;
  match o with OLabel t => ret t | _ => raise (AttributeError "not a Label") end.

Definition load_legend (l : loc) : M Legend :=
  o <- load l ;;
  match o with OLegend g => ret g | _ => raise (AttributeError "not a Legend") end.

Definition load_logo (l : loc) : M Logo :=
  o <- load l ;;
  match o with OLogo g => ret g | _ => raise (AttributeError "not a Logo") end.

(** [warnings.warn(message, UserWarning)] and [print]. *)
Definition warn (category message : string) : M unit :=
  fun w => (Ok tt, mkWorld (heap w) (warnings w ++ [(category, message)])
                           (stdout w) (files w) (displayed w)).

Definition print (line : string) : M unit :=
  fun w => (Ok tt, mkWorld (heap w) (warnings w) (stdout w ++ [line])
                           (files w) (displayed w)).

Definition write_file (name : string) (c : file_content) : M unit :=
  fun w => (Ok tt, mkWorld (heap w) (warnings w) (stdout w)
                           ((name, c) :: files w) (displayed w)).

Definition display (s : shown) : M unit :=
  fun w => (Ok tt, mkWorld (heap w) (warnings w) (stdout w) (files w)
                           (displayed w ++ [s])).

(** ** The plotting library, as the chart uses it

    The figure keeps every object passed to [add_layout] in its renderer
    list and, unless the place is the centre, in the panel of that place;
    [add_layout] refuses an object whose [plot] attribute is already set
    (which is why [set_legend_location] clears it first).  The [legend]
    property of a figure is the list of the [Legend] objects among its
    renderers; assigning an attribute on that list assigns it on each
    element, and assigning to an empty list does nothing. *)

Definition newline : string := String (ascii_of_N 10) "".

Definition obj_plot (o : obj) : option (option loc) :=
  match o with
  | OTitle t => Some (title_plot t)
  | OLabel l => Some (label_plot l)
  | OLegend g => Some (legend_plot g)
  | _ => None
  end.

Definition set_title_text (s : string) (t : Title) : Title :=
  mkTitle s (title_align t) (title_text_color t) (title_text_font_size t)
          (title_text_font t) (title_plot t).

Definition set_label_text (s : string) (l : Label) : Label :=
  mkLabel (label_x l) (label_y l) (label_x_units l) (label_y_units l)
          (label_level l) s (label_text_color l) (label_text_font_size l)
          (label_text_align l) (label_name l) (label_plot l).

Definition set_obj_plot (p : option loc) (o : obj) : obj :=
  match o with
  | OTitle t => OTitle (mkTitle (title_text t) (title_align t) (title_text_color t)
                                (title_text_font_size t) (title_text_font t) p)
  | OLabel l => OLabel (mkLabel (label_x l) (label_y l) (label_x_units l)
                                (label_y_units l) (label_level l) (label_text l)
                                (label_text_color l) (label_text_font_size l)
                                (label_text_align l) (label_name l) p)
  | OLegend g => OLegend (mkLegend (legend_location g) (legend_orientation g)
                                   (legend_visible g) p)
  | _ => o
  end.

Definition set_legend_plot (p : option loc) (g : Legend) : Legend :=
  mkLegend (legend_location g) (legend_orientation g) (legend_visible g) p.

Definition set_legend_visible (b : bool) (g : Legend) : Legend :=
  mkLegend (legend_location g) (legend_orientation g) b (legend_plot g).

(** The values the [location] and [orientation] properties of a legend
    accept: one of the nine anchors or a pair of numbers; 'horizontal' or
    'vertical'.  Any other value is refused with a [ValueError] when it is
    assigned. *)
Definition legend_anchors : list string :=
  ["top_left"; "top_center"; "top_right"; "center_left"; "center";
   "center_right"; "bottom_left"; "bottom_center"; "bottom_right"].

Definition py_is_number (v : value) : bool :=
  match v with PyInt _ | PyFloat _ => true | _ => false end.

Definition valid_legend_location (v : value) : bool :=
  match v with
  | PyStr s => py_in_strs v legend_anchors
  | PyTuple [a; b] => py_is_number a && py_is_number b
  | _ => false
  end.

Definition valid_orientation (v : value) : bool :=
  py_in_strs v ["horizontal"; "vertical"].

Definition set_legend_location_attr (v : value) (g : Legend) : res Legend :=
  if valid_legend_location v
  then Ok (mkLegend v (legend_orientation g) (legend_visible g) (legend_plot g))
  else Err (ValueError "expected a legend location").

Definition set_legend_orientation_attr (v : value) (g : Legend) : res Legend :=
  if valid_orientation v
  then Ok (mkLegend (legend_location g) v (legend_visible g) (legend_plot g))
  else Err (ValueError "expected an orientation").

Definition set_renderers (r : list loc) (f : Figure) : Figure :=
  mkFigure (fig_title f) r (fig_left f) (fig_right f) (fig_above f)
           (fig_below f) (fig_center f) (toolbar_location f) (toolbar_logo f)
           (fig_x_range f) (fig_y_range f) (fig_x_axis_type f)
           (fig_y_axis_type f) (fig_plot_width f) (fig_plot_height f)
           (fig_tools f).

Definition panel (p : place) (f : Figure) : list loc :=
  match p with
  | PlaceLeft => fig_left f
  | PlaceRight => fig_right f
  | PlaceAbove => fig_above f
  | PlaceBelow => fig_below f
  | PlaceCenter => fig_center f
  end.

(** [renderers.append(obj)], then [getattr(self, place).append(obj)] when
    the place is not the centre. *)
Definition attach (o : loc) (p : place) (f : Figure) : Figure :=
  let add q l := match p, q with
                 | PlaceLeft, PlaceLeft | PlaceRight, PlaceRight
                 | PlaceAbove, PlaceAbove | PlaceBelow, PlaceBelow => l ++ [o]
                 | _, _ => l
                 end in
  mkFigure (fig_title f) (renderers f ++ [o])
           (add PlaceLeft (fig_left f)) (add PlaceRight (fig_right f))
           (add PlaceAbove (fig_above f)) (add PlaceBelow (fig_below f))
           (fig_center f) (toolbar_location f) (toolbar_logo f)
           (fig_x_range f) (fig_y_range f) (fig_x_axis_type f)
           (fig_y_axis_type f) (fig_plot_width f) (fig_plot_height f)
           (fig_tools f).

Definition set_toolbar_location (v : value) (f : Figure) : Figure :=
  mkFigure (fig_title f) (renderers f) (fig_left f) (fig_right f) (fig_above f)
           (fig_below f) (fig_center f) v (toolbar_logo f)
           (fig_x_range f) (fig_y_range f) (fig_x_axis_type f)
           (fig_y_axis_type f) (fig_plot_width f) (fig_plot_height f)
           (fig_tools f).

Definition set_toolbar_logo (v : value) (f : Figure) : Figure :=
  mkFigure (fig_title f) (renderers f) (fig_left f) (fig_right f) (fig_above f)
           (fig_below f) (fig_center f) (toolbar_location f) v
           (fig_x_range f) (fig_y_range f) (fig_x_axis_type f)
           (fig_y_axis_type f) (fig_plot_width f) (fig_plot_height f)
           (fig_tools f).

(** [figure.add_layout(obj, place)] *)
Definition add_layout (fig o : loc) (p : place) : M unit :=
  ob <- load o ;;
  (match obj_plot ob with
   | Some (Some _) =>
       raise (ValueError "object to be added already has 'plot' attribute set")
   | Some None => store o (set_obj_plot (Some fig) ob)
   | None => ret tt
   end) ;;;
  f <- load_figure fig ;;
  store fig (OFigure (attach o p f)).

Definition is_legend (h : list obj) (l : loc) : bool :=
  match h !! l with Some (OLegend _) => true | _ => false end.

(** [figure.legend] *)
Definition figure_legend (fig : loc) : M (list loc) :=
  f <- load_figure fig ;;
  fun w => (Ok (List.filter (is_legend (heap w)) (renderers f)), w).

(** [for x in legends: setattr(x, attr, value)] *)
Fixpoint splat_setattr (set : Legend -> res Legend) (ls : list loc) : M unit :=
  match ls with
  | [] => ret tt
  | l :: ls' =>
      g <- load_legend l ;;
      g' <- lift (set g) ;;
      store l (OLegend g') ;;;
      splat_setattr set ls'
  end.

(** [bokeh.plotting.figure(...)]: a new figure with its own, empty title
    glyph.  The axes, grids and tools the library creates are not
    modelled. *)
Definition bokeh_figure (x_range y_range : option (list string))
    (y_axis_type x_axis_type : value) (width height : Z) (tools : string)
    : M loc :=
  t <- alloc (OTitle (mkTitle "" "left" "" "" "" None)) ;;
  alloc (OFigure (mkFigure t [] [] [] [] [] [] (PyStr "right") (PyStr "normal")
                           x_range y_range x_axis_type y_axis_type
                           width height tools)).

(** [list.index(x)]: position of the first element equal to [x]. *)
Fixpoint py_index (x : loc) (l : list loc) : res nat :=
  match l with
  | [] => Err (ValueError "x is not in list")
  | y :: l' => if Nat.eqb y x then Ok 0%nat
               else match py_index x l' with
                    | Ok i => Ok (S i)
                    | Err e => Err e
                    end
  end.

(** ** The image library, as the export path uses it *)

Definition size_eqb (a b : Z * Z) : bool :=
  (fst a =? fst b)%Z && (snd a =? snd b)%Z.

(** ** class Chart *)

Section Chart.

(** Collaborators outside this file.  A collaborator that can fail
    returns its failure as text on the left. *)
Variable options_get_value : value -> value.
Variable Style_new : value -> string + Style.
Variable style_apply_settings : Style -> string -> string + unit.
Variable get_plot_class : value -> value -> string + string.
Variable get_axis_class : value -> value -> string + string.
Variable Callout_new : string + unit.
Variable file_html : list obj -> loc -> string -> string.
Variable webdriver_Chrome : list string -> string + unit.
Variable get_screenshot_as_png : list string -> string -> string + list Byte.byte.
Variable Image_open : list Byte.byte -> string + Image.
Variable resample : resample_filter -> Z * Z -> Image -> Z -> Z -> pixel.
Variable html_save_error : string -> option string.
Variable image_save_error : Image -> string -> option string.

(** [image.resize(size, resample=filter)]: a new image of exactly the
    requested size; the library refuses sizes that are not positive. *)
Definition Image_resize (im : Image) (target : Z * Z) (f : resample_filter)
    : res Image :=
  if (0 <? fst target)%Z && (0 <? snd target)%Z
  then Ok (mkImage target (resample f target im))
  else Err (ValueError "height and width must be > 0").

Definition valid_x_axis_types : list string :=
  ["linear"; "log"; "datetime"; "categorical"; "density"].

Definition valid_y_axis_types : list string :=
  ["linear"; "log"; "categorical"; "density"].

Definition default_title : string := "ch.set_title('Takeaway')".
Definition default_subtitle : string := "ch.set_subtitle('Data Description')".
Definition default_source : string := "ch.set_source_label('Source')".

Definition _initialize_figure (st : Style) (x_axis_type y_axis_type : value)
    : M loc :=
  let x_range := if py_eq_str x_axis_type "categorical" then Some [] else None in
  let x_axis_type :=
    if py_eq_str x_axis_type "categorical" then PyStr "auto" else x_axis_type in
  let y_range := if py_eq_str y_axis_type "categorical" then Some [] else None in
  let y_axis_type :=
    if py_eq_str y_axis_type "categorical" then PyStr "auto" else y_axis_type in
  let x_axis_type :=
    if py_eq_str x_axis_type "density" then PyStr "linear" else x_axis_type in
  let y_axis_type :=
    if py_eq_str y_axis_type "density" then PyStr "linear" else y_axis_type in
  bokeh_figure x_range y_range y_axis_type x_axis_type
               (plot_width st) (plot_height st) "save".

(** [_add_subtitle_to_figure] and [_add_source_to_figure] read three
    attributes of [self] ([_blank_labels], [style], [figure]); they are
    passed explicitly because [__init__] calls both methods before the
    remaining attributes of the chart exist. *)
Definition _add_subtitle_to_figure (blank_labels : value) (st : Style)
    (fig : loc) (subtitle_text : option string) : M loc :=
  let subtitle_text :=
    match subtitle_text with None => default_subtitle | Some s => s end in
  let subtitle_text := if py_truthy blank_labels then "" else subtitle_text in
  g <- alloc (OTitle (mkTitle subtitle_text (subtitle_align st)
                              (subtitle_text_color st) (subtitle_text_size st)
                              (subtitle_text_font st) None)) ;;
  add_layout fig g (subtitle_location st) ;;;
  ret g.

Definition _add_source_to_figure (blank_labels : value) (st : Style)
    (fig : loc) : M loc :=
  let source_text := default_source in
  let source_text := if py_truthy blank_labels then "" else source_text in
  let source_text_color := "#898989" in
  let source_font_size := "10px" in
  g <- alloc (OLabel (mkLabel (inject_Z (plot_width st) * (9 # 10))%Q (-55)
                              "screen" "screen" "overlay" source_text
                              source_text_color source_font_size "right"
                              "subtitle" None)) ;;
  add_layout fig g PlaceCenter ;;;
  ret g.

(** [source_text], [title], [subtitle] properties and their setters. *)
Definition source_text (self : loc) : M string :=
  ch <- load_chart self ;;
  s <- load_label (_source ch) ;;
  ret (label_text s).

Definition set_source_label (self : loc) (source : string) : M value :=
  ch <- load_chart self ;;
  s <- load_label (_source ch) ;;
  store (_source ch) (OLabel (set_label_text source s)) ;;;
  ret (PyRef self).

Definition title (self : loc) : M string :=
  ch <- load_chart self ;;
  f <- load_figure (figure ch) ;;
  t <- load_title (fig_title f) ;;
  ret (title_text t).

Definition set_title (self : loc) (title : string) : M value :=
  ch <- load_chart self ;;
  f <- load_figure (figure ch) ;;
  t <- load_title (fig_title f) ;;
  store (fig_title f) (OTitle (set_title_text title t)) ;;;
  ret (PyRef self).

Definition subtitle (self : loc) : M string :=
  ch <- load_chart self ;;
  t <- load_title (_subtitle_glyph ch) ;;
  ret (title_text t).

Definition set_subtitle (self : loc) (subtitle : string) : M value :=
  ch <- load_chart self ;;
  t <- load_title (_subtitle_glyph ch) ;;
  store (_subtitle_glyph ch) (OTitle (set_title_text subtitle t)) ;;;
  ret (PyRef self).

Definition axis_error (which : string) (valid : list string) : exn :=
  ValueError (which +:+ " must be one of " +:+ py_repr_str_list valid).

(** [Chart.__init__]; the result is the location of the new chart. *)
Definition Chart__init__ (blank_labels layout x_axis_type y_axis_type : value)
    : M loc :=
  if negb (py_in_strs x_axis_type valid_x_axis_types)
  then raise (axis_error "x_axis_type" valid_x_axis_types)
  else if negb (py_in_strs y_axis_type valid_y_axis_types)
  then raise (axis_error "y_axis_type" valid_y_axis_types)
  else
    let blank := options_get_value blank_labels in
    st <- lift (foreign "Style" (Style_new layout)) ;;
    fig <- _initialize_figure st x_axis_type y_axis_type ;;
    lift (foreign "Style" (style_apply_settings st "chart")) ;;;
    plt <- lift (foreign "BasePlot" (get_plot_class x_axis_type y_axis_type)) ;;
    lift (foreign "Callout" Callout_new) ;;;
    axs <- lift (foreign "BaseAxes" (get_axis_class x_axis_type y_axis_type)) ;;
    src <- _add_source_to_figure blank st fig ;;
    sub <- _add_subtitle_to_figure blank st fig None ;;
    f <- load_figure fig ;;
    store fig (OFigure (set_toolbar_logo PyNone f)) ;;;
    let title := if py_truthy blank then "" else default_title in
    self <- alloc (OChart (mkChart x_axis_type y_axis_type blank st fig
                                   plt axs src sub)) ;;
    set_title self title ;;;
    ret self.

Definition set_subtitle_glyph (g : loc) (c : Chart) : Chart :=
  mkChart (_x_axis_type c) (_y_axis_type c) (_blank_labels c) (style c)
          (figure c) (plot c) (axes c) (_source c) g.

Definition legend_warning : string :=
  newline +:+
  "                    Legend location will not apply." +:+ newline +:+
  "                    Set the legend after plotting data." +:+ newline +:+
  "                    ".

(** The local function [add_outside_legend] of [set_legend_location].
    Its [return self] leaves only the local function: the value is
    dropped by the caller. *)
Definition add_outside_legend (self : loc) (orientation : value)
    (legend_location : string) (layout_location : place) : M value :=
  ch <- load_chart self ;;
  ls <- figure_legend (figure ch) ;;
  splat_setattr (set_legend_location_attr (PyStr legend_location)) ls ;;;
  ls <- figure_legend (figure ch) ;;
  match ls with
  | [] =>
      warn "UserWarning" legend_warning ;;;
      ret (PyRef self)
  | new_legend :: _ =>
      g <- load_legend new_legend ;;
      store new_legend (OLegend (set_legend_plot None g)) ;;;
      g <- load_legend new_legend ;;
      g' <- lift (set_legend_orientation_attr orientation g) ;;
      store new_legend (OLegend g') ;;;
      add_layout (figure ch) new_legend layout_location ;;;
      ret PyNone
  end.

Definition set_legend_location (self : loc) (location orientation : value)
    : M value :=
  (if py_eq_str location "outside_top" then
     add_outside_legend self orientation "top_left" PlaceAbove ;;;
     (* Re-render the subtitle so that it appears over the legend. *)
     ch <- load_chart self ;;
     f <- load_figure (figure ch) ;;
     subtitle_index <- lift (py_index (_subtitle_glyph ch) (renderers f)) ;;
     store (figure ch)
           (OFigure (set_renderers (delete subtitle_index (renderers f)) f)) ;;;
     old <- load_title (_subtitle_glyph ch) ;;
     g <- _add_subtitle_to_figure (_blank_labels ch) (style ch) (figure ch)
                                  (Some (title_text old)) ;;
     store self (OChart (set_subtitle_glyph g ch))
   else if py_eq_str location "outside_bottom" then
     add_outside_legend self orientation "bottom_center" PlaceBelow ;;;
     ret tt
   else if py_eq_str location "outside_right" then
     add_outside_legend self orientation "top_left" PlaceRight ;;;
     ret tt
   else if py_is_none location then
     ch <- load_chart self ;;
     ls <- figure_legend (figure ch) ;;
     splat_setattr (fun g => Ok (set_legend_visible false g)) ls
   else
     ch <- load_chart self ;;
     ls <- figure_legend (figure ch) ;;
     splat_setattr (set_legend_location_attr location) ls ;;;
     ls <- figure_legend (figure ch) ;;
     splat_setattr (set_legend_orientation_attr orientation) ls) ;;;
  ret (PyRef self).

Definition _set_toolbar_for_format (self : loc) (format : value) : M unit :=
  if py_eq_str format "html" then
    ch <- load_chart self ;;
    f <- load_figure (figure ch) ;;
    store (figure ch) (OFigure (set_toolbar_location (PyStr "right") f))
  else if py_eq_str format "png" then
    ch <- load_chart self ;;
    f <- load_figure (figure ch) ;;
    store (figure ch) (OFigure (set_toolbar_location PyNone f))
  else if py_is_none format then  (* If format is None the chart won't be shown. *)
    ret tt
  else
    raise (ValueError "Invalid format. Valid options are 'html' or 'png'.").

Definition browser_options (st : Style) : list string :=
  [ "window-size=" +:+ pretty (plot_width st) +:+ "," +:+ pretty (plot_height st);
    "start-maximized"; "disable-infobars"; "disable-gpu"; "no-sandbox";
    "--disable-extensions"; "--headless"; "--hide-scrollbars" ].

(** The temporary file only carries the HTML text to the browser, and is
    gone when the method returns; it leaves no trace in the world. *)
Definition _figure_to_png (self : loc) : M Image :=
  ch <- load_chart self ;;
  let options := browser_options (style ch) in
  lift (foreign "webdriver" (webdriver_Chrome options)) ;;;
  html <- (fun w => (Ok (file_html (heap w) (figure ch) ""), w)) ;;
  png <- lift (foreign "webdriver" (get_screenshot_as_png options html)) ;;
  (* Resize image if necessary. *)
  image <- lift (foreign "PIL" (Image_open png)) ;;
  let target_dimensions := (plot_width (style ch), plot_height (style ch)) in
  if negb (size_eqb (size image) target_dimensions)
  then lift (Image_resize image target_dimensions LANCZOS)
  else ret image.

Definition io_failure (origin : string) (e : option string) : M unit :=
  match e with
  | Some msg => raise (LibraryError origin msg)
  | None => ret tt
  end.

Definition show (self : loc) (format : value) : M value :=
  _set_toolbar_for_format self format ;;;
  if py_eq_str format "html" then
    ch <- load_chart self ;;
    display (ShownFigure (figure ch)) ;;;
    ret PyNone
  else if py_eq_str format "png" then
    image <- _figure_to_png self ;;
    display (ShownImage image) ;;;
    ret PyNone
  else ret PyNone.

Definition save (self : loc) (filename : string) (format : value) : M value :=
  _set_toolbar_for_format self format ;;;
  (if py_eq_str format "html" then
     ch <- load_chart self ;;
     io_failure "bokeh" (html_save_error filename) ;;;
     doc <- (fun w => (Ok (file_html (heap w) (figure ch) "Chartify chart."), w)) ;;
     write_file filename (FHtml doc)
   else if py_eq_str format "png" then
     image <- _figure_to_png self ;;
     io_failure "PIL" (image_save_error image filename) ;;;
     write_file filename (FImage image)
   else ret tt) ;;;
  print ("Saved to " +:+ filename) ;;;
  ret (PyRef self).

End Chart.

(** ** class Logo *)

(** [image.getbbox()]: the bounding box (left, upper, right, lower) of the
    non-zero region of the image, or [None] when the image is empty. *)
Definition getbbox (im : Image) : option (Z * Z * Z * Z) :=
  let xs := seqZ 0 (fst (size im)) in
  let ys := seqZ 0 (snd (size im)) in
  let cols :=
    List.filter (fun x => existsb (fun y => pixel_nonzero (pix im x y)) ys) xs in
  let rows :=
    List.filter (fun y => existsb (fun x => pixel_nonzero (pix im x y)) xs) ys in
  match cols, rows with
  | x0 :: _, y0 :: _ => Some (x0, y0, List.last cols x0 + 1, List.last rows y0 + 1)
  | _, _ => None
  end.

(** [sorted(items, key=lambda t: t[0])]: a stable sort on the names. *)
Fixpoint insert_by_key (kv : string * string) (l : list (string * string))
    : list (string * string) :=
  match l with
  | [] => [kv]
  | kv' :: l' => if String.ltb (fst kv) (fst kv') then kv :: l
                 else kv' :: insert_by_key kv l'
  end.

Definition sorted_by_key (l : list (string * string)) : list (string * string) :=
  fold_left (fun acc kv => insert_by_key kv acc) l [].

(** [mapping[key]]; the keys of the mapping are strings, so no other value
    finds an entry. *)
Fixpoint assoc (k : string) (l : list (string * string)) : option string :=
  match l with
  | [] => None
  | (k', v) :: l' => if String.eqb k' k then Some v else assoc k l'
  end.

Definition py_getitem (l : list (string * string)) (key : value) : option string :=
  match key with
  | PyStr k => assoc k l
  | _ => None
  end.

Section Logo.

Variable logos_path : string.               (* option 'config.logos_path' *)
Variable Image_open_file : string -> string + Image.
Variable resample : resample_filter -> Z * Z -> Image -> Z -> Z -> pixel.
(** [blend dst src m]: the pixel written where the mask has value [m]. *)
Variable blend : pixel -> pixel -> Z -> pixel.
(** The two floating point computations of [_resize_logo]:
    [int(h * .1)] and [int((w * 1.0 / h) * t)]. *)
Variable int_tenth : Z -> Z.
Variable int_scaled : Z -> Z -> Z -> Z.

(** [image.paste(src, box, mask)] with a 2-tuple [box]: the upper left
    corner of the pasted region. *)
Definition paste (dst src : Image) (box : Z * Z) (mask : Image) : Image :=
  mkImage (size dst)
    (fun x y =>
       let sx := x - fst box in
       let sy := y - snd box in
       if (0 <=? sx)%Z && (sx <? fst (size src))%Z
          && (0 <=? sy)%Z && (sy <? snd (size src))%Z
       then blend (pix dst x y) (pix src sx sy) (alpha (pix mask sx sy))
       else pix dst x y).

Definition Logo__init__ (chart : loc) : M loc :=
  let _logo_file_mapping := [] in
  alloc (OLogo (mkLogo chart None logos_path (sorted_by_key _logo_file_mapping))).

Definition bbox_right (im : Image) : M Z :=
  match getbbox im with
  | Some (_, _, r, _) => ret r
  | None => raise (TypeError "'NoneType' object is not subscriptable")
  end.

Definition _add_logo_to_image (self : loc) (image : Image) : M Image :=
  lg <- load_logo self ;;
  match _logo_image lg with
  | None => ret image
  | Some logo_image =>
      x_dim <- bbox_right image ;;
      width <- bbox_right logo_image ;;
      let padding := 10 in
      let coords := (x_dim - width - padding, 0 + padding) in
      ret (paste image logo_image coords logo_image)
  end.

Definition _resize_logo (self : loc) (logo_image : Image) : M Image :=
  lg <- load_logo self ;;
  ch <- load_chart (_chart lg) ;;
  let logo_width := fst (size logo_image) in
  let logo_height := snd (size logo_image) in
  let target_height := int_tenth (plot_height (style ch)) in
  if (logo_width =? logo_height)%Z then
    lift (Image_resize resample logo_image (target_height, target_height) LANCZOS)
  else if (logo_height =? 0)%Z then
    raise (ZeroDivisionError "float division by zero")
  else
    lift (Image_resize resample logo_image
            (int_scaled logo_width logo_height target_height, target_height)
            LANCZOS).

Definition set_logo_image (im : option Image) (l : Logo) : Logo :=
  mkLogo (_chart l) im (_path l) (_logo_file_mapping l).

Definition logo_error (mapping : list (string * string)) : exn :=
  KeyError ("Must supply a valid logo name: "
            +:+ py_repr_str_list (map fst mapping)).

Definition set_logo (self : loc) (logo : value) : M value :=
  lg <- load_logo self ;;
  match py_getitem (_logo_file_mapping lg) logo with
  | None => raise (logo_error (_logo_file_mapping lg))
  | Some filename =>
      logo_image <- lift (foreign "PIL" (Image_open_file (_path lg +:+ filename))) ;;
      logo_image <- _resize_logo self logo_image ;;
      lg <- load_logo self ;;
      store self (OLogo (set_logo_image (Some logo_image) lg)) ;;;
      ret PyNone
  end.

End Logo.

(** ** A concrete world

    Stand-ins for the collaborators, used to run the model on explicit
    inputs: every collaborator succeeds, the browser returns an empty byte
    string that decodes to a white 8 x 6 image, and resampling takes the
    nearest pixel of the top left corner. *)
Module Demo.

Definition style0 : Style :=
  mkStyle (PyStr "slide_100%") 12 9 "left" "#5c5c5c" "12pt" "helvetica" PlaceAbove.

Definition white : pixel := (255, 255, 255, 255).
Definition black : pixel := (0, 0, 0, 255).

Definition screenshot : Image := mkImage (8, 6) (fun _ _ => white).

Definition resample0 (f : resample_filter) (target : Z * Z) (im : Image)
    : Z -> Z -> pixel := fun _ _ => pix im 0 0.

(** The blending arithmetic of an 8-bit paste through a mask. *)
Definition div255 (a : Z) : Z :=
  let t := a + 128 in Z.shiftr (Z.shiftr t 8 + t) 8.

Definition blend0 (dst src : pixel) (m : Z) : pixel :=
  match dst, src with
  | (r1, g1, b1, a1), (r2, g2, b2, a2) =>
      (div255 (r1 * (255 - m) + r2 * m), div255 (g1 * (255 - m) + g2 * m),
       div255 (b1 * (255 - m) + b2 * m), div255 (a1 * (255 - m) + a2 * m))
  end.

Definition empty_world : world := mkWorld [] [] [] [] [].

Definition init (blank_labels layout x y : value) : M loc :=
  Chart__init__ (fun v => v) (fun _ => inr style0) (fun _ _ => inr tt)
    (fun _ _ => inr "PlotNumericXY") (fun _ _ => inr "NumericalXYAxes")
    (inr tt) blank_labels layout x y.

Definition figure_to_png (self : loc) : M Image :=
  _figure_to_png (fun _ _ _ => "<html></html>") (fun _ => inr tt)
    (fun _ _ => inr []) (fun _ => inr screenshot) resample0 self.

Definition show0 (self : loc) (format : value) : M value :=
  show (fun _ _ _ => "<html></html>") (fun _ => inr tt)
    (fun _ _ => inr []) (fun _ => inr screenshot) resample0 self format.

Definition save0 (self : loc) (filename : string) (format : value) : M value :=
  save (fun _ _ _ => "<html></html>") (fun _ => inr tt)
    (fun _ _ => inr []) (fun _ => inr screenshot) resample0
    (fun _ => None) (fun _ _ => None) self filename format.

(** A chart with default arguments, and the same chart after a plotting
    method has added a legend to the figure. *)
Definition chart_world : world :=
  snd (init (PyBool false) (PyStr "slide_100%") (PyStr "linear") (PyStr "linear")
            empty_world).

Definition chart0 : loc := 4%nat.
Definition figure0 : loc := 1%nat.
Definition legend0 : loc := 5%nat.

Definition plotted_world : world :=
  match heap chart_world !! figure0 with
  | Some (OFigure f) =>
      with_heap (<[figure0 := OFigure (attach legend0 PlaceCenter f)]>
                   (heap chart_world ++
                    [OLegend (mkLegend (PyStr "top_right") (PyStr "vertical")
                                       true (Some figure0))]))
                chart_world
  | _ => chart_world
  end.

End Demo.

(** * Properties *)

(** ** Reasoning about runs *)

Lemma lookup_fresh (h l : list obj) (k : nat) :
  (h ++ l) !! (length h + k)%nat = l !! k.
Proof.
  rewrite lookup_app_r by lia. f_equal. lia.
Qed.

Lemma lookup_fresh0 (h l : list obj) : (h ++ l) !! length h = l !! 0%nat.
Proof.
  rewrite <- (Nat.add_0_r (length h)) at 1. apply lookup_fresh.
Qed.

Lemma insert_fresh0 (h l : list obj) (o : obj) :
  <[length h := o]> (h ++ l) = h ++ <[0%nat := o]> l.
Proof.
  rewrite <- (Nat.add_0_r (length h)) at 1. apply insert_app_r.
Qed.

Lemma length_snoc (h l : list obj) : length (h ++ l) = (length h + length l)%nat.
Proof. apply length_app. Qed.

Lemma with_heap_heap (h : list obj) (w : world) : heap (with_heap h w) = h.
Proof. reflexivity. Qed.

Lemma with_heap_twice (h h' : list obj) (w : world) :
  with_heap h (with_heap h' w) = with_heap h w.
Proof. reflexivity. Qed.

Lemma with_heap_same (w : world) : with_heap (heap w) w = w.
Proof. destruct w; reflexivity. Qed.

Ltac run_unfold :=
  unfold load_chart, load_figure, load_title, load_label, load_legend,
    load_logo, load, store, alloc, foreign, lift, raise, ret, bind in *.

Ltac heap_norm :=
  repeat first
    [ rewrite with_heap_heap
    | rewrite with_heap_twice
    | rewrite <- app_assoc
    | rewrite length_snoc
    | rewrite lookup_fresh
    | rewrite lookup_fresh0
    | rewrite insert_app_r
    | rewrite insert_fresh0
    | progress cbn [app length lookup list_lookup insert list_insert
                    Nat.add fst snd] ].

Lemma bind_run {A B} (m : M A) (k : A -> M B) (w w' : world) (a : A) :
  m w = (Ok a, w') -> bind m k w = k a w'.
Proof. intros H. unfold bind. rewrite H. reflexivity. Qed.

Lemma bind_fail {A B} (m : M A) (k : A -> M B) (w w' : world) (e : exn) :
  m w = (Err e, w') -> bind m k w = (Err e, w').
Proof. intros H. unfold bind. rewrite H. reflexivity. Qed.

Lemma load_chart_run (l : loc) (w : world) (c : Chart) :
  heap w !! l = Some (OChart c) -> load_chart l w = (Ok c, w).
Proof. intros H. run_unfold. rewrite H. reflexivity. Qed.

Lemma load_figure_run (l : loc) (w : world) (f : Figure) :
  heap w !! l = Some (OFigure f) -> load_figure l w = (Ok f, w).
Proof. intros H. run_unfold. rewrite H. reflexivity. Qed.

Lemma load_title_run (l : loc) (w : world) (t : Title) :
  heap w !! l = Some (OTitle t) -> load_title l w = (Ok t, w).
Proof. intros H. run_unfold. rewrite H. reflexivity. Qed.

Lemma load_label_run (l : loc) (w : world) (t : Label) :
  heap w !! l = Some (OLabel t) -> load_label l w = (Ok t, w).
Proof. intros H. run_unfold. rewrite H. reflexivity. Qed.

Lemma load_legend_run (l : loc) (w : world) (g : Legend) :
  heap w !! l = Some (OLegend g) -> load_legend l w = (Ok g, w).
Proof. intros H. run_unfold. rewrite H. reflexivity. Qed.

Lemma load_logo_run (l : loc) (w : world) (g : Logo) :
  heap w !! l = Some (OLogo g) -> load_logo l w = (Ok g, w).
Proof. intros H. run_unfold. rewrite H. reflexivity. Qed.

Lemma store_run (l : loc) (o : obj) (w : world) :
  store l o w = (Ok tt, with_heap (<[l := o]> (heap w)) w).
Proof. reflexivity. Qed.

Lemma alloc_run (o : obj) (w : world) :
  alloc o w = (Ok (length (heap w)), with_heap (heap w ++ [o]) w).
Proof. reflexivity. Qed.

(** [add_layout] of an object that is not attached yet. *)
Lemma add_layout_run (fig o : loc) (p : place) (w : world) (ob : obj) (f : Figure) :
  heap w !! o = Some ob ->
  obj_plot ob = Some None ->
  heap w !! fig = Some (OFigure f) ->
  add_layout fig o p w =
    (Ok tt, with_heap (<[fig := OFigure (attach o p f)]>
                         (<[o := set_obj_plot (Some fig) ob]> (heap w))) w).
Proof.
  intros Ho Hp Hf. unfold add_layout.
  assert (Hne : o <> fig).
  { intros ->. rewrite Hf in Ho. injection Ho as <-. discriminate Hp. }
  erewrite bind_run by (unfold load; rewrite Ho; reflexivity).
  rewrite Hp.
  erewrite bind_run by apply store_run.
  erewrite bind_run
    by (apply load_figure_run; cbn;
        rewrite list_lookup_insert_ne by exact Hne; exact Hf).
  reflexivity.
Qed.

Lemma bokeh_figure_run xr yr yt xt wd ht tools (w : world) :
  bokeh_figure xr yr yt xt wd ht tools w =
    (Ok (length (heap w) + 1)%nat,
     with_heap (heap w ++
                [OTitle (mkTitle "" "left" "" "" "" None);
                 OFigure (mkFigure (length (heap w)) [] [] [] [] [] []
                                   (PyStr "right") (PyStr "normal")
                                   xr yr xt yt wd ht tools)]) w).
Proof.
  unfold bokeh_figure.
  erewrite bind_run by apply alloc_run.
  rewrite alloc_run. cbn [heap with_heap]. heap_norm. reflexivity.
Qed.

Lemma add_subtitle_run bl st (fig : loc) txt (w : world) (f : Figure) :
  heap w !! fig = Some (OFigure f) ->
  _add_subtitle_to_figure bl st fig txt w =
    (Ok (length (heap w)),
     with_heap
       (<[fig := OFigure (attach (length (heap w)) (subtitle_location st) f)]>
          (heap w) ++
        [OTitle (mkTitle (if py_truthy bl then ""
                          else match txt with
                               | None => default_subtitle
                               | Some s => s
                               end)
                         (subtitle_align st) (subtitle_text_color st)
                         (subtitle_text_size st) (subtitle_text_font st)
                         (Some fig))]) w).
Proof.
  intros Hf. unfold _add_subtitle_to_figure.
  pose proof (lookup_lt_Some _ _ _ Hf) as Hlt.
  erewrite bind_run by apply alloc_run.
  erewrite bind_run.
  2:{ eapply add_layout_run; cbn [heap with_heap].
      - rewrite lookup_fresh0. reflexivity.
      - reflexivity.
      - rewrite lookup_app_l by exact Hlt. exact Hf. }
  cbn [heap with_heap set_obj_plot]. unfold ret.
  rewrite insert_fresh0. cbn [insert list_insert].
  rewrite insert_app_l by exact Hlt.
  rewrite with_heap_twice. reflexivity.
Qed.

Lemma add_source_run bl st (fig : loc) (w : world) (f : Figure) :
  heap w !! fig = Some (OFigure f) ->
  _add_source_to_figure bl st fig w =
    (Ok (length (heap w)),
     with_heap
       (<[fig := OFigure (attach (length (heap w)) PlaceCenter f)]> (heap w) ++
        [OLabel (mkLabel (inject_Z (plot_width st) * (9 # 10))%Q (-55)
                         "screen" "screen" "overlay"
                         (if py_truthy bl then "" else default_source)
                         "#898989" "10px" "right" "subtitle" (Some fig))]) w).
Proof.
  intros Hf. unfold _add_source_to_figure.
  pose proof (lookup_lt_Some _ _ _ Hf) as Hlt.
  erewrite bind_run by apply alloc_run.
  erewrite bind_run.
  2:{ eapply add_layout_run; cbn [heap with_heap].
      - rewrite lookup_fresh0. reflexivity.
      - reflexivity.
      - rewrite lookup_app_l by exact Hlt. exact Hf. }
  cbn [heap with_heap set_obj_plot]. unfold ret.
  rewrite insert_fresh0. cbn [insert list_insert].
  rewrite insert_app_l by exact Hlt.
  rewrite with_heap_twice. reflexivity.
Qed.

Lemma lift_foreign_ok {A} (origin : string) (r : string + A) (a : A) (w : world) :
  r = inr a -> lift (foreign origin r) w = (Ok a, w).
Proof. intros ->. reflexivity. Qed.

Lemma lift_foreign_err {A} (origin : string) (r : string + A) (m : string) (w : world) :
  r = inl m -> lift (foreign origin r) w = (Err (LibraryError origin m), w).
Proof. intros ->. reflexivity. Qed.

Lemma fig_title_attach o p f : fig_title (attach o p f) = fig_title f.
Proof. reflexivity. Qed.

Lemma fig_title_set_toolbar_logo v f : fig_title (set_toolbar_logo v f) = fig_title f.
Proof. reflexivity. Qed.

Lemma fig_title_set_toolbar_location v f :
  fig_title (set_toolbar_location v f) = fig_title f.
Proof. reflexivity. Qed.

Lemma fig_title_set_renderers r f : fig_title (set_renderers r f) = fig_title f.
Proof. reflexivity. Qed.

Lemma renderers_attach o p f : renderers (attach o p f) = renderers f ++ [o].
Proof. reflexivity. Qed.

Lemma renderers_set_toolbar_logo v f : renderers (set_toolbar_logo v f) = renderers f.
Proof. reflexivity. Qed.

Lemma renderers_set_toolbar_location v f :
  renderers (set_toolbar_location v f) = renderers f.
Proof. reflexivity. Qed.

Lemma renderers_set_renderers r f : renderers (set_renderers r f) = r.
Proof. reflexivity. Qed.

Create Rewrite HintDb fig.
#[local] Hint Rewrite fig_title_attach fig_title_set_toolbar_logo
  fig_title_set_toolbar_location fig_title_set_renderers renderers_attach
  renderers_set_toolbar_logo renderers_set_toolbar_location
  renderers_set_renderers : fig.

Ltac norm :=
  repeat progress
    (cbn [heap with_heap figure fig_title renderers _source _subtitle_glyph];
     autorewrite with fig;
     heap_norm).

Ltac solve_lookup := norm; reflexivity.

Lemma set_title_run (self : loc) (s : string) (w : world) ch f t :
  heap w !! self = Some (OChart ch) ->
  heap w !! figure ch = Some (OFigure f) ->
  heap w !! fig_title f = Some (OTitle t) ->
  set_title self s w =
    (Ok (PyRef self),
     with_heap (<[fig_title f := OTitle (set_title_text s t)]> (heap w)) w).
Proof.
  intros Hc Hf Ht. unfold set_title.
  erewrite bind_run by (apply load_chart_run; exact Hc).
  erewrite bind_run by (apply load_figure_run; exact Hf).
  erewrite bind_run by (apply load_title_run; exact Ht).
  erewrite bind_run by apply store_run.
  reflexivity.
Qed.

(** The constructor, once the axis types are accepted: either a
    collaborator fails, or the chart is built from five new objects. *)
Lemma init_valid_cases ogv sn sas gpc gac cn (bl layout x y : value) (w : world) :
  py_in_strs x valid_x_axis_types = true ->
  py_in_strs y valid_y_axis_types = true ->
  (exists origin msg w',
      Chart__init__ ogv sn sas gpc gac cn bl layout x y w
      = (Err (LibraryError origin msg), w'))
  \/
  (exists st p a t f s g,
      sn layout = inr st /\
      Chart__init__ ogv sn sas gpc gac cn bl layout x y w
      = (Ok (length (heap w) + 4)%nat,
         with_heap (heap w ++
                    [OTitle t; OFigure f; OLabel s; OTitle g;
                     OChart (mkChart x y (ogv bl) st (length (heap w) + 1)%nat p a
                                     (length (heap w) + 2)%nat
                                     (length (heap w) + 3)%nat)]) w) /\
      fig_title f = length (heap w) /\
      renderers f = [(length (heap w) + 2)%nat; (length (heap w) + 3)%nat] /\
      title_text t = (if py_truthy (ogv bl) then "" else default_title) /\
      label_text s = (if py_truthy (ogv bl) then "" else default_source) /\
      title_text g = (if py_truthy (ogv bl) then "" else default_subtitle)).
Proof.
  intros Hx Hy. unfold Chart__init__. rewrite Hx, Hy. cbn [negb].
  destruct (sn layout) as [m|st] eqn:Hs.
  { left. erewrite bind_fail by (apply lift_foreign_err; reflexivity). eauto. }
  erewrite bind_run by (apply lift_foreign_ok; reflexivity).
  erewrite bind_run by (unfold _initialize_figure; apply bokeh_figure_run).
  destruct (sas st "chart") as [m|[]] eqn:Ha.
  { left. erewrite bind_fail by (apply lift_foreign_err; reflexivity). eauto. }
  erewrite bind_run by (apply lift_foreign_ok; reflexivity).
  destruct (gpc x y) as [m|p] eqn:Hp.
  { left. erewrite bind_fail by (apply lift_foreign_err; reflexivity). eauto. }
  erewrite bind_run by (apply lift_foreign_ok; reflexivity).
  destruct cn as [m|[]] eqn:Hc.
  { left. erewrite bind_fail by (apply lift_foreign_err; reflexivity). eauto. }
  erewrite bind_run by (apply lift_foreign_ok; reflexivity).
  destruct (gac x y) as [m|a] eqn:Hax.
  { left. erewrite bind_fail by (apply lift_foreign_err; reflexivity). eauto. }
  erewrite bind_run by (apply lift_foreign_ok; reflexivity).
  right.
  erewrite bind_run by (apply add_source_run; norm; reflexivity).
  norm.
  erewrite bind_run by (apply add_subtitle_run; norm; reflexivity).
  norm.
  erewrite bind_run by (apply load_figure_run; norm; reflexivity).
  erewrite bind_run by apply store_run.
  norm.
  erewrite bind_run by apply alloc_run.
  norm.
  erewrite bind_run.
  2:{ eapply set_title_run; [solve_lookup ..]. }
  norm. unfold ret.
  do 7 eexists. split; [reflexivity|]. split; [reflexivity|].
  norm. repeat split; reflexivity.
Qed.

(** ** Construction *)

(** Membership of a Python value in a list of string literals. *)
Definition is_one_of (v : value) (l : list string) : Prop :=
  exists s, v = PyStr s /\ In s l.

Lemma py_in_strs_spec (v : value) (l : list string) :
  py_in_strs v l = true <-> is_one_of v l.
Proof.
  unfold py_in_strs, is_one_of. rewrite existsb_exists. split.
  - intros (s & Hin & Heq). destruct v; try discriminate Heq.
    cbn in Heq. apply String.eqb_eq in Heq. subst. eauto.
  - intros (s & -> & Hin). exists s. split; [exact Hin|].
    cbn. apply String.eqb_refl.
Qed.

Lemma py_in_strs_false (v : value) (l : list string) :
  py_in_strs v l = false <-> ~ is_one_of v l.
Proof.
  rewrite <- py_in_strs_spec. destruct (py_in_strs v l); split; intros H.
  - discriminate H.
  - exfalso. apply H. reflexivity.
  - intros H'. discriminate H'.
  - reflexivity.
Qed.

Definition x_axis_message : string :=
  "x_axis_type must be one of ['linear', 'log', 'datetime', 'categorical', 'density']".

Definition y_axis_message : string :=
  "y_axis_type must be one of ['linear', 'log', 'categorical', 'density']".

(** C3. The constructor raises a [ValueError] exactly when [x_axis_type] is
    not one of linear, log, datetime, categorical, density or [y_axis_type]
    is not one of linear, log, categorical, density, whatever the other
    arguments and the collaborators do; its message names the valid
    options of the axis that was refused (the x axis is checked first).
    For every pair inside the two sets no [ValueError] is raised. *)
Theorem C3_axis_type_validation ogv sn sas gpc gac cn
    (blank_labels layout x_axis_type y_axis_type : value) (w : world) :
  let r := fst (Chart__init__ ogv sn sas gpc gac cn
                              blank_labels layout x_axis_type y_axis_type w) in
  ((exists msg, r = Err (ValueError msg)) <->
   (~ is_one_of x_axis_type ["linear"; "log"; "datetime"; "categorical"; "density"]
    \/ ~ is_one_of y_axis_type ["linear"; "log"; "categorical"; "density"]))
  /\
  (forall msg, r = Err (ValueError msg) ->
     (~ is_one_of x_axis_type ["linear"; "log"; "datetime"; "categorical"; "density"]
      /\ msg = x_axis_message)
     \/
     (~ is_one_of y_axis_type ["linear"; "log"; "categorical"; "density"]
      /\ msg = y_axis_message)).
Proof.
  cbn zeta.
  change ["linear"; "log"; "datetime"; "categorical"; "density"]
    with valid_x_axis_types.
  change ["linear"; "log"; "categorical"; "density"] with valid_y_axis_types.
  destruct (py_in_strs x_axis_type valid_x_axis_types) eqn:Hx.
  - destruct (py_in_strs y_axis_type valid_y_axis_types) eqn:Hy.
    + assert (Hno : forall msg,
                fst (Chart__init__ ogv sn sas gpc gac cn blank_labels layout
                                   x_axis_type y_axis_type w)
                <> Err (ValueError msg)).
      { intros msg.
        destruct (init_valid_cases ogv sn sas gpc gac cn blank_labels layout
                    x_axis_type y_axis_type w Hx Hy)
          as [(o & m & w' & ->) | (st & p & a & t & f & s & g & _ & -> & _)];
          cbn; discriminate. }
      apply py_in_strs_spec in Hx, Hy. split.
      * split.
        -- intros [msg H]. exfalso. exact (Hno msg H).
        -- intros [H|H]; contradiction.
      * intros msg H. exfalso. exact (Hno msg H).
    + unfold Chart__init__. rewrite Hx, Hy. cbn [negb fst raise].
      apply py_in_strs_false in Hy. split.
      * split; [intros _; right; exact Hy | intros _; eexists; reflexivity].
      * intros msg H. right. split; [exact Hy|].
        injection H as <-. reflexivity.
  - unfold Chart__init__. rewrite Hx. cbn [negb fst raise].
    apply py_in_strs_false in Hx. split.
    + split; [intros _; left; exact Hx | intros _; eexists; reflexivity].
    + intros msg H. left. split; [exact Hx|].
      injection H as <-. reflexivity.
Qed.

(** The refusal at two explicit inputs: a bad x axis type is reported even
    when the y axis type is bad too, and a value that is not a string is
    refused like an unknown name. *)
Example axis_refusal_x :
  fst (Demo.init (PyBool false) (PyStr "slide_100%") (PyStr "polar") (PyStr "datetime")
                 Demo.empty_world)
  = Err (ValueError x_axis_message).
Proof. reflexivity. Qed.

Example axis_refusal_y :
  fst (Demo.init (PyBool false) (PyStr "slide_100%") (PyStr "datetime") PyNone
                 Demo.empty_world)
  = Err (ValueError y_axis_message).
Proof. reflexivity. Qed.

Example axis_accepted :
  fst (Demo.init (PyBool false) (PyStr "slide_100%") (PyStr "datetime") (PyStr "log")
                 Demo.empty_world)
  = Ok 4%nat.
Proof. reflexivity. Qed.

(** ** Charts in the store *)

(** A well-formed chart: [self] is a chart whose figure, title glyph,
    source label and subtitle glyph are objects of the right class, the
    subtitle glyph being one of the figure's renderers.  The constructor
    establishes this and the methods keep it. *)
Definition chart_okb (h : list obj) (self : loc) : bool :=
  match h !! self with
  | Some (OChart ch) =>
      match h !! figure ch with
      | Some (OFigure f) =>
          match h !! fig_title f, h !! _source ch, h !! _subtitle_glyph ch with
          | Some (OTitle _), Some (OLabel _), Some (OTitle _) =>
              existsb (Nat.eqb (_subtitle_glyph ch)) (renderers f)
          | _, _, _ => false
          end
      | _ => false
      end
  | _ => false
  end.

Definition chart_ok (w : world) (self : loc) : Prop :=
  chart_okb (heap w) self = true.

Lemma chart_ok_inv (w : world) (self : loc) :
  chart_ok w self ->
  exists ch f t s g,
    heap w !! self = Some (OChart ch) /\
    heap w !! figure ch = Some (OFigure f) /\
    heap w !! fig_title f = Some (OTitle t) /\
    heap w !! _source ch = Some (OLabel s) /\
    heap w !! _subtitle_glyph ch = Some (OTitle g) /\
    In (_subtitle_glyph ch) (renderers f).
Proof.
  unfold chart_ok, chart_okb. intros H.
  destruct (heap w !! self) as [[| | | | |ch|]|] eqn:Hc; try discriminate H.
  destruct (heap w !! figure ch) as [[| | | |f| |]|] eqn:Hf; try discriminate H.
  destruct (heap w !! fig_title f) as [[t| | | | | |]|] eqn:Ht; try discriminate H.
  destruct (heap w !! _source ch) as [[|s| | | | |]|] eqn:Hs; try discriminate H.
  destruct (heap w !! _subtitle_glyph ch) as [[g| | | | | |]|] eqn:Hg;
    try discriminate H.
  exists ch, f, t, s, g. repeat split; try assumption.
  apply existsb_exists in H as (l & Hin & Heq).
  apply Nat.eqb_eq in Heq. subst l. exact Hin.
Qed.

(** Writing an object of one class leaves the objects of other locations
    where they are, and is read back at its own location. *)
Lemma lookup_store_other (h : list obj) (l l' : loc) (o o' : obj) :
  h !! l' = Some o' -> l <> l' -> <[l := o]> h !! l' = Some o'.
Proof. intros H Hne. rewrite list_lookup_insert_ne by exact Hne. exact H. Qed.

Lemma lookup_store_same (h : list obj) (l : loc) (o o0 : obj) :
  h !! l = Some o0 -> <[l := o]> h !! l = Some o.
Proof.
  intros H. apply list_lookup_insert_eq. eapply lookup_lt_Some. exact H.
Qed.

Ltac distinct_locs :=
  let E := fresh in
  intros E; rewrite E in *; congruence.

Lemma title_run (self : loc) (w : world) ch f t :
  heap w !! self = Some (OChart ch) ->
  heap w !! figure ch = Some (OFigure f) ->
  heap w !! fig_title f = Some (OTitle t) ->
  title self w = (Ok (title_text t), w).
Proof.
  intros Hc Hf Ht. unfold title.
  erewrite bind_run by (apply load_chart_run; exact Hc).
  erewrite bind_run by (apply load_figure_run; exact Hf).
  erewrite bind_run by (apply load_title_run; exact Ht).
  reflexivity.
Qed.

Lemma subtitle_run (self : loc) (w : world) ch g :
  heap w !! self = Some (OChart ch) ->
  heap w !! _subtitle_glyph ch = Some (OTitle g) ->
  subtitle self w = (Ok (title_text g), w).
Proof.
  intros Hc Hg. unfold subtitle.
  erewrite bind_run by (apply load_chart_run; exact Hc).
  erewrite bind_run by (apply load_title_run; exact Hg).
  reflexivity.
Qed.

Lemma source_text_run (self : loc) (w : world) ch s :
  heap w !! self = Some (OChart ch) ->
  heap w !! _source ch = Some (OLabel s) ->
  source_text self w = (Ok (label_text s), w).
Proof.
  intros Hc Hs. unfold source_text.
  erewrite bind_run by (apply load_chart_run; exact Hc).
  erewrite bind_run by (apply load_label_run; exact Hs).
  reflexivity.
Qed.

Lemma set_subtitle_run (self : loc) (txt : string) (w : world) ch g :
  heap w !! self = Some (OChart ch) ->
  heap w !! _subtitle_glyph ch = Some (OTitle g) ->
  set_subtitle self txt w =
    (Ok (PyRef self),
     with_heap (<[_subtitle_glyph ch := OTitle (set_title_text txt g)]> (heap w)) w).
Proof.
  intros Hc Hg. unfold set_subtitle.
  erewrite bind_run by (apply load_chart_run; exact Hc).
  erewrite bind_run by (apply load_title_run; exact Hg).
  erewrite bind_run by apply store_run.
  reflexivity.
Qed.

Lemma set_source_label_run (self : loc) (txt : string) (w : world) ch s :
  heap w !! self = Some (OChart ch) ->
  heap w !! _source ch = Some (OLabel s) ->
  set_source_label self txt w =
    (Ok (PyRef self),
     with_heap (<[_source ch := OLabel (set_label_text txt s)]> (heap w)) w).
Proof.
  intros Hc Hs. unfold set_source_label.
  erewrite bind_run by (apply load_chart_run; exact Hc).
  erewrite bind_run by (apply load_label_run; exact Hs).
  erewrite bind_run by apply store_run.
  reflexivity.
Qed.

(** ** Labels *)

(** C4. On every chart and for every string [s]: [set_title(s)] followed
    by the [title] property gives [s]; [set_subtitle(s)] followed by
    [subtitle] gives [s]; [set_source_label(s)] followed by [source_text]
    gives [s]. *)
Theorem C4_setter_then_getter (w : world) (self : loc) (s : string) :
  chart_ok w self ->
  (exists w', set_title self s w = (Ok (PyRef self), w')
              /\ title self w' = (Ok s, w'))
  /\ (exists w', set_subtitle self s w = (Ok (PyRef self), w')
                 /\ subtitle self w' = (Ok s, w'))
  /\ (exists w', set_source_label self s w = (Ok (PyRef self), w')
                 /\ source_text self w' = (Ok s, w')).
Proof.
  intros Hok.
  destruct (chart_ok_inv w self Hok) as (ch & f & t & sl & g & Hc & Hf & Ht & Hs & Hg & _).
  split; [|split].
  - eexists. split; [eapply set_title_run; eassumption|].
    assert (fig_title f <> self) by distinct_locs.
    assert (fig_title f <> figure ch) by distinct_locs.
    eapply eq_trans; [eapply title_run; cbn [heap with_heap]|].
    + eapply lookup_store_other; eassumption.
    + eapply lookup_store_other; eassumption.
    + eapply lookup_store_same; eassumption.
    + reflexivity.
  - eexists. split; [eapply set_subtitle_run; eassumption|].
    assert (_subtitle_glyph ch <> self) by distinct_locs.
    eapply eq_trans; [eapply subtitle_run; cbn [heap with_heap]|].
    + eapply lookup_store_other; eassumption.
    + eapply lookup_store_same; eassumption.
    + reflexivity.
  - eexists. split; [eapply set_source_label_run; eassumption|].
    assert (_source ch <> self) by distinct_locs.
    eapply eq_trans; [eapply source_text_run; cbn [heap with_heap]|].
    + eapply lookup_store_other; eassumption.
    + eapply lookup_store_same; eassumption.
    + reflexivity.
Qed.

Lemma C4_witness :
  chart_ok Demo.chart_world Demo.chart0
  /\ (exists w', set_title Demo.chart0 "Revenue" Demo.chart_world
                 = (Ok (PyRef Demo.chart0), w')
                 /\ title Demo.chart0 w' = (Ok "Revenue", w')).
Proof.
  split; [reflexivity|].
  apply (C4_setter_then_getter Demo.chart_world Demo.chart0 "Revenue").
  reflexivity.
Defined.

(** A run of the constructor that returns a chart went through both axis
    checks and every collaborator. *)
Lemma init_ok_inv ogv sn sas gpc gac cn (bl layout x y : value)
    (w w' : world) (self : loc) :
  Chart__init__ ogv sn sas gpc gac cn bl layout x y w = (Ok self, w') ->
  exists st p a t f s g,
    sn layout = inr st /\
    self = (length (heap w) + 4)%nat /\
    w' = with_heap (heap w ++
                    [OTitle t; OFigure f; OLabel s; OTitle g;
                     OChart (mkChart x y (ogv bl) st (length (heap w) + 1)%nat p a
                                     (length (heap w) + 2)%nat
                                     (length (heap w) + 3)%nat)]) w /\
    fig_title f = length (heap w) /\
    renderers f = [(length (heap w) + 2)%nat; (length (heap w) + 3)%nat] /\
    title_text t = (if py_truthy (ogv bl) then "" else default_title) /\
    label_text s = (if py_truthy (ogv bl) then "" else default_source) /\
    title_text g = (if py_truthy (ogv bl) then "" else default_subtitle).
Proof.
  intros H.
  destruct (py_in_strs x valid_x_axis_types) eqn:Hx.
  2:{ unfold Chart__init__ in H. rewrite Hx in H. discriminate H. }
  destruct (py_in_strs y valid_y_axis_types) eqn:Hy.
  2:{ unfold Chart__init__ in H. rewrite Hx, Hy in H. discriminate H. }
  destruct (init_valid_cases ogv sn sas gpc gac cn bl layout x y w Hx Hy)
    as [(o & m & w'' & E) | (st & p & a & t & f & s & g & Hs & E & Hrest)].
  - rewrite E in H. discriminate H.
  - rewrite E in H. injection H as <- <-.
    exists st, p, a, t, f, s, g. repeat split; try tauto.
Qed.

Lemma init_chart_ok ogv sn sas gpc gac cn (bl layout x y : value)
    (w w' : world) (self : loc) :
  Chart__init__ ogv sn sas gpc gac cn bl layout x y w = (Ok self, w') ->
  chart_ok w' self.
Proof.
  intros H.
  destruct (init_ok_inv _ _ _ _ _ _ _ _ _ _ _ _ _ H)
    as (st & p & a & t & f & s & g & _ & -> & -> & Hft & Hr & _).
  unfold chart_ok, chart_okb. norm. rewrite Hft, Hr. norm.
  cbn [existsb]. rewrite Nat.eqb_refl. apply orb_true_r.
Qed.

(** C5. Immediately after construction the three labels are determined by
    the [blank_labels] argument as resolved by the options module
    ([options._get_value]): when it is true, [title], [subtitle] and
    [source_text] all return the empty string; when it is false they
    return the placeholder texts, none of which is empty. *)
Theorem C5_default_labels ogv sn sas gpc gac cn
    (blank_labels layout x_axis_type y_axis_type : value)
    (w w' : world) (self : loc) :
  Chart__init__ ogv sn sas gpc gac cn blank_labels layout
                x_axis_type y_axis_type w = (Ok self, w') ->
  (py_truthy (ogv blank_labels) = true ->
     title self w' = (Ok "", w')
     /\ subtitle self w' = (Ok "", w')
     /\ source_text self w' = (Ok "", w'))
  /\
  (py_truthy (ogv blank_labels) = false ->
     title self w' = (Ok "ch.set_title('Takeaway')", w')
     /\ subtitle self w' = (Ok "ch.set_subtitle('Data Description')", w')
     /\ source_text self w' = (Ok "ch.set_source_label('Source')", w')
     /\ "ch.set_title('Takeaway')" <> ""
     /\ "ch.set_subtitle('Data Description')" <> ""
     /\ "ch.set_source_label('Source')" <> "").
Proof.
  intros H.
  destruct (init_ok_inv _ _ _ _ _ _ _ _ _ _ _ _ _ H)
    as (st & p & a & t & f & s & g & _ & -> & -> & Hft & _ & Ht & Hs & Hg).
  assert (Htitle : forall v, title_text t = v ->
            title (length (heap w) + 4)%nat
                  (with_heap (heap w ++ [OTitle t; OFigure f; OLabel s; OTitle g;
                     OChart (mkChart x_axis_type y_axis_type (ogv blank_labels) st
                               (length (heap w) + 1)%nat p a
                               (length (heap w) + 2)%nat
                               (length (heap w) + 3)%nat)]) w)
            = (Ok v, with_heap (heap w ++ [OTitle t; OFigure f; OLabel s; OTitle g;
                     OChart (mkChart x_axis_type y_axis_type (ogv blank_labels) st
                               (length (heap w) + 1)%nat p a
                               (length (heap w) + 2)%nat
                               (length (heap w) + 3)%nat)]) w)).
  { intros v <-. eapply title_run; [solve_lookup | solve_lookup |].
    rewrite Hft. solve_lookup. }
  assert (Hsub : forall v, title_text g = v ->
            subtitle (length (heap w) + 4)%nat
                  (with_heap (heap w ++ [OTitle t; OFigure f; OLabel s; OTitle g;
                     OChart (mkChart x_axis_type y_axis_type (ogv blank_labels) st
                               (length (heap w) + 1)%nat p a
                               (length (heap w) + 2)%nat
                               (length (heap w) + 3)%nat)]) w)
            = (Ok v, with_heap (heap w ++ [OTitle t; OFigure f; OLabel s; OTitle g;
                     OChart (mkChart x_axis_type y_axis_type (ogv blank_labels) st
                               (length (heap w) + 1)%nat p a
                               (length (heap w) + 2)%nat
                               (length (heap w) + 3)%nat)]) w)).
  { intros v <-. eapply subtitle_run; [solve_lookup ..]. }
  assert (Hsrc : forall v, label_text s = v ->
            source_text (length (heap w) + 4)%nat
                  (with_heap (heap w ++ [OTitle t; OFigure f; OLabel s; OTitle g;
                     OChart (mkChart x_axis_type y_axis_type (ogv blank_labels) st
                               (length (heap w) + 1)%nat p a
                               (length (heap w) + 2)%nat
                               (length (heap w) + 3)%nat)]) w)
            = (Ok v, with_heap (heap w ++ [OTitle t; OFigure f; OLabel s; OTitle g;
                     OChart (mkChart x_axis_type y_axis_type (ogv blank_labels) st
                               (length (heap w) + 1)%nat p a
                               (length (heap w) + 2)%nat
                               (length (heap w) + 3)%nat)]) w)).
  { intros v <-. eapply source_text_run; [solve_lookup ..]. }
  split; intros Hb; rewrite Hb in Ht, Hs, Hg.
  - auto.
  - repeat split; try (intros E; discriminate E); auto.
Qed.

Lemma C5_witness :
  Demo.init (PyBool true) (PyStr "slide_50%") (PyStr "datetime") (PyStr "linear")
            Demo.empty_world
  = (Ok 4%nat,
     snd (Demo.init (PyBool true) (PyStr "slide_50%") (PyStr "datetime")
                    (PyStr "linear") Demo.empty_world))
  /\ title 4%nat (snd (Demo.init (PyBool true) (PyStr "slide_50%") (PyStr "datetime")
                                 (PyStr "linear") Demo.empty_world))
     = (Ok "", snd (Demo.init (PyBool true) (PyStr "slide_50%") (PyStr "datetime")
                              (PyStr "linear") Demo.empty_world)).
Proof.
  split; [reflexivity|].
  refine (proj1 (proj1 (C5_default_labels (fun v => v) (fun _ => inr Demo.style0)
            (fun _ _ => inr tt) (fun _ _ => inr "PlotNumericXY")
            (fun _ _ => inr "NumericalXYAxes") (inr tt)
            (PyBool true) (PyStr "slide_50%") (PyStr "datetime") (PyStr "linear")
            Demo.empty_world _ 4%nat _) _)).
  - reflexivity.
  - reflexivity.
Defined.

(** ** Export formats *)

Lemma py_eq_str_true (v : value) (s : string) :
  py_eq_str v s = true <-> v = PyStr s.
Proof.
  destruct v; cbn; try (split; intros H; discriminate H).
  rewrite String.eqb_eq. split; [intros ->; reflexivity | intros [= ->]; reflexivity].
Qed.

Lemma py_eq_str_false (v : value) (s : string) :
  v <> PyStr s -> py_eq_str v s = false.
Proof.
  intros H. destruct (py_eq_str v s) eqn:E; [|reflexivity].
  apply py_eq_str_true in E. contradiction.
Qed.

Lemma py_is_none_false (v : value) : v <> PyNone -> py_is_none v = false.
Proof. destruct v; intros H; try reflexivity. contradiction. Qed.

Definition invalid_format : exn :=
  ValueError "Invalid format. Valid options are 'html' or 'png'.".

Definition printed (line : string) (w : world) : world :=
  mkWorld (heap w) (warnings w) (stdout w ++ [line]) (files w) (displayed w).

(** C2, as the code has it.  For every format value other than "html",
    "png" and [None], [show] and [save] raise the [ValueError] for an
    invalid format and leave the world as it was.  [None] is accepted:
    [show(None)] does nothing and returns [None]; [save(filename, None)]
    writes no file, prints its message and returns the chart. *)
Theorem C2_invalid_format fh wc gs io rs hse ise
    (self : loc) (filename : string) (format : value) (w : world) :
  (format <> PyStr "html" -> format <> PyStr "png" -> format <> PyNone ->
     show fh wc gs io rs self format w = (Err invalid_format, w)
     /\ save fh wc gs io rs hse ise self filename format w
        = (Err invalid_format, w))
  /\ show fh wc gs io rs self PyNone w = (Ok PyNone, w)
  /\ save fh wc gs io rs hse ise self filename PyNone w
     = (Ok (PyRef self), printed ("Saved to " +:+ filename) w).
Proof.
  split; [|split; reflexivity].
  intros Hh Hp Hn.
  unfold show, save, _set_toolbar_for_format.
  rewrite (py_eq_str_false _ _ Hh), (py_eq_str_false _ _ Hp),
    (py_is_none_false _ Hn).
  split; reflexivity.
Qed.

Lemma C2_witness :
  Demo.show0 Demo.chart0 (PyStr "svg") Demo.chart_world
  = (Err invalid_format, Demo.chart_world)
  /\ Demo.save0 Demo.chart0 "chart.svg" (PyStr "svg") Demo.chart_world
     = (Err invalid_format, Demo.chart_world).
Proof.
  refine (proj1 (C2_invalid_format _ _ _ _ _ _ _ Demo.chart0 "chart.svg"
                   (PyStr "svg") Demo.chart_world) _ _ _);
    intros H; discriminate H.
Defined.

(** The claim as worded, with [None] among the refused values, fails on a
    freshly built chart: [show(None)] and [save("chart.png", None)] both
    return normally. *)
Lemma C2_counterexample :
  ~ (forall format : value,
       format <> PyStr "html" -> format <> PyStr "png" ->
       (exists msg, fst (Demo.show0 Demo.chart0 format Demo.chart_world)
                    = Err (ValueError msg))
       /\ (exists msg, fst (Demo.save0 Demo.chart0 "chart.png" format
                                       Demo.chart_world)
                       = Err (ValueError msg))).
Proof.
  intros H.
  destruct (H PyNone) as [[msg Hshow] _]; try (intros E; discriminate E).
  cbn in Hshow. discriminate Hshow.
Qed.

(** ** PNG export *)

(** The browser, launched with the window size of the chart, renders the
    figure of chart [ch] as it is in world [w], and the screenshot decodes
    to [image]. *)
Definition screenshot_is
    (fh : list obj -> loc -> string -> string)
    (wc : list string -> string + unit)
    (gs : list string -> string -> string + list Byte.byte)
    (io : list Byte.byte -> string + Image)
    (w : world) (ch : Chart) (image : Image) : Prop :=
  wc (browser_options (style ch)) = inr tt
  /\ exists png,
       gs (browser_options (style ch)) (fh (heap w) (figure ch) "") = inr png
       /\ io png = inr image.

Definition target_size (ch : Chart) : Z * Z :=
  (plot_width (style ch), plot_height (style ch)).

Lemma size_eqb_eq (a b : Z * Z) : size_eqb a b = true <-> a = b.
Proof.
  destruct a as [a1 a2], b as [b1 b2]. unfold size_eqb. cbn [fst snd].
  rewrite andb_true_iff, !Z.eqb_eq. split.
  - intros [-> ->]. reflexivity.
  - intros [= -> ->]. split; reflexivity.
Qed.

Lemma figure_to_png_run fh wc gs io rs (self : loc) (w : world) ch image :
  heap w !! self = Some (OChart ch) ->
  screenshot_is fh wc gs io w ch image ->
  size image = target_size ch
  \/ (0 < plot_width (style ch) /\ 0 < plot_height (style ch)) ->
  exists result,
    _figure_to_png fh wc gs io rs self w = (Ok result, w)
    /\ size result = target_size ch
    /\ (size image = target_size ch -> result = image)
    /\ (size image <> target_size ch ->
        result = mkImage (target_size ch) (rs LANCZOS (target_size ch) image)).
Proof.
  intros Hc (Hwc & png & Hgs & Hio) Hsize. unfold _figure_to_png.
  erewrite bind_run by (apply load_chart_run; exact Hc).
  erewrite bind_run by (apply lift_foreign_ok; exact Hwc).
  erewrite bind_run by reflexivity.
  erewrite bind_run by (apply lift_foreign_ok; exact Hgs).
  erewrite bind_run by (apply lift_foreign_ok; exact Hio).
  fold (target_size ch).
  destruct (size_eqb (size image) (target_size ch)) eqn:E; cbn [negb].
  - apply size_eqb_eq in E. exists image. repeat split; try assumption.
    intros Hne. contradiction.
  - assert (Hne : size image <> target_size ch).
    { intros Heq. apply size_eqb_eq in Heq. congruence. }
    destruct Hsize as [Heq | [Hw Hh]]; [contradiction|].
    exists (mkImage (target_size ch) (rs LANCZOS (target_size ch) image)).
    unfold lift, Image_resize. cbn [fst snd target_size].
    apply Z.ltb_lt in Hw, Hh. rewrite Hw, Hh. cbn [andb].
    repeat split; try reflexivity. intros Heq. contradiction.
Qed.

(** The world in which the browser sees the figure during a PNG export:
    the toolbar has been hidden. *)
Definition toolbar_hidden (w : world) (ch : Chart) (f : Figure) : world :=
  with_heap (<[figure ch := OFigure (set_toolbar_location PyNone f)]> (heap w)) w.

Definition saved_image (filename : string) (im : Image) (w : world) : world :=
  mkWorld (heap w) (warnings w) (stdout w ++ ["Saved to " +:+ filename])
          ((filename, FImage im) :: files w) (displayed w).

(** C1. When the browser delivers a screenshot that decodes to [image],
    [_figure_to_png] returns an image of exactly the configured size
    ([plot_width], [plot_height]): [image] itself when it already has that
    size, and otherwise [image] resampled to that size with the Lanczos
    filter.  [save(filename, format="png")] writes that image to
    [filename] and returns the chart.  (The resize needs a positive target
    size.) *)
Theorem C1_png_has_configured_size fh wc gs io rs hse ise
    (self : loc) (filename : string) (w : world) ch f image :
  heap w !! self = Some (OChart ch) ->
  heap w !! figure ch = Some (OFigure f) ->
  screenshot_is fh wc gs io (toolbar_hidden w ch f) ch image ->
  size image = target_size ch
  \/ (0 < plot_width (style ch) /\ 0 < plot_height (style ch)) ->
  exists result,
    _figure_to_png fh wc gs io rs self (toolbar_hidden w ch f)
    = (Ok result, toolbar_hidden w ch f)
    /\ size result = (plot_width (style ch), plot_height (style ch))
    /\ (size image = target_size ch -> result = image)
    /\ (size image <> target_size ch ->
        result = mkImage (target_size ch) (rs LANCZOS (target_size ch) image))
    /\ (ise result filename = None ->
        save fh wc gs io rs hse ise self filename (PyStr "png") w
        = (Ok (PyRef self), saved_image filename result (toolbar_hidden w ch f))).
Proof.
  intros Hc Hf Hshot Hsize.
  assert (Hne : figure ch <> self) by distinct_locs.
  assert (Hc1 : heap (toolbar_hidden w ch f) !! self = Some (OChart ch)).
  { cbn [toolbar_hidden heap with_heap]. eapply lookup_store_other; eassumption. }
  destruct (figure_to_png_run fh wc gs io rs self _ ch image Hc1 Hshot Hsize)
    as (result & Hrun & Hsz & Hsame & Hdiff).
  exists result. repeat split; try assumption.
  intros Hsave. unfold save, _set_toolbar_for_format.
  cbn [py_eq_str String.eqb Ascii.eqb Bool.eqb andb].
  erewrite bind_run.
  2:{ erewrite bind_run by (apply load_chart_run; exact Hc).
      erewrite bind_run by (apply load_figure_run; exact Hf).
      apply store_run. }
  fold (toolbar_hidden w ch f).
  erewrite bind_run.
  2:{ erewrite bind_run by exact Hrun.
      unfold io_failure. rewrite Hsave.
      erewrite bind_run by reflexivity.
      reflexivity. }
  reflexivity.
Qed.

Lemma C1_witness :
  exists result,
    size result = (12, 9)
    /\ size Demo.screenshot = (8, 6)
    /\ files (snd (Demo.save0 Demo.chart0 "chart.png" (PyStr "png") Demo.chart_world))
       = [("chart.png", FImage result)].
Proof.
  edestruct (C1_png_has_configured_size
               (fun _ _ _ => "<html></html>") (fun _ => inr tt)
               (fun _ _ => inr []) (fun _ => inr Demo.screenshot) Demo.resample0
               (fun _ => None) (fun _ _ => None)
               Demo.chart0 "chart.png" Demo.chart_world)
    as (result & Hrun & Hsz & _ & _ & Hsave).
  - reflexivity.
  - reflexivity.
  - split; [reflexivity|]. exists []. split; reflexivity.
  - right. cbn. lia.
  - exists result. split; [exact Hsz|]. split; [reflexivity|].
    unfold Demo.save0. rewrite (Hsave eq_refl). reflexivity.
Defined.

(** ** Logos *)

Lemma assoc_none (k : string) (l : list (string * string)) :
  assoc k l = None <-> ~ In k (map fst l).
Proof.
  induction l as [|[k' v] l IH]; cbn [assoc map fst In].
  - tauto.
  - destruct (String.eqb k' k) eqn:E.
    + apply String.eqb_eq in E. split; [intros H; discriminate H | tauto].
    + apply String.eqb_neq in E. rewrite IH. tauto.
Qed.

(** A value is a registered logo name when it is a string that occurs
    among the keys of the mapping. *)
Definition registered (mapping : list (string * string)) (logo : value) : Prop :=
  exists k, logo = PyStr k /\ In k (map fst mapping).

Lemma py_getitem_none (mapping : list (string * string)) (logo : value) :
  py_getitem mapping logo = None <-> ~ registered mapping logo.
Proof.
  unfold registered. destruct logo; cbn [py_getitem];
    try (split; [intros _ (k & E & _); discriminate E | reflexivity]).
  rewrite assoc_none. split.
  - intros H (k & [= ->] & Hin). contradiction.
  - intros H Hin. apply H. eauto.
Qed.

(** C7. For every value that is not a key of the logo file mapping,
    [set_logo] raises a [KeyError] whose message is the fixed prefix
    followed by the list of the registered names, in the order of the
    mapping; the store, and with it the logo image held by the [Logo]
    object, is exactly as before the call. *)
Theorem C7_set_logo_unknown_name iof rs it isc
    (self : loc) (logo : value) (w : world) (lg : Logo) :
  heap w !! self = Some (OLogo lg) ->
  ~ registered (_logo_file_mapping lg) logo ->
  set_logo iof rs it isc self logo w
  = (Err (KeyError ("Must supply a valid logo name: "
                    +:+ py_repr_str_list (map fst (_logo_file_mapping lg)))), w)
  /\ heap w !! self = Some (OLogo lg).
Proof.
  intros Hl Hreg. split; [|exact Hl].
  apply py_getitem_none in Hreg. unfold set_logo.
  erewrite bind_run by (apply load_logo_run; exact Hl).
  rewrite Hreg. reflexivity.
Qed.

Lemma C7_witness :
  set_logo (fun _ => inl "no such file") Demo.resample0 (fun h => h / 10)
           (fun lw lh t => lw * t / lh) 0%nat (PyStr "initech")
           (mkWorld [OLogo (mkLogo 4%nat (Some Demo.screenshot) "logos/"
                                   [("acme", "acme.png"); ("globex", "globex.png")])]
                    [] [] [] [])
  = (Err (KeyError "Must supply a valid logo name: ['acme', 'globex']"),
     mkWorld [OLogo (mkLogo 4%nat (Some Demo.screenshot) "logos/"
                            [("acme", "acme.png"); ("globex", "globex.png")])]
             [] [] [] []).
Proof.
  refine (proj1 (C7_set_logo_unknown_name _ _ _ _ 0%nat (PyStr "initech")
                   (mkWorld [OLogo (mkLogo 4%nat (Some Demo.screenshot) "logos/"
                               [("acme", "acme.png"); ("globex", "globex.png")])]
                            [] [] [] [])
                   (mkLogo 4%nat (Some Demo.screenshot) "logos/"
                           [("acme", "acme.png"); ("globex", "globex.png")])
                   eq_refl _)).
  intros (k & [= <-] & Hin). cbn in Hin.
  destruct Hin as [E|[E|[]]]; discriminate E.
Defined.

(** A [Logo] as its constructor leaves it has no registered name at all:
    every call of [set_logo] fails, the default argument [None]
    included. *)
Example fresh_logo_has_no_names :
  let w := snd (Logo__init__ "logos/" Demo.chart0 Demo.chart_world) in
  fst (set_logo (fun _ => inl "no such file") Demo.resample0 (fun h => h / 10)
                (fun lw lh t => lw * t / lh) 5%nat PyNone w)
  = Err (KeyError "Must supply a valid logo name: []").
Proof. reflexivity. Qed.

(** The region of the chart image a paste at [box] writes to. *)
Definition in_box (box : Z * Z) (extent : Z * Z) (x y : Z) : bool :=
  (fst box <=? x)%Z && (x <? fst box + fst extent)%Z
  && (snd box <=? y)%Z && (y <? snd box + snd extent)%Z.

Lemma paste_pix blend (dst src mask : Image) (box : Z * Z) (x y : Z) :
  pix (paste blend dst src box mask) x y
  = if in_box box (size src) x y
    then blend (pix dst x y) (pix src (x - fst box) (y - snd box))
               (alpha (pix mask (x - fst box) (y - snd box)))
    else pix dst x y.
Proof.
  unfold paste, in_box. cbn [pix].
  replace (0 <=? x - fst box)%Z with (fst box <=? x)%Z
    by (apply eq_true_iff_eq; rewrite !Z.leb_le; lia).
  replace (x - fst box <? fst (size src))%Z with (x <? fst box + fst (size src))%Z
    by (apply eq_true_iff_eq; rewrite !Z.ltb_lt; lia).
  replace (0 <=? y - snd box)%Z with (snd box <=? y)%Z
    by (apply eq_true_iff_eq; rewrite !Z.leb_le; lia).
  replace (y - snd box <? snd (size src))%Z with (y <? snd box + snd (size src))%Z
    by (apply eq_true_iff_eq; rewrite !Z.ltb_lt; lia).
  reflexivity.
Qed.

(** C8, as the code has it.  Without a logo the image is returned as it
    is.  With a logo, the logo is pasted through its own alpha channel
    with its upper left corner 10 pixels below the top edge, and 10
    pixels plus the width of the logo's bounding box to the left of the
    right edge of the chart's bounding box: every pixel inside that
    region is the blend of the chart pixel and the logo pixel, every
    other pixel is the chart's, and the size is unchanged.  The logo sits
    in the top right corner. *)
Theorem C8_logo_pasted_top_right blend (self : loc) (image : Image)
    (w : world) (lg : Logo) :
  heap w !! self = Some (OLogo lg) ->
  (_logo_image lg = None ->
     _add_logo_to_image blend self image w = (Ok image, w))
  /\
  (forall logo l u r d l' u' r' d',
     _logo_image lg = Some logo ->
     getbbox image = Some (l, u, r, d) ->
     getbbox logo = Some (l', u', r', d') ->
     exists result,
       _add_logo_to_image blend self image w = (Ok result, w)
       /\ size result = size image
       /\ forall x y,
            pix result x y
            = if in_box (r - r' - 10, 10) (size logo) x y
              then blend (pix image x y)
                         (pix logo (x - (r - r' - 10)) (y - 10))
                         (alpha (pix logo (x - (r - r' - 10)) (y - 10)))
              else pix image x y).
Proof.
  intros Hl. split.
  - intros Hnone. unfold _add_logo_to_image.
    erewrite bind_run by (apply load_logo_run; exact Hl).
    rewrite Hnone. reflexivity.
  - intros logo l u r d l' u' r' d' Hsome Hb Hb'.
    exists (paste blend image logo (r - r' - 10, 0 + 10) logo).
    split; [|split].
    + unfold _add_logo_to_image.
      erewrite bind_run by (apply load_logo_run; exact Hl).
      rewrite Hsome. unfold bbox_right. rewrite Hb, Hb'. reflexivity.
    + reflexivity.
    + intros x y. rewrite paste_pix. reflexivity.
Qed.

Module LogoDemo.

Definition chart_image : Image := mkImage (40, 30) (fun _ _ => Demo.white).
Definition logo_image : Image := mkImage (5, 4) (fun _ _ => Demo.black).

Definition logo0 : Logo := mkLogo Demo.chart0 (Some logo_image) "logos/" [].
Definition world0 : world := mkWorld [OLogo logo0] [] [] [] [].

End LogoDemo.

Lemma C8_witness :
  exists result,
    _add_logo_to_image Demo.blend0 0%nat LogoDemo.chart_image LogoDemo.world0
    = (Ok result, LogoDemo.world0)
    /\ pix result 27 11 = Demo.black
    /\ pix result 27 17 = Demo.white
    /\ pix result 27 9 = Demo.white.
Proof.
  destruct (C8_logo_pasted_top_right Demo.blend0 0%nat LogoDemo.chart_image
              LogoDemo.world0 LogoDemo.logo0 eq_refl) as [_ H].
  destruct (H LogoDemo.logo_image 0 0 40 30 0 0 5 4 eq_refl eq_refl eq_refl)
    as (result & Hrun & _ & Hpix).
  exists result. split; [exact Hrun|].
  rewrite !Hpix. repeat split; reflexivity.
Defined.

(** The placement the claim words: the lower right corner, with the same
    padding of 10 pixels on both sides. *)
Definition paste_bottom_right blend (image logo : Image) : Image :=
  paste blend image logo
        (fst (size image) - fst (size logo) - 10,
         snd (size image) - snd (size logo) - 10)
        logo.

(** On a white 40 x 30 chart image and a black 5 x 4 logo the code does
    not produce the image with the logo in the lower right corner: the
    pixel (27, 11), near the top, is black. *)
Lemma C8_counterexample :
  exists result,
    fst (_add_logo_to_image Demo.blend0 0%nat LogoDemo.chart_image LogoDemo.world0)
    = Ok result
    /\ result <> paste_bottom_right Demo.blend0 LogoDemo.chart_image
                                     LogoDemo.logo_image
    /\ pix result 27 11 = Demo.black
    /\ pix (paste_bottom_right Demo.blend0 LogoDemo.chart_image LogoDemo.logo_image)
           27 11 = Demo.white.
Proof.
  exists (paste Demo.blend0 LogoDemo.chart_image LogoDemo.logo_image (25, 10)
                LogoDemo.logo_image).
  split; [reflexivity|]. split; [|split; reflexivity].
  intros E. apply (f_equal (fun im => pix im 27 11)) in E.
  vm_compute in E. discriminate E.
Qed.

(** ** Legends *)

(** The store after an attribute has been assigned on every legend of a
    list, one after the other. *)
Fixpoint splat_heap (upd : Legend -> Legend) (ls : list loc) (h : list obj)
    : list obj :=
  match ls with
  | [] => h
  | l :: ls' =>
      splat_heap upd ls'
        (match h !! l with
         | Some (OLegend g) => <[l := OLegend (upd g)]> h
         | _ => h
         end)
  end.

Lemma is_legend_true (h : list obj) (l : loc) :
  is_legend h l = true <-> exists g, h !! l = Some (OLegend g).
Proof.
  unfold is_legend. destruct (h !! l) as [[]|]; split;
    try (intros H; discriminate H); try (intros [g H]; discriminate H); eauto.
Qed.

Lemma is_legend_store_legend (h : list obj) (l l' : loc) (g g' : Legend) :
  h !! l = Some (OLegend g) ->
  is_legend (<[l := OLegend g']> h) l' = is_legend h l'.
Proof.
  intros H. unfold is_legend. destruct (decide (l = l')) as [<-|Hne].
  - rewrite (lookup_store_same _ _ _ _ H), H. reflexivity.
  - rewrite list_lookup_insert_ne by exact Hne. reflexivity.
Qed.

Lemma splat_setattr_run (set : Legend -> res Legend) (upd : Legend -> Legend) :
  (forall g, set g = Ok (upd g)) ->
  forall (ls : list loc) (w : world),
    (forall l, In l ls -> is_legend (heap w) l = true) ->
    splat_setattr set ls w = (Ok tt, with_heap (splat_heap upd ls (heap w)) w).
Proof.
  intros Hset. induction ls as [|l ls IH]; intros w Hall.
  - cbn. rewrite with_heap_same. reflexivity.
  - cbn [splat_setattr splat_heap].
    destruct (proj1 (is_legend_true _ _) (Hall l (or_introl eq_refl))) as [g Hg].
    erewrite bind_run by (apply load_legend_run; exact Hg).
    erewrite bind_run by (unfold lift; rewrite Hset; reflexivity).
    erewrite bind_run by apply store_run.
    rewrite IH.
    + cbn [heap with_heap]. rewrite Hg, with_heap_twice. reflexivity.
    + intros l' Hin. cbn [heap with_heap].
      rewrite (is_legend_store_legend _ _ _ _ _ Hg).
      apply Hall. right. exact Hin.
Qed.

(** What the assignment leaves in the store: the legends of the list
    carry the new attribute, every other object is untouched. *)
Lemma splat_heap_lookup (upd : Legend -> Legend) :
  (forall g, upd (upd g) = upd g) ->
  forall (ls : list loc) (h : list obj) (l : loc),
    splat_heap upd ls h !! l
    = match h !! l with
      | Some (OLegend g) =>
          if existsb (Nat.eqb l) ls then Some (OLegend (upd g))
          else Some (OLegend g)
      | o => o
      end.
Proof.
  intros Hidem. induction ls as [|a ls IH]; intros h l.
  - cbn. destruct (h !! l) as [[]|]; reflexivity.
  - cbn [splat_heap existsb]. rewrite IH.
    destruct (Nat.eqb_spec l a) as [->|Hne]; cbn [orb].
    + destruct (h !! a) as [[]|] eqn:Ha; rewrite ?Ha; try reflexivity.
      rewrite (lookup_store_same _ _ _ _ Ha), Hidem.
      destruct (existsb (Nat.eqb a) ls); reflexivity.
    + destruct (h !! a) as [[]|] eqn:Ha; try reflexivity.
      rewrite list_lookup_insert_ne by (intros E; apply Hne; symmetry; exact E).
      reflexivity.
Qed.

Lemma splat_heap_other (upd : Legend -> Legend) (ls : list loc) (h : list obj)
    (l : loc) (o : obj) :
  (forall g, upd (upd g) = upd g) ->
  h !! l = Some o ->
  (forall g, o <> OLegend g) ->
  splat_heap upd ls h !! l = Some o.
Proof.
  intros Hidem Hl Hno. rewrite (splat_heap_lookup upd Hidem), Hl.
  destruct o; try reflexivity. exfalso. eapply Hno. reflexivity.
Qed.

Lemma splat_heap_legend (upd : Legend -> Legend) (ls : list loc) (h : list obj)
    (l : loc) (g : Legend) :
  (forall g, upd (upd g) = upd g) ->
  h !! l = Some (OLegend g) ->
  In l ls ->
  splat_heap upd ls h !! l = Some (OLegend (upd g)).
Proof.
  intros Hidem Hl Hin. rewrite (splat_heap_lookup upd Hidem), Hl.
  replace (existsb (Nat.eqb l) ls) with true; [reflexivity|].
  symmetry. apply existsb_exists. exists l. split; [exact Hin|].
  apply Nat.eqb_refl.
Qed.

Lemma splat_heap_is_legend (upd : Legend -> Legend) (ls : list loc) (h : list obj)
    (l : loc) :
  (forall g, upd (upd g) = upd g) ->
  is_legend (splat_heap upd ls h) l = is_legend h l.
Proof.
  intros Hidem. unfold is_legend. rewrite (splat_heap_lookup upd Hidem).
  destruct (h !! l) as [[]|]; try reflexivity.
  destruct (existsb (Nat.eqb l) ls); reflexivity.
Qed.

Lemma filter_is_legend_splat (upd : Legend -> Legend) (ls rs : list loc)
    (h : list obj) :
  (forall g, upd (upd g) = upd g) ->
  List.filter (is_legend (splat_heap upd ls h)) rs = List.filter (is_legend h) rs.
Proof.
  intros Hidem. apply List.filter_ext. intros l.
  apply splat_heap_is_legend. exact Hidem.
Qed.

Lemma figure_legend_run (fig : loc) (w : world) (f : Figure) :
  heap w !! fig = Some (OFigure f) ->
  figure_legend fig w = (Ok (List.filter (is_legend (heap w)) (renderers f)), w).
Proof.
  intros Hf. unfold figure_legend.
  erewrite bind_run by (apply load_figure_run; exact Hf).
  reflexivity.
Qed.

Lemma filter_is_legend_all (h : list obj) (rs : list loc) (l : loc) :
  In l (List.filter (is_legend h) rs) -> is_legend h l = true.
Proof. intros H. apply filter_In in H. tauto. Qed.

Definition with_location (v : value) (g : Legend) : Legend :=
  mkLegend v (legend_orientation g) (legend_visible g) (legend_plot g).

Definition with_orientation (v : value) (g : Legend) : Legend :=
  mkLegend (legend_location g) v (legend_visible g) (legend_plot g).

Definition warned (w : world) : world :=
  mkWorld (heap w) (warnings w ++ [("UserWarning", legend_warning)])
          (stdout w) (files w) (displayed w).

Lemma set_location_ok (v : value) (g : Legend) :
  valid_legend_location v = true ->
  set_legend_location_attr v g = Ok (with_location v g).
Proof. intros H. unfold set_legend_location_attr. rewrite H. reflexivity. Qed.

Lemma set_orientation_ok (v : value) (g : Legend) :
  valid_orientation v = true ->
  set_legend_orientation_attr v g = Ok (with_orientation v g).
Proof. intros H. unfold set_legend_orientation_attr. rewrite H. reflexivity. Qed.

Lemma py_index_found (x : loc) (l : list loc) :
  In x l -> exists i, py_index x l = Ok i /\ l !! i = Some x.
Proof.
  induction l as [|y l IH]; intros Hin; [destruct Hin|].
  cbn [py_index]. destruct (Nat.eqb_spec y x) as [->|Hne].
  - exists 0%nat. split; reflexivity.
  - destruct Hin as [E|Hin]; [contradiction|].
    destruct (IH Hin) as (i & -> & Hi). exists (S i). split; [reflexivity|exact Hi].
Qed.

Lemma in_delete_other (x y : loc) (l : list loc) (i : nat) :
  l !! i = Some x -> In y l -> y <> x -> In y (delete i l).
Proof.
  revert i. induction l as [|a l IH]; intros i Hi Hin Hne; [destruct Hin|].
  destruct i as [|i]; cbn in Hi |- *.
  - injection Hi as ->. destruct Hin as [E|Hin]; [congruence|exact Hin].
  - destruct Hin as [E|Hin]; [left; exact E|right].
    eapply IH; eassumption.
Qed.

Section LegendRuns.

Variables (w : world) (self : loc) (ch : Chart) (f : Figure).
Hypothesis Hc : heap w !! self = Some (OChart ch).
Hypothesis Hf : heap w !! figure ch = Some (OFigure f).

(** [figure.legend] before the call. *)
Definition legends : list loc := List.filter (is_legend (heap w)) (renderers f).

(** Without a legend the local function only warns. *)
Lemma add_outside_legend_none (orientation : value) (s : string) (p : place) :
  legends = [] ->
  add_outside_legend self orientation s p w = (Ok (PyRef self), warned w).
Proof.
  intros Hnil. unfold add_outside_legend.
  erewrite bind_run by (apply load_chart_run; exact Hc).
  erewrite bind_run by (apply figure_legend_run; exact Hf).
  fold legends. rewrite Hnil. cbn [splat_setattr].
  erewrite bind_run by reflexivity.
  erewrite bind_run by (apply figure_legend_run; exact Hf).
  fold legends. rewrite Hnil.
  reflexivity.
Qed.

(** The store after the first legend [l] has been re-attached at place
    [p]: every legend has the new location, [l] has the requested
    orientation and belongs to the figure, and the figure lists [l] among
    its renderers and in the panel of [p]. *)
Definition outside_heap (s : string) (orientation : value) (p : place)
    (l : loc) (gl : Legend) : list obj :=
  <[figure ch := OFigure (attach l p f)]>
    (<[l := OLegend (mkLegend (PyStr s) orientation (legend_visible gl)
                              (Some (figure ch)))]>
       (splat_heap (with_location (PyStr s)) legends (heap w))).

Lemma with_location_idem (v : value) (g : Legend) :
  with_location v (with_location v g) = with_location v g.
Proof. reflexivity. Qed.

Lemma add_outside_legend_some (orientation : value) (s : string) (p : place)
    (l : loc) (rest : list loc) (gl : Legend) :
  legends = l :: rest ->
  heap w !! l = Some (OLegend gl) ->
  valid_legend_location (PyStr s) = true ->
  valid_orientation orientation = true ->
  add_outside_legend self orientation s p w
  = (Ok PyNone, with_heap (outside_heap s orientation p l gl) w).
Proof.
  intros HL Hl Hloc Hor. unfold add_outside_legend, outside_heap.
  pose proof (with_location_idem (PyStr s)) as Hidem.
  assert (Hl1 : splat_heap (with_location (PyStr s)) legends (heap w) !! l
                = Some (OLegend (with_location (PyStr s) gl))).
  { apply splat_heap_legend; [exact Hidem | exact Hl |].
    rewrite HL. left. reflexivity. }
  assert (Hf1 : splat_heap (with_location (PyStr s)) legends (heap w) !! figure ch
                = Some (OFigure f)).
  { apply splat_heap_other; [exact Hidem | exact Hf | discriminate]. }
  assert (HL1 : List.filter
                  (is_legend (splat_heap (with_location (PyStr s)) legends (heap w)))
                  (renderers f) = l :: rest).
  { rewrite filter_is_legend_splat by exact Hidem. exact HL. }
  assert (Hne : figure ch <> l) by distinct_locs.
  erewrite bind_run by (apply load_chart_run; exact Hc).
  erewrite bind_run by (apply figure_legend_run; exact Hf).
  fold legends.
  erewrite bind_run.
  2:{ apply (splat_setattr_run _ (with_location (PyStr s))).
      - intros g. apply set_location_ok. exact Hloc.
      - intros l' Hin. eapply filter_is_legend_all. exact Hin. }
  set (h1 := splat_heap (with_location (PyStr s)) legends (heap w)) in *.
  erewrite bind_run by (apply figure_legend_run; exact Hf1).
  cbn [heap with_heap]. rewrite HL1.
  erewrite bind_run by (apply load_legend_run; exact Hl1).
  erewrite bind_run by apply store_run.
  erewrite bind_run
    by (apply load_legend_run; cbn [heap with_heap];
        eapply lookup_store_same; exact Hl1).
  erewrite bind_run
    by (unfold lift; rewrite set_orientation_ok by exact Hor; reflexivity).
  erewrite bind_run by apply store_run.
  cbn [heap with_heap]. rewrite list_insert_insert_eq, with_heap_twice.
  erewrite bind_run.
  2:{ eapply add_layout_run; cbn [heap with_heap].
      - eapply lookup_store_same. exact Hl1.
      - reflexivity.
      - rewrite list_lookup_insert_ne by (intros E; apply Hne; symmetry; exact E).
        exact Hf1. }
  cbn [heap with_heap set_obj_plot]. rewrite list_insert_insert_eq, with_heap_twice.
  reflexivity.
Qed.

End LegendRuns.

(** The second half of the 'outside_top' branch: the subtitle glyph is taken
    out of the renderer list and a new one, with the same text, is added
    after the legend. *)
Definition rerender_subtitle (self : loc) : M unit :=
  (ch <- load_chart self ;;
   f <- load_figure (figure ch) ;;
   subtitle_index <- lift (py_index (_subtitle_glyph ch) (renderers f)) ;;
   store (figure ch)
         (OFigure (set_renderers (delete subtitle_index (renderers f)) f)) ;;;
   old <- load_title (_subtitle_glyph ch) ;;
   g <- _add_subtitle_to_figure (_blank_labels ch) (style ch) (figure ch)
                                (Some (title_text old)) ;;
   store self (OChart (set_subtitle_glyph g ch)))%py.

Lemma set_legend_location_outside_top (self : loc) (orientation : value) :
  set_legend_location self (PyStr "outside_top") orientation
  = ((add_outside_legend self orientation "top_left" PlaceAbove ;;;
      rerender_subtitle self) ;;;
     ret (PyRef self))%py.
Proof. reflexivity. Qed.

Lemma panel_attach_incl (p q : place) (o x : loc) (f : Figure) :
  In x (panel p f) -> In x (panel p (attach o q f)).
Proof.
  intros H. destruct p, q; cbn [panel attach fig_left fig_right fig_above
                                 fig_below fig_center];
    try exact H; apply in_or_app; left; exact H.
Qed.

Lemma panel_set_renderers (p : place) (r : list loc) (f : Figure) :
  panel p (set_renderers r f) = panel p f.
Proof. destruct p; reflexivity. Qed.

Lemma panel_attach_self (p : place) (o : loc) (f : Figure) :
  p <> PlaceCenter -> In o (panel p (attach o p f)).
Proof.
  intros Hp. destruct p; try contradiction;
    cbn [panel attach fig_left fig_right fig_above fig_below];
    apply in_or_app; right; left; reflexivity.
Qed.

Lemma rerender_subtitle_run (w : world) (self : loc) ch f g :
  heap w !! self = Some (OChart ch) ->
  heap w !! figure ch = Some (OFigure f) ->
  heap w !! _subtitle_glyph ch = Some (OTitle g) ->
  In (_subtitle_glyph ch) (renderers f) ->
  exists h' f',
    rerender_subtitle self w = (Ok tt, with_heap h' w)
    /\ h' !! figure ch = Some (OFigure f')
    /\ (forall p x, In x (panel p f) -> In x (panel p f'))
    /\ (forall x, In x (renderers f) -> x <> _subtitle_glyph ch ->
                  In x (renderers f'))
    /\ (forall l o, l <> self -> l <> figure ch ->
                    heap w !! l = Some o -> h' !! l = Some o).
Proof.
  intros Hc Hf Hg Hin.
  destruct (py_index_found _ _ Hin) as (i & Hi & Hix).
  assert (Hne1 : figure ch <> self) by distinct_locs.
  assert (Hne2 : figure ch <> _subtitle_glyph ch) by distinct_locs.
  pose proof (lookup_lt_Some _ _ _ Hf) as Hlt.
  pose proof (lookup_lt_Some _ _ _ Hc) as Hlts.
  set (f2 := set_renderers (delete i (renderers f)) f).
  set (h2 := <[figure ch := OFigure f2]> (heap w)).
  assert (Hf2 : h2 !! figure ch = Some (OFigure f2))
    by (eapply lookup_store_same; exact Hf).
  eexists _, _. split; [|split; [|split; [|split]]].
  - unfold rerender_subtitle.
    erewrite bind_run by (apply load_chart_run; exact Hc).
    erewrite bind_run by (apply load_figure_run; exact Hf).
    erewrite bind_run by (unfold lift; rewrite Hi; reflexivity).
    erewrite bind_run by apply store_run.
    fold f2. fold h2.
    erewrite bind_run
      by (apply load_title_run; cbn [heap with_heap];
          eapply lookup_store_other; eassumption).
    erewrite bind_run by (apply add_subtitle_run; cbn [heap with_heap]; exact Hf2).
    cbn [heap with_heap]. rewrite store_run. cbn [heap with_heap].
    rewrite !with_heap_twice. reflexivity.
  - rewrite list_lookup_insert_ne by (intros E; apply Hne1; symmetry; exact E).
    rewrite lookup_app_l
      by (rewrite length_insert; unfold h2; rewrite length_insert; exact Hlt).
    eapply lookup_store_same. exact Hf2.
  - intros p x Hx. apply panel_attach_incl. unfold f2.
    rewrite panel_set_renderers. exact Hx.
  - intros x Hx Hne. rewrite renderers_attach. apply in_or_app. left.
    unfold f2. rewrite renderers_set_renderers.
    eapply in_delete_other; eassumption.
  - intros l o Hls Hlf Hl.
    rewrite list_lookup_insert_ne by (intros E; apply Hls; symmetry; exact E).
    apply lookup_app_l_Some.
    rewrite list_lookup_insert_ne by (intros E; apply Hlf; symmetry; exact E).
    unfold h2.
    rewrite list_lookup_insert_ne by (intros E; apply Hlf; symmetry; exact E).
    exact Hl.
Qed.

Lemma set_legend_location_outside_bottom (self : loc) (orientation : value) :
  set_legend_location self (PyStr "outside_bottom") orientation
  = ((add_outside_legend self orientation "bottom_center" PlaceBelow ;;; ret tt) ;;;
     ret (PyRef self))%py.
Proof. reflexivity. Qed.

Lemma set_legend_location_outside_right (self : loc) (orientation : value) :
  set_legend_location self (PyStr "outside_right") orientation
  = ((add_outside_legend self orientation "top_left" PlaceRight ;;; ret tt) ;;;
     ret (PyRef self))%py.
Proof. reflexivity. Qed.

Lemma set_legend_location_hide (self : loc) (orientation : value) :
  set_legend_location self PyNone orientation
  = ((ch <- load_chart self ;;
      ls <- figure_legend (figure ch) ;;
      splat_setattr (fun g => Ok (set_legend_visible false g)) ls) ;;;
     ret (PyRef self))%py.
Proof. reflexivity. Qed.

Section OutsideHeap.

Variables (w : world) (ch : Chart) (f : Figure) (s : string)
          (orientation : value) (p : place) (l : loc) (gl : Legend)
          (rest : list loc).
Hypothesis Hf : heap w !! figure ch = Some (OFigure f).
Hypothesis HL : legends w f = l :: rest.
Hypothesis Hl : heap w !! l = Some (OLegend gl).

Lemma outside_heap_legend :
  outside_heap w ch f s orientation p l gl !! l
  = Some (OLegend (mkLegend (PyStr s) orientation (legend_visible gl)
                            (Some (figure ch)))).
Proof.
  unfold outside_heap.
  assert (Hne : figure ch <> l) by distinct_locs.
  rewrite list_lookup_insert_ne by exact Hne.
  eapply lookup_store_same.
  apply splat_heap_legend; [apply with_location_idem | exact Hl |].
  rewrite HL. left. reflexivity.
Qed.

Lemma outside_heap_figure :
  outside_heap w ch f s orientation p l gl !! figure ch
  = Some (OFigure (attach l p f)).
Proof.
  unfold outside_heap.
  assert (Hne : l <> figure ch) by distinct_locs.
  eapply lookup_store_same.
  rewrite list_lookup_insert_ne by exact Hne.
  apply splat_heap_other; [apply with_location_idem | exact Hf | discriminate].
Qed.

Lemma outside_heap_other (x : loc) (o : obj) :
  heap w !! x = Some o ->
  (forall g, o <> OLegend g) ->
  x <> figure ch ->
  outside_heap w ch f s orientation p l gl !! x = Some o.
Proof.
  intros Hx Hno Hne. unfold outside_heap.
  assert (Hxl : l <> x).
  { intros ->. rewrite Hl in Hx. injection Hx as <-. eapply Hno. reflexivity. }
  rewrite list_lookup_insert_ne by (intros E; apply Hne; symmetry; exact E).
  rewrite list_lookup_insert_ne by exact Hxl.
  apply splat_heap_other; [apply with_location_idem | exact Hx | exact Hno].
Qed.

End OutsideHeap.

Lemma set_visible_idem (b : bool) (g : Legend) :
  set_legend_visible b (set_legend_visible b g) = set_legend_visible b g.
Proof. reflexivity. Qed.

(** Hiding: every legend of the figure becomes invisible, nothing else
    changes. *)
Lemma legend_hide_run (w : world) (self : loc) ch f (orientation : value) :
  heap w !! self = Some (OChart ch) ->
  heap w !! figure ch = Some (OFigure f) ->
  set_legend_location self PyNone orientation w
  = (Ok (PyRef self),
     with_heap (splat_heap (set_legend_visible false) (legends w f) (heap w)) w).
Proof.
  intros Hc Hf. rewrite set_legend_location_hide.
  erewrite bind_run.
  2:{ erewrite bind_run by (apply load_chart_run; exact Hc).
      erewrite bind_run by (apply figure_legend_run; exact Hf).
      apply (splat_setattr_run _ (set_legend_visible false)).
      - reflexivity.
      - intros l Hin. eapply filter_is_legend_all. exact Hin. }
  reflexivity.
Qed.

(** Re-attaching below or to the right of the plot. *)
Lemma legend_outside_run (w : world) (self : loc) ch f l rest gl
    (orientation : value) (s : string) (p : place) :
  heap w !! self = Some (OChart ch) ->
  heap w !! figure ch = Some (OFigure f) ->
  legends w f = l :: rest ->
  heap w !! l = Some (OLegend gl) ->
  valid_legend_location (PyStr s) = true ->
  valid_orientation orientation = true ->
  ((add_outside_legend self orientation s p ;;; ret tt) ;;; ret (PyRef self))%py w
  = (Ok (PyRef self), with_heap (outside_heap w ch f s orientation p l gl) w).
Proof.
  intros Hc Hf HL Hl Hloc Hor.
  erewrite bind_run.
  2:{ erewrite bind_run by (eapply add_outside_legend_some; eassumption).
      reflexivity. }
  reflexivity.
Qed.

(** Re-attaching above the plot, followed by the new subtitle glyph. *)
Lemma legend_outside_top_run (w : world) (self : loc) ch f g l rest gl
    (orientation : value) :
  heap w !! self = Some (OChart ch) ->
  heap w !! figure ch = Some (OFigure f) ->
  heap w !! _subtitle_glyph ch = Some (OTitle g) ->
  In (_subtitle_glyph ch) (renderers f) ->
  legends w f = l :: rest ->
  heap w !! l = Some (OLegend gl) ->
  valid_orientation orientation = true ->
  exists h' f',
    set_legend_location self (PyStr "outside_top") orientation w
    = (Ok (PyRef self), with_heap h' w)
    /\ h' !! figure ch = Some (OFigure f')
    /\ In l (panel PlaceAbove f')
    /\ In l (renderers f')
    /\ h' !! l = Some (OLegend (mkLegend (PyStr "top_left") orientation
                                         (legend_visible gl) (Some (figure ch)))).
Proof.
  intros Hc Hf Hg Hin HL Hl Hor.
  assert (Hne1 : l <> self) by distinct_locs.
  assert (Hne2 : l <> figure ch) by distinct_locs.
  assert (Hne3 : l <> _subtitle_glyph ch) by distinct_locs.
  assert (Hne4 : self <> figure ch) by distinct_locs.
  assert (Hne5 : _subtitle_glyph ch <> figure ch) by distinct_locs.
  set (w2 := with_heap (outside_heap w ch f "top_left" orientation PlaceAbove l gl) w).
  destruct (rerender_subtitle_run w2 self ch (attach l PlaceAbove f) g)
    as (h' & f' & Hrun & Hf' & Hpanel & Hrend & Hother).
  - cbn [w2 heap with_heap].
    eapply outside_heap_other; first [eassumption | discriminate].
  - cbn [w2 heap with_heap]. eapply outside_heap_figure; eassumption.
  - cbn [w2 heap with_heap].
    eapply outside_heap_other; first [eassumption | discriminate].
  - rewrite renderers_attach. apply in_or_app. left. exact Hin.
  - exists h', f'. split; [|split; [|split; [|split]]].
    + rewrite set_legend_location_outside_top.
      erewrite bind_run.
      2:{ erewrite bind_run
            by (eapply add_outside_legend_some; try eassumption; reflexivity).
          fold w2. exact Hrun. }
      unfold w2. rewrite with_heap_twice. reflexivity.
    + exact Hf'.
    + apply Hpanel. apply panel_attach_self. discriminate.
    + apply Hrend; [|exact Hne3]. rewrite renderers_attach.
      apply in_or_app. right. left. reflexivity.
    + apply Hother; [exact Hne1 | exact Hne2 |].
      cbn [w2 heap with_heap]. eapply outside_heap_legend; eassumption.
Qed.

(** The same three calls on a figure that has no legend. *)
Lemma legend_outside_none_run (w : world) (self : loc) ch f
    (orientation : value) (s : string) (p : place) :
  heap w !! self = Some (OChart ch) ->
  heap w !! figure ch = Some (OFigure f) ->
  legends w f = [] ->
  ((add_outside_legend self orientation s p ;;; ret tt) ;;; ret (PyRef self))%py w
  = (Ok (PyRef self), warned w).
Proof.
  intros Hc Hf HL.
  erewrite bind_run.
  2:{ erewrite bind_run by (eapply add_outside_legend_none; eassumption).
      reflexivity. }
  reflexivity.
Qed.

Lemma legend_outside_top_none_run (w : world) (self : loc) ch f g
    (orientation : value) :
  heap w !! self = Some (OChart ch) ->
  heap w !! figure ch = Some (OFigure f) ->
  heap w !! _subtitle_glyph ch = Some (OTitle g) ->
  In (_subtitle_glyph ch) (renderers f) ->
  legends w f = [] ->
  exists h',
    set_legend_location self (PyStr "outside_top") orientation w
    = (Ok (PyRef self), with_heap h' (warned w)).
Proof.
  intros Hc Hf Hg Hin HL.
  destruct (rerender_subtitle_run (warned w) self ch f g Hc Hf Hg Hin)
    as (h' & f' & Hrun & _).
  exists h'. rewrite set_legend_location_outside_top.
  erewrite bind_run.
  2:{ erewrite bind_run by (eapply add_outside_legend_none; eassumption).
      exact Hrun. }
  reflexivity.
Qed.

(** Any other location, on a figure without legend: both assignments run
    over the empty list. *)
Lemma legend_inside_none_run (w : world) (self : loc) ch f
    (location orientation : value) :
  heap w !! self = Some (OChart ch) ->
  heap w !! figure ch = Some (OFigure f) ->
  legends w f = [] ->
  location <> PyStr "outside_top" ->
  location <> PyStr "outside_bottom" ->
  location <> PyStr "outside_right" ->
  set_legend_location self location orientation w = (Ok (PyRef self), w).
Proof.
  intros Hc Hf HL H1 H2 H3. unfold set_legend_location.
  rewrite (py_eq_str_false _ _ H1), (py_eq_str_false _ _ H2),
    (py_eq_str_false _ _ H3).
  destruct (py_is_none location).
  - erewrite bind_run.
    2:{ erewrite bind_run by (apply load_chart_run; exact Hc).
        erewrite bind_run by (apply figure_legend_run; exact Hf).
        fold (legends w f). rewrite HL. reflexivity. }
    reflexivity.
  - erewrite bind_run.
    2:{ erewrite bind_run by (apply load_chart_run; exact Hc).
        erewrite bind_run by (apply figure_legend_run; exact Hf).
        fold (legends w f). rewrite HL. cbn [splat_setattr].
        erewrite bind_run by reflexivity.
        erewrite bind_run by (apply figure_legend_run; exact Hf).
        fold (legends w f). rewrite HL. reflexivity. }
    reflexivity.
Qed.

(** C6. On a chart whose figure has a legend ([l] is the first one, as in
    [figure.legend[0]]):
    - [set_legend_location(None)] leaves the figure object as it is, so
      every legend stays among its renderers, and sets [visible] to false
      on every legend;
    - 'outside_top', 'outside_bottom' and 'outside_right' keep the legend
      object [l] in the store and among the renderers, and add that same
      object to the panel above, below and to the right of the plot
      respectively, with the requested orientation.
    Each call returns the chart. *)
Theorem C6_legend_hidden_or_relocated (w : world) (self : loc) ch f g
    (l : loc) (rest : list loc) (gl : Legend) (orientation : value) :
  heap w !! self = Some (OChart ch) ->
  heap w !! figure ch = Some (OFigure f) ->
  heap w !! _subtitle_glyph ch = Some (OTitle g) ->
  In (_subtitle_glyph ch) (renderers f) ->
  legends w f = l :: rest ->
  heap w !! l = Some (OLegend gl) ->
  valid_orientation orientation = true ->
  (exists w',
      set_legend_location self PyNone orientation w = (Ok (PyRef self), w')
      /\ heap w' !! figure ch = Some (OFigure f)
      /\ In l (renderers f)
      /\ forall l' g', In l' (legends w f) ->
                       heap w !! l' = Some (OLegend g') ->
                       heap w' !! l' = Some (OLegend (set_legend_visible false g'))
                       /\ legend_visible (set_legend_visible false g') = false)
  /\
  (forall name p anchor,
      In (name, p, anchor)
         [("outside_top", PlaceAbove, "top_left");
          ("outside_bottom", PlaceBelow, "bottom_center");
          ("outside_right", PlaceRight, "top_left")] ->
      exists w' f',
        set_legend_location self (PyStr name) orientation w = (Ok (PyRef self), w')
        /\ heap w' !! figure ch = Some (OFigure f')
        /\ In l (panel p f')
        /\ In l (renderers f')
        /\ heap w' !! l
           = Some (OLegend (mkLegend (PyStr anchor) orientation
                                     (legend_visible gl) (Some (figure ch))))).
Proof.
  intros Hc Hf Hg Hin HL Hl Hor. split.
  - eexists. split; [eapply legend_hide_run; eassumption|].
    cbn [heap with_heap]. split; [|split].
    + apply splat_heap_other; [apply set_visible_idem | exact Hf | discriminate].
    + assert (Hl' : In l (legends w f)) by (rewrite HL; left; reflexivity).
      apply filter_In in Hl'. tauto.
    + intros l' g' Hin' Hl'. split; [|reflexivity].
      apply splat_heap_legend; [apply set_visible_idem | exact Hl' | exact Hin'].
  - intros name p anchor Hcase.
    destruct Hcase as [E|[E|[E|[]]]]; injection E as <- <- <-.
    + destruct (legend_outside_top_run w self ch f g l rest gl orientation
                  Hc Hf Hg Hin HL Hl Hor)
        as (h' & f' & Hrun & Hf' & Hp & Hr & Hl').
      exists (with_heap h' w), f'. cbn [heap with_heap]. tauto.
    + exists (with_heap (outside_heap w ch f "bottom_center" orientation
                                     PlaceBelow l gl) w),
             (attach l PlaceBelow f).
      rewrite set_legend_location_outside_bottom. cbn [heap with_heap].
      split; [eapply legend_outside_run; try eassumption; reflexivity|].
      split; [eapply outside_heap_figure; eassumption|].
      split; [apply panel_attach_self; discriminate|].
      split; [rewrite renderers_attach; apply in_or_app; right; left; reflexivity|].
      eapply outside_heap_legend; eassumption.
    + exists (with_heap (outside_heap w ch f "top_left" orientation
                                     PlaceRight l gl) w),
             (attach l PlaceRight f).
      rewrite set_legend_location_outside_right. cbn [heap with_heap].
      split; [eapply legend_outside_run; try eassumption; reflexivity|].
      split; [eapply outside_heap_figure; eassumption|].
      split; [apply panel_attach_self; discriminate|].
      split; [rewrite renderers_attach; apply in_or_app; right; left; reflexivity|].
      eapply outside_heap_legend; eassumption.
Qed.

Lemma C6_witness :
  exists w' f',
    set_legend_location Demo.chart0 (PyStr "outside_bottom") (PyStr "horizontal")
                        Demo.plotted_world
    = (Ok (PyRef Demo.chart0), w')
    /\ heap w' !! Demo.figure0 = Some (OFigure f')
    /\ In Demo.legend0 (panel PlaceBelow f')
    /\ In Demo.legend0 (renderers f')
    /\ heap w' !! Demo.legend0
       = Some (OLegend (mkLegend (PyStr "bottom_center") (PyStr "horizontal")
                                 true (Some Demo.figure0))).
Proof.
  pose proof (fun ch f g gl =>
                C6_legend_hidden_or_relocated Demo.plotted_world Demo.chart0
                  ch f g Demo.legend0 [] gl (PyStr "horizontal")) as H0.
  edestruct H0 as [_ H].
  - reflexivity.
  - reflexivity.
  - reflexivity.
  - right. left. reflexivity.
  - reflexivity.
  - reflexivity.
  - reflexivity.
  - apply (H "outside_bottom" PlaceBelow "bottom_center").
    right. left. reflexivity.
Defined.

(** * Further properties of the Chart and Logo classes *)

(** ** The figure the constructor creates *)



Lemma chart_okb_app (h k : list obj) (self : loc) :
  chart_okb h self = true -> chart_okb (h ++ k) self = true.
Proof.
  intros H.
  destruct (chart_ok_inv (mkWorld h [] [] [] []) self H)
    as (ch & f & t & s & g & Hc & Hf & Ht & Hs & Hg & Hin).
  cbn [heap] in *. unfold chart_okb.
  rewrite (lookup_app_l_Some _ _ _ _ Hc), (lookup_app_l_Some _ _ _ _ Hf),
    (lookup_app_l_Some _ _ _ _ Ht), (lookup_app_l_Some _ _ _ _ Hs),
    (lookup_app_l_Some _ _ _ _ Hg).
  apply existsb_exists. exists (_subtitle_glyph ch).
  split; [exact Hin | apply Nat.eqb_refl].
Qed.

(** X2. A successful construction only adds objects: the new chart is
    well formed and remembers its axis types, every object that was in the
    store is still there unchanged, charts that were well formed stay so,
    and no warning, output, file or display is produced. *)
Theorem X2_construction_only_allocates ogv sn sas gpc gac cn
    (blank_labels layout x_axis_type y_axis_type : value)
    (w w' : world) (self : loc) :
  Chart__init__ ogv sn sas gpc gac cn blank_labels layout
                x_axis_type y_axis_type w = (Ok self, w') ->
  chart_ok w' self
  /\ (length (heap w) <= self)%nat
  /\ heap w !! self = None
  /\ (exists ch, heap w' !! self = Some (OChart ch)
                 /\ _x_axis_type ch = x_axis_type
                 /\ _y_axis_type ch = y_axis_type
                 /\ _blank_labels ch = ogv blank_labels
                 /\ sn layout = inr (style ch))
  /\ (forall l o, heap w !! l = Some o -> heap w' !! l = Some o)
  /\ (forall other, chart_ok w other -> chart_ok w' other)
  /\ warnings w' = warnings w
  /\ stdout w' = stdout w
  /\ files w' = files w
  /\ displayed w' = displayed w.
Proof.
  intros H. pose proof (init_chart_ok _ _ _ _ _ _ _ _ _ _ _ _ _ H) as Hok.
  destruct (init_ok_inv _ _ _ _ _ _ _ _ _ _ _ _ _ H)
    as (st & p & a & t & f & s & g & Hs & -> & -> & _).
  split; [exact Hok|]. split; [lia|].
  split; [apply lookup_ge_None_2; lia|].
  split.
  { eexists. split; [solve_lookup|]. cbn. repeat split. exact Hs. }
  split.
  { intros l o Hl. cbn [heap with_heap]. apply lookup_app_l_Some. exact Hl. }
  split.
  { intros other Hother. unfold chart_ok in *. cbn [heap with_heap].
    apply chart_okb_app. exact Hother. }
  repeat split.
Qed.

Lemma X2_witness :
  chart_ok (snd (Demo.init (PyBool false) (PyStr "slide_100%") (PyStr "log")
                           (PyStr "categorical") Demo.chart_world)) 9%nat
  /\ chart_ok (snd (Demo.init (PyBool false) (PyStr "slide_100%") (PyStr "log")
                              (PyStr "categorical") Demo.chart_world)) Demo.chart0.
Proof.
  pose proof (X2_construction_only_allocates (fun v => v) (fun _ => inr Demo.style0)
            (fun _ _ => inr tt) (fun _ _ => inr "PlotNumericXY")
            (fun _ _ => inr "NumericalXYAxes") (inr tt)
            (PyBool false) (PyStr "slide_100%") (PyStr "log") (PyStr "categorical")
            Demo.chart_world
            (snd (Demo.init (PyBool false) (PyStr "slide_100%") (PyStr "log")
                            (PyStr "categorical") Demo.chart_world))
            9%nat) as H.
  destruct H as (H1 & _ & _ & _ & _ & H2 & _); [vm_compute; reflexivity|].
  split; [exact H1|]. apply H2. reflexivity.
Defined.

(** X3. A refused axis type stops the constructor before anything is
    created: the world after the failed call is the world before it. *)
Theorem X3_refused_axis_type_changes_nothing ogv sn sas gpc gac cn
    (blank_labels layout x_axis_type y_axis_type : value) (w : world) :
  ~ is_one_of x_axis_type ["linear"; "log"; "datetime"; "categorical"; "density"]
  \/ ~ is_one_of y_axis_type ["linear"; "log"; "categorical"; "density"] ->
  snd (Chart__init__ ogv sn sas gpc gac cn blank_labels layout
                     x_axis_type y_axis_type w) = w.
Proof.
  intros H. unfold Chart__init__.
  destruct (py_in_strs x_axis_type valid_x_axis_types) eqn:Hx; [|reflexivity].
  destruct (py_in_strs y_axis_type valid_y_axis_types) eqn:Hy; [|reflexivity].
  apply py_in_strs_spec in Hx, Hy. destruct H as [H|H]; contradiction.
Qed.

Lemma X3_witness :
  snd (Demo.init (PyBool false) (PyStr "slide_100%") (PyStr "linear") (PyStr "datetime")
                 Demo.chart_world) = Demo.chart_world.
Proof.
  apply (X3_refused_axis_type_changes_nothing (fun v => v) (fun _ => inr Demo.style0)
           (fun _ _ => inr tt) (fun _ _ => inr "PlotNumericXY")
           (fun _ _ => inr "NumericalXYAxes") (inr tt)).
  right. intros (s & E & Hin). injection E as <-. cbn in Hin.
  repeat (destruct Hin as [Hin|Hin]; [discriminate Hin|]). exact Hin.
Defined.

(** ** The three labels *)

Lemma set_title_text_twice (s1 s2 : string) (t : Title) :
  set_title_text s2 (set_title_text s1 t) = set_title_text s2 t.
Proof. reflexivity. Qed.

Lemma set_label_text_twice (s1 s2 : string) (l : Label) :
  set_label_text s2 (set_label_text s1 l) = set_label_text s2 l.
Proof. reflexivity. Qed.

(** X4. The three labels do not interfere: on a chart whose title and
    subtitle are different glyphs (as the constructor builds them),
    setting one label leaves what the other two properties return
    unchanged. *)
Theorem X4_labels_are_independent (w : world) (self : loc) ch f t sl g
    (s : string) :
  heap w !! self = Some (OChart ch) ->
  heap w !! figure ch = Some (OFigure f) ->
  heap w !! fig_title f = Some (OTitle t) ->
  heap w !! _source ch = Some (OLabel sl) ->
  heap w !! _subtitle_glyph ch = Some (OTitle g) ->
  fig_title f <> _subtitle_glyph ch ->
  (fst (subtitle self (snd (set_title self s w))) = Ok (title_text g)
   /\ fst (source_text self (snd (set_title self s w))) = Ok (label_text sl))
  /\ (fst (title self (snd (set_subtitle self s w))) = Ok (title_text t)
      /\ fst (source_text self (snd (set_subtitle self s w))) = Ok (label_text sl))
  /\ (fst (title self (snd (set_source_label self s w))) = Ok (title_text t)
      /\ fst (subtitle self (snd (set_source_label self s w))) = Ok (title_text g)).
Proof.
  intros Hc Hf Ht Hs Hg Hd.
  assert (fig_title f <> self) by distinct_locs.
  assert (fig_title f <> figure ch) by distinct_locs.
  assert (fig_title f <> _source ch) by distinct_locs.
  assert (_subtitle_glyph ch <> self) by distinct_locs.
  assert (_subtitle_glyph ch <> figure ch) by distinct_locs.
  assert (_subtitle_glyph ch <> _source ch) by distinct_locs.
  assert (_source ch <> self) by distinct_locs.
  assert (_source ch <> figure ch) by distinct_locs.
  rewrite (set_title_run self s w ch f t Hc Hf Ht),
    (set_subtitle_run self s w ch g Hc Hg),
    (set_source_label_run self s w ch sl Hc Hs).
  cbn [snd].
  repeat split.
  - erewrite subtitle_run; [reflexivity | |]; cbn [heap with_heap];
      eapply lookup_store_other; eassumption.
  - erewrite source_text_run; [reflexivity | |]; cbn [heap with_heap];
      eapply lookup_store_other; eassumption.
  - erewrite title_run; [reflexivity | | |]; cbn [heap with_heap];
      eapply lookup_store_other; first [eassumption | congruence].
  - erewrite source_text_run; [reflexivity | |]; cbn [heap with_heap];
      eapply lookup_store_other; first [eassumption | congruence].
  - erewrite title_run; [reflexivity | | |]; cbn [heap with_heap];
      eapply lookup_store_other; first [eassumption | congruence].
  - erewrite subtitle_run; [reflexivity | |]; cbn [heap with_heap];
      eapply lookup_store_other; first [eassumption | congruence].
Qed.

Lemma X4_witness :
  fst (subtitle Demo.chart0 (snd (set_title Demo.chart0 "Revenue" Demo.chart_world)))
  = Ok "ch.set_subtitle('Data Description')"
  /\ fst (source_text Demo.chart0
            (snd (set_title Demo.chart0 "Revenue" Demo.chart_world)))
     = Ok "ch.set_source_label('Source')".
Proof.
  pose proof (fun ch f t sl g =>
                X4_labels_are_independent Demo.chart_world Demo.chart0
                  ch f t sl g "Revenue") as H0.
  edestruct H0 as [H _].
  - reflexivity.
  - reflexivity.
  - reflexivity.
  - reflexivity.
  - reflexivity.
  - cbn. lia.
  - exact H.
Defined.

(** X5. Setting a label twice is the same as setting it once to the last
    value: the worlds after [set_title(s1); set_title(s2)] and after
    [set_title(s2)] are equal, and likewise for the subtitle and the
    source label. *)
Theorem X5_last_label_wins (w : world) (self : loc) (s1 s2 : string) :
  chart_ok w self ->
  snd (set_title self s2 (snd (set_title self s1 w)))
  = snd (set_title self s2 w)
  /\ snd (set_subtitle self s2 (snd (set_subtitle self s1 w)))
     = snd (set_subtitle self s2 w)
  /\ snd (set_source_label self s2 (snd (set_source_label self s1 w)))
     = snd (set_source_label self s2 w).
Proof.
  intros Hok.
  destruct (chart_ok_inv w self Hok)
    as (ch & f & t & sl & g & Hc & Hf & Ht & Hs & Hg & _).
  assert (fig_title f <> self) by distinct_locs.
  assert (fig_title f <> figure ch) by distinct_locs.
  assert (_subtitle_glyph ch <> self) by distinct_locs.
  assert (_source ch <> self) by distinct_locs.
  split; [|split].
  - rewrite (set_title_run self s1 w ch f t Hc Hf Ht),
      (set_title_run self s2 w ch f t Hc Hf Ht). cbn [snd].
    erewrite set_title_run; cbn [heap with_heap].
    2:{ eapply lookup_store_other; eassumption. }
    2:{ eapply lookup_store_other; eassumption. }
    2:{ eapply lookup_store_same; eassumption. }
    cbn [snd]. rewrite list_insert_insert_eq, with_heap_twice. reflexivity.
  - rewrite (set_subtitle_run self s1 w ch g Hc Hg),
      (set_subtitle_run self s2 w ch g Hc Hg). cbn [snd].
    erewrite set_subtitle_run; cbn [heap with_heap].
    2:{ eapply lookup_store_other; eassumption. }
    2:{ eapply lookup_store_same; eassumption. }
    cbn [snd]. rewrite list_insert_insert_eq, with_heap_twice. reflexivity.
  - rewrite (set_source_label_run self s1 w ch sl Hc Hs),
      (set_source_label_run self s2 w ch sl Hc Hs). cbn [snd].
    erewrite set_source_label_run; cbn [heap with_heap].
    2:{ eapply lookup_store_other; eassumption. }
    2:{ eapply lookup_store_same; eassumption. }
    cbn [snd]. rewrite list_insert_insert_eq, with_heap_twice. reflexivity.
Qed.

Lemma X5_witness :
  snd (set_title Demo.chart0 "Final" (snd (set_title Demo.chart0 "Draft" Demo.chart_world)))
  = snd (set_title Demo.chart0 "Final" Demo.chart_world).
Proof.
  apply (X5_last_label_wins Demo.chart_world Demo.chart0 "Draft" "Final").
  reflexivity.
Defined.

(** Two stores have the same shape when they hold objects of the same
    class at the same locations, with equal charts and with figures that
    agree on their title glyph and renderer list.  Well-formedness of a
    chart only depends on the shape. *)
Definition same_shape_at (o o' : option obj) : Prop :=
  match o, o' with
  | None, None => True
  | Some (OChart c), Some (OChart c') => c = c'
  | Some (OFigure f), Some (OFigure f') =>
      fig_title f = fig_title f' /\ renderers f = renderers f'
  | Some (OTitle _), Some (OTitle _) => True
  | Some (OLabel _), Some (OLabel _) => True
  | Some (OLegend _), Some (OLegend _) => True
  | Some (OGlyph _), Some (OGlyph _) => True
  | Some (OLogo _), Some (OLogo _) => True
  | _, _ => False
  end.

Definition same_shape (h h' : list obj) : Prop :=
  forall x : loc, same_shape_at (h !! x) (h' !! x).

Lemma same_shape_at_refl (o : option obj) : same_shape_at o o.
Proof. destruct o as [[]|]; cbn; auto. Qed.

Lemma same_shape_store (h : list obj) (l : loc) (o o' : obj) :
  h !! l = Some o ->
  same_shape_at (Some o) (Some o') ->
  same_shape h (<[l := o']> h).
Proof.
  intros Hl Hs x. destruct (decide (l = x)) as [<-|Hne].
  - rewrite (lookup_store_same _ _ _ _ Hl), Hl. exact Hs.
  - rewrite list_lookup_insert_ne by exact Hne. apply same_shape_at_refl.
Qed.

Lemma same_shape_splat (upd : Legend -> Legend) (ls : list loc) (h : list obj) :
  (forall g, upd (upd g) = upd g) ->
  same_shape h (splat_heap upd ls h).
Proof.
  intros Hidem x. rewrite (splat_heap_lookup upd Hidem).
  destruct (h !! x) as [[]|]; cbn; auto.
  destruct (existsb (Nat.eqb x) ls); cbn; auto.
Qed.

Lemma chart_okb_same_shape (h h' : list obj) (self : loc) :
  same_shape h h' -> chart_okb h self = true -> chart_okb h' self = true.
Proof.
  intros Hs H.
  destruct (chart_ok_inv (mkWorld h [] [] [] []) self H)
    as (ch & f & t & s & g & Hc & Hf & Ht & Hsl & Hg & Hin).
  cbn [heap] in *. unfold chart_okb.
  pose proof (Hs self) as H1. rewrite Hc in H1.
  destruct (h' !! self) as [[| | | | |ch'|]|]; try contradiction.
  cbn in H1. subst ch'.
  pose proof (Hs (figure ch)) as H2. rewrite Hf in H2.
  destruct (h' !! figure ch) as [[| | | |f'| |]|]; try contradiction.
  cbn in H2. destruct H2 as [E1 E2]. rewrite <- E1, <- E2.
  pose proof (Hs (fig_title f)) as H3. rewrite Ht in H3.
  destruct (h' !! fig_title f) as [[| | | | | |]|]; try contradiction.
  pose proof (Hs (_source ch)) as H4. rewrite Hsl in H4.
  destruct (h' !! _source ch) as [[| | | | | |]|]; try contradiction.
  pose proof (Hs (_subtitle_glyph ch)) as H5. rewrite Hg in H5.
  destruct (h' !! _subtitle_glyph ch) as [[| | | | | |]|]; try contradiction.
  apply existsb_exists. exists (_subtitle_glyph ch).
  split; [exact Hin | apply Nat.eqb_refl].
Qed.

(** X6. The label setters and [set_legend_location(None)] keep the store
    well formed: after any of them, called on a well-formed chart, every
    chart that was well formed (the chart itself, and any other chart of
    the store) still is. *)
Theorem X6_setters_keep_charts_well_formed (w : world) (self other : loc)
    (s : string) (orientation : value) :
  chart_ok w self ->
  chart_ok w other ->
  chart_ok (snd (set_title self s w)) other
  /\ chart_ok (snd (set_subtitle self s w)) other
  /\ chart_ok (snd (set_source_label self s w)) other
  /\ chart_ok (snd (set_legend_location self PyNone orientation w)) other.
Proof.
  intros Hok Hother.
  destruct (chart_ok_inv w self Hok)
    as (ch & f & t & sl & g & Hc & Hf & Ht & Hs & Hg & _).
  rewrite (set_title_run self s w ch f t Hc Hf Ht),
    (set_subtitle_run self s w ch g Hc Hg),
    (set_source_label_run self s w ch sl Hc Hs),
    (legend_hide_run w self ch f orientation Hc Hf).
  unfold chart_ok in *. cbn [snd heap with_heap].
  repeat split; (eapply chart_okb_same_shape; [|exact Hother]).
  - eapply same_shape_store; [exact Ht | exact I].
  - eapply same_shape_store; [exact Hg | exact I].
  - eapply same_shape_store; [exact Hs | exact I].
  - apply same_shape_splat. apply set_visible_idem.
Qed.

Lemma X6_witness :
  chart_ok (snd (set_subtitle Demo.chart0 "Weekly" Demo.plotted_world)) Demo.chart0
  /\ chart_ok (snd (set_legend_location Demo.chart0 PyNone (PyStr "horizontal")
                                        Demo.plotted_world)) Demo.chart0.
Proof.
  pose proof (X6_setters_keep_charts_well_formed Demo.plotted_world Demo.chart0
                Demo.chart0 "Weekly" (PyStr "horizontal") eq_refl eq_refl)
    as (_ & H2 & _ & H4).
  split; [exact H2 | exact H4].
Defined.

(** ** Reading the legend location back *)

(** The [legend_location] property: [self.figure.legend[0].location].
    (The name of the method is taken by the attribute of the legend
    record.) *)
Definition legend_location_property (self : loc) : M value :=
  ch <- load_chart self ;;
  ls <- figure_legend (figure ch) ;;
  match ls with
  | [] => raise (IndexError "list index out of range")
  | l :: _ =>
      g <- load_legend l ;;
      ret (legend_location g)
  end.

Lemma legend_location_property_run (w : world) (self : loc) ch f l rest g :
  heap w !! self = Some (OChart ch) ->
  heap w !! figure ch = Some (OFigure f) ->
  legends w f = l :: rest ->
  heap w !! l = Some (OLegend g) ->
  legend_location_property self w = (Ok (legend_location g), w).
Proof.
  intros Hc Hf HL Hl. unfold legend_location_property.
  erewrite bind_run by (apply load_chart_run; exact Hc).
  erewrite bind_run by (apply figure_legend_run; exact Hf).
  fold (legends w f). rewrite HL.
  erewrite bind_run by (apply load_legend_run; exact Hl).
  reflexivity.
Qed.

Lemma with_orientation_idem (v : value) (g : Legend) :
  with_orientation v (with_orientation v g) = with_orientation v g.
Proof. reflexivity. Qed.

(** A location inside the plot area, on a figure with legends: both
    attributes are assigned on every legend. *)
Lemma legend_inside_run (w : world) (self : loc) ch f
    (location orientation : value) :
  heap w !! self = Some (OChart ch) ->
  heap w !! figure ch = Some (OFigure f) ->
  valid_legend_location location = true ->
  valid_orientation orientation = true ->
  set_legend_location self location orientation w
  = (Ok (PyRef self),
     with_heap (splat_heap (with_orientation orientation) (legends w f)
                  (splat_heap (with_location location) (legends w f) (heap w)))
               w).
Proof.
  intros Hc Hf Hloc Hor.
  assert (H1 : py_eq_str location "outside_top" = false).
  { destruct (py_eq_str location "outside_top") eqn:E; [|reflexivity].
    apply py_eq_str_true in E. subst. discriminate Hloc. }
  assert (H2 : py_eq_str location "outside_bottom" = false).
  { destruct (py_eq_str location "outside_bottom") eqn:E; [|reflexivity].
    apply py_eq_str_true in E. subst. discriminate Hloc. }
  assert (H3 : py_eq_str location "outside_right" = false).
  { destruct (py_eq_str location "outside_right") eqn:E; [|reflexivity].
    apply py_eq_str_true in E. subst. discriminate Hloc. }
  assert (H4 : py_is_none location = false).
  { destruct location; try reflexivity. discriminate Hloc. }
  unfold set_legend_location. rewrite H1, H2, H3, H4.
  pose proof (with_location_idem location) as Hidem.
  erewrite bind_run.
  2:{ erewrite bind_run by (apply load_chart_run; exact Hc).
      erewrite bind_run by (apply figure_legend_run; exact Hf).
      fold (legends w f).
      erewrite bind_run.
      2:{ apply (splat_setattr_run _ (with_location location)).
          - intros g. apply set_location_ok. exact Hloc.
          - intros l Hin. eapply filter_is_legend_all. exact Hin. }
      erewrite bind_run.
      2:{ apply figure_legend_run. cbn [heap with_heap].
          apply splat_heap_other; [exact Hidem | exact Hf | discriminate]. }
      cbn [heap with_heap]. rewrite filter_is_legend_splat by exact Hidem.
      fold (legends w f).
      apply (splat_setattr_run _ (with_orientation orientation)).
      - intros g. apply set_orientation_ok. exact Hor.
      - intros l Hin. cbn [heap with_heap].
        rewrite splat_heap_is_legend by exact Hidem.
        eapply filter_is_legend_all. exact Hin. }
  cbn [heap with_heap]. rewrite with_heap_twice. reflexivity.
Qed.

Lemma init_no_legend ogv sn sas gpc gac cn (bl layout x y : value)
    (w w' : world) (self : loc) :
  Chart__init__ ogv sn sas gpc gac cn bl layout x y w = (Ok self, w') ->
  exists ch f g,
    heap w' !! self = Some (OChart ch)
    /\ heap w' !! figure ch = Some (OFigure f)
    /\ heap w' !! _subtitle_glyph ch = Some (OTitle g)
    /\ In (_subtitle_glyph ch) (renderers f)
    /\ legends w' f = [].
Proof.
  intros H.
  destruct (init_ok_inv _ _ _ _ _ _ _ _ _ _ _ _ _ H)
    as (st & p & a & t & f & s & g & _ & -> & -> & Hft & Hr & _).
  eexists _, f, g. split; [solve_lookup|]. split; [solve_lookup|].
  split; [solve_lookup|]. split.
  - norm. rewrite Hr. right. left. reflexivity.
  - unfold legends. rewrite Hr. cbn [List.filter]. unfold is_legend. norm.
    reflexivity.
Qed.

(** X7. A chart has no legend when it comes out of the constructor:
    reading [legend_location] at that point raises an [IndexError] (the
    list of legends is empty) and changes nothing. *)
Theorem X7_legend_location_of_new_chart ogv sn sas gpc gac cn
    (blank_labels layout x_axis_type y_axis_type : value)
    (w w' : world) (self : loc) :
  Chart__init__ ogv sn sas gpc gac cn blank_labels layout
                x_axis_type y_axis_type w = (Ok self, w') ->
  legend_location_property self w'
  = (Err (IndexError "list index out of range"), w').
Proof.
  intros H.
  destruct (init_no_legend _ _ _ _ _ _ _ _ _ _ _ _ _ H)
    as (ch & f & g & Hc & Hf & _ & _ & HL).
  unfold legend_location_property.
  erewrite bind_run by (apply load_chart_run; exact Hc).
  erewrite bind_run by (apply figure_legend_run; exact Hf).
  fold (legends w' f). rewrite HL. reflexivity.
Qed.

Lemma X7_witness :
  legend_location_property Demo.chart0 Demo.chart_world
  = (Err (IndexError "list index out of range"), Demo.chart_world).
Proof.
  apply (X7_legend_location_of_new_chart (fun v => v) (fun _ => inr Demo.style0)
           (fun _ _ => inr tt) (fun _ _ => inr "PlotNumericXY")
           (fun _ _ => inr "NumericalXYAxes") (inr tt)
           (PyBool false) (PyStr "slide_100%") (PyStr "linear") (PyStr "linear")
           Demo.empty_world).
  vm_compute. reflexivity.
Defined.

(** X8. On a chart whose figure has no legend, [set_legend_location]
    never raises and never checks its arguments.  For 'outside_top',
    'outside_bottom' and 'outside_right' it issues exactly one
    [UserWarning] and returns the chart; for every other location (a
    position inside the plot, coordinates, [None], or any other value,
    valid or not) and every orientation it returns the chart and leaves
    the world exactly as it was, without a warning. *)
Theorem X8_set_legend_location_without_legend (w : world) (self : loc) ch f g :
  heap w !! self = Some (OChart ch) ->
  heap w !! figure ch = Some (OFigure f) ->
  heap w !! _subtitle_glyph ch = Some (OTitle g) ->
  In (_subtitle_glyph ch) (renderers f) ->
  legends w f = [] ->
  (forall location orientation,
      location <> PyStr "outside_top" ->
      location <> PyStr "outside_bottom" ->
      location <> PyStr "outside_right" ->
      set_legend_location self location orientation w = (Ok (PyRef self), w))
  /\ (forall orientation,
         set_legend_location self (PyStr "outside_bottom") orientation w
         = (Ok (PyRef self), warned w)
         /\ set_legend_location self (PyStr "outside_right") orientation w
            = (Ok (PyRef self), warned w)
         /\ exists w',
              set_legend_location self (PyStr "outside_top") orientation w
              = (Ok (PyRef self), w')
              /\ warnings w' = warnings w ++ [("UserWarning", legend_warning)]).
Proof.
  intros Hc Hf Hg Hin HL. split.
  - intros location orientation H1 H2 H3.
    eapply legend_inside_none_run; eassumption.
  - intros orientation. split; [|split].
    + rewrite set_legend_location_outside_bottom.
      eapply legend_outside_none_run; eassumption.
    + rewrite set_legend_location_outside_right.
      eapply legend_outside_none_run; eassumption.
    + destruct (legend_outside_top_none_run w self ch f g orientation
                  Hc Hf Hg Hin HL) as (h' & Hrun).
      eexists. split; [exact Hrun | reflexivity].
Qed.

Lemma X8_witness :
  set_legend_location Demo.chart0 (PyStr "top_right") (PyStr "diagonal")
                      Demo.chart_world
  = (Ok (PyRef Demo.chart0), Demo.chart_world)
  /\ set_legend_location Demo.chart0 (PyStr "outside_right") (PyStr "vertical")
                         Demo.chart_world
     = (Ok (PyRef Demo.chart0), warned Demo.chart_world).
Proof.
  pose proof (fun ch f g =>
                X8_set_legend_location_without_legend Demo.chart_world Demo.chart0
                  ch f g) as H0.
  edestruct H0 as [H1 H2].
  - reflexivity.
  - reflexivity.
  - reflexivity.
  - right. left. reflexivity.
  - reflexivity.
  - split.
    + apply H1; intros E; discriminate E.
    + apply (H2 (PyStr "vertical")).
Defined.

(** X9. On a chart whose figure has a legend, setting one of the nine
    named positions inside the plot, or a pair of numbers, with a valid
    orientation is read back by [legend_location]; the location and the
    orientation are assigned on every legend of the figure, and the
    figure itself is not changed. *)
Theorem X9_inside_location_round_trip (w : world) (self : loc) ch f
    (l : loc) (rest : list loc) (location orientation : value) :
  heap w !! self = Some (OChart ch) ->
  heap w !! figure ch = Some (OFigure f) ->
  legends w f = l :: rest ->
  valid_legend_location location = true ->
  valid_orientation orientation = true ->
  exists w',
    set_legend_location self location orientation w = (Ok (PyRef self), w')
    /\ legend_location_property self w' = (Ok location, w')
    /\ heap w' !! figure ch = Some (OFigure f)
    /\ forall l' g, In l' (legends w f) ->
                    heap w !! l' = Some (OLegend g) ->
                    heap w' !! l'
                    = Some (OLegend (mkLegend location orientation
                                              (legend_visible g) (legend_plot g))).
Proof.
  intros Hc Hf HL Hloc Hor.
  pose proof (with_location_idem location) as Hi1.
  pose proof (with_orientation_idem orientation) as Hi2.
  assert (Hall : forall l' g, In l' (legends w f) ->
            heap w !! l' = Some (OLegend g) ->
            splat_heap (with_orientation orientation) (legends w f)
              (splat_heap (with_location location) (legends w f) (heap w)) !! l'
            = Some (OLegend (mkLegend location orientation
                                      (legend_visible g) (legend_plot g)))).
  { intros l' g Hin Hl'.
    pose proof (splat_heap_legend (with_location location) (legends w f)
                  (heap w) l' g Hi1 Hl' Hin) as H1.
    rewrite (splat_heap_legend (with_orientation orientation) (legends w f)
               _ l' _ Hi2 H1 Hin).
    reflexivity. }
  assert (Hf' : splat_heap (with_orientation orientation) (legends w f)
              (splat_heap (with_location location) (legends w f) (heap w))
              !! figure ch = Some (OFigure f)).
  { apply splat_heap_other; [exact Hi2 | | discriminate].
    apply splat_heap_other; [exact Hi1 | exact Hf | discriminate]. }
  eexists. split; [eapply legend_inside_run; eassumption|].
  split; [|split; [exact Hf' | exact Hall]].
  assert (Hl : In l (legends w f)) by (rewrite HL; left; reflexivity).
  destruct (proj1 (is_legend_true _ _) (filter_is_legend_all _ _ _ Hl)) as [g Hg].
  eapply eq_trans.
  - eapply legend_location_property_run; cbn [heap with_heap].
    + apply splat_heap_other; [exact Hi2 | | discriminate].
      apply splat_heap_other; [exact Hi1 | exact Hc | discriminate].
    + exact Hf'.
    + unfold legends at 1. cbn [heap with_heap].
      rewrite !filter_is_legend_splat by assumption. exact HL.
    + apply Hall; [exact Hl | exact Hg].
  - reflexivity.
Qed.

Lemma X9_witness :
  exists w',
    set_legend_location Demo.chart0 (PyTuple [PyFloat (1 # 2); PyInt 3])
                        (PyStr "vertical") Demo.plotted_world
    = (Ok (PyRef Demo.chart0), w')
    /\ legend_location_property Demo.chart0 w'
       = (Ok (PyTuple [PyFloat (1 # 2); PyInt 3]), w').
Proof.
  pose proof (fun ch f =>
                X9_inside_location_round_trip Demo.plotted_world Demo.chart0
                  ch f Demo.legend0 [] (PyTuple [PyFloat (1 # 2); PyInt 3])
                  (PyStr "vertical")) as H0.
  edestruct H0 as (w' & H1 & H2 & _).
  - reflexivity.
  - reflexivity.
  - reflexivity.
  - reflexivity.
  - reflexivity.
  - exists w'. split; [exact H1 | exact H2].
Defined.

(** ** The subtitle after 'outside_top' *)

(** The store after the subtitle has been re-rendered: the figure has lost
    the old glyph from its renderer list (position [i]) and gained a new
    title object, which the chart now refers to. *)
Definition rerendered_heap (h : list obj) (self : loc) (ch : Chart) (f : Figure)
    (g : Title) (i : nat) : list obj :=
  <[self := OChart (set_subtitle_glyph (length h) ch)]>
    (<[figure ch :=
         OFigure (attach (length h) (subtitle_location (style ch))
                         (set_renderers (delete i (renderers f)) f))]> h
     ++ [OTitle (mkTitle (if py_truthy (_blank_labels ch) then ""
                          else title_text g)
                         (subtitle_align (style ch))
                         (subtitle_text_color (style ch))
                         (subtitle_text_size (style ch))
                         (subtitle_text_font (style ch))
                         (Some (figure ch)))]).

Lemma rerender_subtitle_exact (w : world) (self : loc) ch f g (i : nat) :
  heap w !! self = Some (OChart ch) ->
  heap w !! figure ch = Some (OFigure f) ->
  heap w !! _subtitle_glyph ch = Some (OTitle g) ->
  py_index (_subtitle_glyph ch) (renderers f) = Ok i ->
  rerender_subtitle self w
  = (Ok tt, with_heap (rerendered_heap (heap w) self ch f g i) w).
Proof.
  intros Hc Hf Hg Hi.
  assert (Hne1 : figure ch <> self) by distinct_locs.
  assert (Hne2 : figure ch <> _subtitle_glyph ch) by distinct_locs.
  unfold rerender_subtitle, rerendered_heap.
  erewrite bind_run by (apply load_chart_run; exact Hc).
  erewrite bind_run by (apply load_figure_run; exact Hf).
  erewrite bind_run by (unfold lift; rewrite Hi; reflexivity).
  erewrite bind_run by apply store_run.
  erewrite bind_run
    by (apply load_title_run; cbn [heap with_heap];
        eapply lookup_store_other; eassumption).
  erewrite bind_run
    by (apply add_subtitle_run; cbn [heap with_heap];
        eapply lookup_store_same; exact Hf).
  cbn [heap with_heap]. rewrite store_run. cbn [heap with_heap].
  rewrite !with_heap_twice, length_insert, list_insert_insert_eq.
  reflexivity.
Qed.

Section Rerendered.

Variables (h : list obj) (self : loc) (ch : Chart) (f : Figure) (g : Title)
          (i : nat).
Hypothesis Hc : h !! self = Some (OChart ch).
Hypothesis Hf : h !! figure ch = Some (OFigure f).
Hypothesis Hg : h !! _subtitle_glyph ch = Some (OTitle g).

Lemma rerendered_chart :
  rerendered_heap h self ch f g i !! self
  = Some (OChart (set_subtitle_glyph (length h) ch)).
Proof.
  unfold rerendered_heap. eapply lookup_store_same.
  apply lookup_app_l_Some. rewrite list_lookup_insert_ne by distinct_locs.
  exact Hc.
Qed.

Lemma rerendered_figure :
  rerendered_heap h self ch f g i !! figure ch
  = Some (OFigure (attach (length h) (subtitle_location (style ch))
                          (set_renderers (delete i (renderers f)) f))).
Proof.
  unfold rerendered_heap.
  rewrite list_lookup_insert_ne by distinct_locs.
  apply lookup_app_l_Some. eapply lookup_store_same. exact Hf.
Qed.

Lemma rerendered_new_glyph :
  rerendered_heap h self ch f g i !! (length h : loc)
  = Some (OTitle (mkTitle (if py_truthy (_blank_labels ch) then ""
                           else title_text g)
                          (subtitle_align (style ch))
                          (subtitle_text_color (style ch))
                          (subtitle_text_size (style ch))
                          (subtitle_text_font (style ch))
                          (Some (figure ch)))).
Proof.
  unfold rerendered_heap.
  pose proof (lookup_lt_Some _ _ _ Hc) as Hlt.
  rewrite list_lookup_insert_ne by lia.
  rewrite lookup_app_r by (rewrite length_insert; lia).
  rewrite length_insert, Nat.sub_diag. reflexivity.
Qed.

Lemma rerendered_other (x : loc) (o : obj) :
  h !! x = Some o -> x <> self -> x <> figure ch ->
  rerendered_heap h self ch f g i !! x = Some o.
Proof.
  intros Hx H1 H2. unfold rerendered_heap.
  rewrite list_lookup_insert_ne by (intros E; apply H1; symmetry; exact E).
  apply lookup_app_l_Some.
  rewrite list_lookup_insert_ne by (intros E; apply H2; symmetry; exact E).
  exact Hx.
Qed.

End Rerendered.

Lemma rerendered_facts (w0 : world) (h : list obj) (self : loc) ch f t s g
    (i : nat) :
  h !! self = Some (OChart ch) ->
  h !! figure ch = Some (OFigure f) ->
  h !! fig_title f = Some (OTitle t) ->
  h !! _source ch = Some (OLabel s) ->
  h !! _subtitle_glyph ch = Some (OTitle g) ->
  let wF := with_heap (rerendered_heap h self ch f g i) w0 in
  subtitle self wF
  = (Ok (if py_truthy (_blank_labels ch) then "" else title_text g), wF)
  /\ title self wF = (Ok (title_text t), wF)
  /\ source_text self wF = (Ok (label_text s), wF)
  /\ chart_ok wF self
  /\ heap wF !! _subtitle_glyph ch = Some (OTitle g)
  /\ (exists ch', heap wF !! self = Some (OChart ch')
                  /\ _subtitle_glyph ch' = length h
                  /\ _subtitle_glyph ch' <> _subtitle_glyph ch).
Proof.
  intros Hc Hf Ht Hs Hg wF.
  assert (N1 : fig_title f <> self) by distinct_locs.
  assert (N2 : fig_title f <> figure ch) by distinct_locs.
  assert (N3 : _source ch <> self) by distinct_locs.
  assert (N4 : _source ch <> figure ch) by distinct_locs.
  assert (N5 : _subtitle_glyph ch <> self) by distinct_locs.
  assert (N6 : _subtitle_glyph ch <> figure ch) by distinct_locs.
  pose proof (rerendered_chart h self ch f g i Hc Hf) as Rc.
  pose proof (rerendered_figure h self ch f g i Hc Hf) as Rf.
  pose proof (rerendered_new_glyph h self ch f g i Hc) as Rn.
  pose proof (rerendered_other h self ch f g i _ _ Ht N1 N2) as Rt.
  pose proof (rerendered_other h self ch f g i _ _ Hs N3 N4) as Rs.
  pose proof (rerendered_other h self ch f g i _ _ Hg N5 N6) as Rg.
  split; [|split; [|split; [|split; [|split]]]].
  - eapply eq_trans; [eapply subtitle_run; [exact Rc | exact Rn]|]. reflexivity.
  - eapply eq_trans; [eapply title_run; [exact Rc | exact Rf | exact Rt]|].
    reflexivity.
  - eapply eq_trans; [eapply source_text_run; [exact Rc | exact Rs]|].
    reflexivity.
  - unfold chart_ok, chart_okb. cbn [wF heap with_heap].
    rewrite Rc. cbn [figure set_subtitle_glyph _source _subtitle_glyph].
    rewrite Rf. autorewrite with fig. rewrite Rt, Rs, Rn.
    apply existsb_exists. exists (length h). split; [|apply Nat.eqb_refl].
    apply in_or_app. right. left. reflexivity.
  - exact Rg.
  - eexists. split; [exact Rc|]. cbn [set_subtitle_glyph _subtitle_glyph].
    split; [reflexivity|].
    pose proof (lookup_lt_Some _ _ _ Hg). lia.
Qed.

(** X10. 'outside_top' re-renders the subtitle: the chart gets a new
    subtitle glyph (the old object stays in the store) whose text is the
    old subtitle, unless the chart was built with [blank_labels], in
    which case the new subtitle is empty whatever had been set.  The title
    and the source label are untouched and the chart stays well formed.
    This holds when the figure has no legend (only a warning is issued)
    and, for a valid orientation, when it has one. *)
Theorem X10_outside_top_rerenders_subtitle (w : world) (self : loc) ch f t s g
    (orientation : value) :
  heap w !! self = Some (OChart ch) ->
  heap w !! figure ch = Some (OFigure f) ->
  heap w !! fig_title f = Some (OTitle t) ->
  heap w !! _source ch = Some (OLabel s) ->
  heap w !! _subtitle_glyph ch = Some (OTitle g) ->
  In (_subtitle_glyph ch) (renderers f) ->
  legends w f = [] \/ valid_orientation orientation = true ->
  exists w',
    set_legend_location self (PyStr "outside_top") orientation w
    = (Ok (PyRef self), w')
    /\ subtitle self w'
       = (Ok (if py_truthy (_blank_labels ch) then "" else title_text g), w')
    /\ title self w' = (Ok (title_text t), w')
    /\ source_text self w' = (Ok (label_text s), w')
    /\ chart_ok w' self
    /\ heap w' !! _subtitle_glyph ch = Some (OTitle g)
    /\ (exists ch', heap w' !! self = Some (OChart ch')
                    /\ _subtitle_glyph ch' = length (heap w)
                    /\ _subtitle_glyph ch' <> _subtitle_glyph ch).
Proof.
  intros Hc Hf Ht Hs Hg Hin Hcase.
  rewrite set_legend_location_outside_top.
  destruct (legends w f) as [|l rest] eqn:HL.
  - destruct (py_index_found _ _ Hin) as (i & Hi & _).
    exists (with_heap (rerendered_heap (heap w) self ch f g i) (warned w)).
    split.
    + erewrite bind_run.
      2:{ erewrite bind_run by (eapply add_outside_legend_none; eassumption).
          eapply (rerender_subtitle_exact (warned w)); eassumption. }
      reflexivity.
    + apply rerendered_facts; assumption.
  - assert (Hor : valid_orientation orientation = true)
      by (destruct Hcase as [E|E]; [discriminate E | exact E]).
    assert (Hl : In l (legends w f)) by (rewrite HL; left; reflexivity).
    destruct (proj1 (is_legend_true _ _) (filter_is_legend_all _ _ _ Hl))
      as [gl Hgl].
    assert (Hin' : In (_subtitle_glyph ch) (renderers (attach l PlaceAbove f)))
      by (rewrite renderers_attach; apply in_or_app; left; exact Hin).
    destruct (py_index_found _ _ Hin') as (i & Hi & _).
    assert (M1 : self <> figure ch) by distinct_locs.
    assert (M2 : fig_title f <> figure ch) by distinct_locs.
    assert (M3 : _source ch <> figure ch) by distinct_locs.
    assert (M4 : _subtitle_glyph ch <> figure ch) by distinct_locs.
    pose proof (outside_heap_other w ch f "top_left" orientation PlaceAbove l gl
                  rest HL Hgl _ _ Hc ltac:(discriminate) M1) as Oc.
    pose proof (outside_heap_figure w ch f "top_left" orientation PlaceAbove l gl
                  rest Hf HL Hgl) as Of.
    pose proof (outside_heap_other w ch f "top_left" orientation PlaceAbove l gl
                  rest HL Hgl _ _ Ht ltac:(discriminate) M2) as Ot.
    pose proof (outside_heap_other w ch f "top_left" orientation PlaceAbove l gl
                  rest HL Hgl _ _ Hs ltac:(discriminate) M3) as Os.
    pose proof (outside_heap_other w ch f "top_left" orientation PlaceAbove l gl
                  rest HL Hgl _ _ Hg ltac:(discriminate) M4) as Og.
    exists (with_heap
              (rerendered_heap
                 (outside_heap w ch f "top_left" orientation PlaceAbove l gl)
                 self ch (attach l PlaceAbove f) g i) w).
    split.
    + erewrite bind_run.
      2:{ erewrite bind_run.
          2:{ eapply (add_outside_legend_some w self ch f Hc Hf);
                [exact HL | exact Hgl | reflexivity | exact Hor]. }
          eapply rerender_subtitle_exact; cbn [heap with_heap]; eassumption. }
      cbn [heap with_heap]. rewrite with_heap_twice. reflexivity.
    + pose proof (rerendered_facts w
                    (outside_heap w ch f "top_left" orientation PlaceAbove l gl)
                    self ch (attach l PlaceAbove f) t s g i Oc Of Ot Os Og) as F.
      cbn zeta in F.
      replace (length (outside_heap w ch f "top_left" orientation PlaceAbove l gl))
        with (length (heap w)) in F; [exact F|].
      unfold outside_heap. rewrite !length_insert.
      clear. generalize (heap w).
      induction (legends w f) as [|a ls IH]; intros h0; [reflexivity|].
      cbn [splat_heap]. rewrite <- IH.
      destruct (h0 !! a) as [[]|]; try reflexivity.
      rewrite length_insert. reflexivity.
Qed.

Lemma X10_witness :
  exists w',
    set_legend_location 4%nat (PyStr "outside_top") (PyStr "horizontal")
      (snd (set_subtitle 4%nat "Weekly"
              (snd (Demo.init (PyBool true) (PyStr "slide_100%") (PyStr "linear")
                              (PyStr "linear") Demo.empty_world))))
    = (Ok (PyRef 4%nat), w')
    /\ fst (subtitle 4%nat
              (snd (set_subtitle 4%nat "Weekly"
                      (snd (Demo.init (PyBool true) (PyStr "slide_100%")
                                      (PyStr "linear") (PyStr "linear")
                                      Demo.empty_world)))))
       = Ok "Weekly"
    /\ subtitle 4%nat w' = (Ok "", w').
Proof.
  pose proof (fun ch f t s g =>
                X10_outside_top_rerenders_subtitle
                  (snd (set_subtitle 4%nat "Weekly"
                          (snd (Demo.init (PyBool true) (PyStr "slide_100%")
                                          (PyStr "linear") (PyStr "linear")
                                          Demo.empty_world))))
                  4%nat ch f t s g (PyStr "horizontal")) as H0.
  edestruct H0 as (w' & H1 & H2 & _).
  - vm_compute. reflexivity.
  - vm_compute. reflexivity.
  - vm_compute. reflexivity.
  - vm_compute. reflexivity.
  - vm_compute. reflexivity.
  - right. left. reflexivity.
  - left. vm_compute. reflexivity.
  - exists w'. split; [exact H1|]. split; [vm_compute; reflexivity | exact H2].
Defined.

(** ** Reading the location back after a relocation *)

Lemma filter_delete_false (P : loc -> bool) (rs : list loc) (i : nat) (x : loc) :
  rs !! i = Some x -> P x = false ->
  List.filter P (delete i rs) = List.filter P rs.
Proof.
  revert i. induction rs as [|a rs IH]; intros i Hi HP; [discriminate Hi|].
  destruct i as [|i]; cbn in Hi.
  - injection Hi as ->. cbn. rewrite HP. reflexivity.
  - change (List.filter P (delete (S i) (a :: rs)))
      with (if P a then a :: List.filter P (delete i rs)
            else List.filter P (delete i rs)).
    rewrite (IH i Hi HP). reflexivity.
Qed.

Lemma is_legend_outside_heap (w : world) ch f (s : string) (orientation : value)
    (p : place) (l : loc) (gl : Legend) (rest : list loc) (x : loc) :
  heap w !! figure ch = Some (OFigure f) ->
  legends w f = l :: rest ->
  heap w !! l = Some (OLegend gl) ->
  is_legend (outside_heap w ch f s orientation p l gl) x = is_legend (heap w) x.
Proof.
  intros Hf HL Hl.
  destruct (decide (x = figure ch)) as [->|N1].
  { unfold is_legend.
    rewrite (outside_heap_figure w ch f s orientation p l gl rest Hf HL Hl), Hf.
    reflexivity. }
  destruct (decide (x = l)) as [->|N2].
  { unfold is_legend.
    rewrite (outside_heap_legend w ch f s orientation p l gl rest Hf HL Hl), Hl.
    reflexivity. }
  unfold outside_heap, is_legend.
  rewrite list_lookup_insert_ne by (intros E; apply N1; symmetry; exact E).
  rewrite list_lookup_insert_ne by (intros E; apply N2; symmetry; exact E).
  apply (splat_heap_is_legend (with_location (PyStr s)) (legends w f) (heap w) x).
  apply with_location_idem.
Qed.

Lemma is_legend_rerendered (h : list obj) (self : loc) ch f g (i : nat) (x : loc) :
  h !! self = Some (OChart ch) ->
  h !! figure ch = Some (OFigure f) ->
  is_legend (rerendered_heap h self ch f g i) x = is_legend h x.
Proof.
  intros Hc Hf.
  destruct (decide (x = self)) as [->|N1].
  { unfold is_legend. rewrite (rerendered_chart h self ch f g i Hc Hf), Hc.
    reflexivity. }
  destruct (decide (x = figure ch)) as [->|N2].
  { unfold is_legend. rewrite (rerendered_figure h self ch f g i Hc Hf), Hf.
    reflexivity. }
  destruct (decide (x = length h)) as [->|N3].
  { unfold is_legend.
    rewrite (rerendered_new_glyph h self ch f g i Hc).
    assert (E : h !! (length h : loc) = None)
      by (apply lookup_ge_None_2; unfold loc; lia).
    rewrite E. reflexivity. }
  unfold is_legend, rerendered_heap.
  rewrite list_lookup_insert_ne by (intros E; apply N1; symmetry; exact E).
  destruct (h !! x) as [o|] eqn:Hx.
  - rewrite (lookup_app_l_Some _ _ _ o).
    + reflexivity.
    + rewrite list_lookup_insert_ne by (intros E; apply N2; symmetry; exact E).
      exact Hx.
  - rewrite lookup_ge_None_2; [reflexivity|].
    apply lookup_ge_None_1 in Hx.
    rewrite length_app, length_insert. cbn [length]. lia.
Qed.

Lemma outside_top_some_exact (w : world) (self : loc) ch f g l rest gl
    (orientation : value) :
  heap w !! self = Some (OChart ch) ->
  heap w !! figure ch = Some (OFigure f) ->
  heap w !! _subtitle_glyph ch = Some (OTitle g) ->
  In (_subtitle_glyph ch) (renderers f) ->
  legends w f = l :: rest ->
  heap w !! l = Some (OLegend gl) ->
  valid_orientation orientation = true ->
  exists i,
    renderers (attach l PlaceAbove f) !! i = Some (_subtitle_glyph ch)
    /\ set_legend_location self (PyStr "outside_top") orientation w
       = (Ok (PyRef self),
          with_heap (rerendered_heap
                       (outside_heap w ch f "top_left" orientation PlaceAbove l gl)
                       self ch (attach l PlaceAbove f) g i) w).
Proof.
  intros Hc Hf Hg Hin HL Hl Hor.
  assert (Hin' : In (_subtitle_glyph ch) (renderers (attach l PlaceAbove f)))
    by (rewrite renderers_attach; apply in_or_app; left; exact Hin).
  destruct (py_index_found _ _ Hin') as (i & Hi & Hix).
  assert (M1 : self <> figure ch) by distinct_locs.
  assert (M4 : _subtitle_glyph ch <> figure ch) by distinct_locs.
  exists i. split; [exact Hix|].
  rewrite set_legend_location_outside_top.
  erewrite bind_run.
  2:{ erewrite bind_run.
      2:{ eapply (add_outside_legend_some w self ch f Hc Hf);
            [exact HL | exact Hl | reflexivity | exact Hor]. }
      eapply rerender_subtitle_exact; cbn [heap with_heap].
      - eapply outside_heap_other; first [eassumption | discriminate].
      - eapply outside_heap_figure; eassumption.
      - eapply outside_heap_other; first [eassumption | discriminate].
      - exact Hi. }
  cbn [heap with_heap]. rewrite with_heap_twice. reflexivity.
Qed.

(** X11. After a relocation outside the plot, [legend_location] does not
    return the name that was passed: it returns the anchor the legend was
    given inside its panel, 'top_left' for 'outside_top' and
    'outside_right', 'bottom_center' for 'outside_bottom'. *)
Theorem X11_outside_location_reads_back_as_anchor (w : world) (self : loc)
    ch f g (l : loc) (rest : list loc) (gl : Legend) (orientation : value) :
  heap w !! self = Some (OChart ch) ->
  heap w !! figure ch = Some (OFigure f) ->
  heap w !! _subtitle_glyph ch = Some (OTitle g) ->
  In (_subtitle_glyph ch) (renderers f) ->
  legends w f = l :: rest ->
  heap w !! l = Some (OLegend gl) ->
  valid_orientation orientation = true ->
  forall name anchor,
    In (name, anchor)
       [("outside_top", "top_left"); ("outside_bottom", "bottom_center");
        ("outside_right", "top_left")] ->
    exists w',
      set_legend_location self (PyStr name) orientation w = (Ok (PyRef self), w')
      /\ legend_location_property self w' = (Ok (PyStr anchor), w')
      /\ PyStr anchor <> PyStr name.
Proof.
  intros Hc Hf Hg Hin HL Hl Hor name anchor Hcase.
  assert (M1 : self <> figure ch) by distinct_locs.
  assert (M2 : l <> self) by distinct_locs.
  assert (M3 : l <> figure ch) by distinct_locs.
  assert (M4 : _subtitle_glyph ch <> figure ch) by distinct_locs.
  assert (Hshift : forall s p,
            legends (with_heap (outside_heap w ch f s orientation p l gl) w)
                    (attach l p f)
            = l :: (rest ++ List.filter (is_legend (heap w)) [l])).
  { intros s p. unfold legends at 1. cbn [heap with_heap].
    rewrite renderers_attach.
    rewrite (List.filter_ext _ (is_legend (heap w)))
      by (intros x; eapply is_legend_outside_heap; eassumption).
    rewrite List.filter_app. fold (legends w f). rewrite HL. reflexivity. }
  assert (Houtside : forall s p,
            legend_location_property self
              (with_heap (outside_heap w ch f s orientation p l gl) w)
            = (Ok (PyStr s),
               with_heap (outside_heap w ch f s orientation p l gl) w)).
  { intros s p. eapply eq_trans.
    - eapply legend_location_property_run; cbn [heap with_heap].
      + eapply outside_heap_other; first [eassumption | discriminate].
      + eapply outside_heap_figure; eassumption.
      + apply Hshift.
      + eapply outside_heap_legend; eassumption.
    - reflexivity. }
  destruct Hcase as [E|[E|[E|[]]]]; injection E as <- <-.
  - destruct (outside_top_some_exact w self ch f g l rest gl orientation
                Hc Hf Hg Hin HL Hl Hor) as (i & Hix & Hrun).
    eexists. split; [exact Hrun|]. split; [|discriminate].
    set (h2 := outside_heap w ch f "top_left" orientation PlaceAbove l gl) in *.
    assert (O1 : h2 !! self = Some (OChart ch))
      by (unfold h2; eapply outside_heap_other; first [eassumption | discriminate]).
    assert (O2 : h2 !! figure ch = Some (OFigure (attach l PlaceAbove f)))
      by (unfold h2; eapply outside_heap_figure; eassumption).
    assert (O3 : h2 !! l = Some (OLegend (mkLegend (PyStr "top_left") orientation
                                          (legend_visible gl) (Some (figure ch)))))
      by (unfold h2; eapply outside_heap_legend; eassumption).
    assert (O4 : is_legend h2 (_subtitle_glyph ch) = false).
    { unfold h2. rewrite (is_legend_outside_heap w ch f _ _ _ l gl rest _ Hf HL Hl).
      unfold is_legend. rewrite Hg. reflexivity. }
    eapply eq_trans.
    + eapply legend_location_property_run; cbn [heap with_heap].
      * eapply rerendered_chart; eassumption.
      * cbn [figure set_subtitle_glyph]. eapply rerendered_figure; eassumption.
      * unfold legends. cbn [heap with_heap]. autorewrite with fig.
        rewrite (List.filter_ext _ (is_legend h2))
          by (intros x; eapply is_legend_rerendered; eassumption).
        rewrite List.filter_app.
        rewrite renderers_attach in Hix.
        rewrite (filter_delete_false _ _ _ _ Hix O4).
        pose proof (Hshift "top_left" PlaceAbove) as Hs.
        unfold legends in Hs. cbn [heap with_heap] in Hs. fold h2 in Hs.
        rewrite renderers_attach in Hs.
        rewrite Hs. reflexivity.
      * eapply rerendered_other; [exact O3 | exact M2 | exact M3].
    + reflexivity.
  - eexists. split; [|split; [apply Houtside | discriminate]].
    rewrite set_legend_location_outside_bottom.
    eapply legend_outside_run; try eassumption; reflexivity.
  - eexists. split; [|split; [apply Houtside | discriminate]].
    rewrite set_legend_location_outside_right.
    eapply legend_outside_run; try eassumption; reflexivity.
Qed.

Lemma X11_witness :
  exists w',
    set_legend_location Demo.chart0 (PyStr "outside_top") (PyStr "horizontal")
                        Demo.plotted_world
    = (Ok (PyRef Demo.chart0), w')
    /\ legend_location_property Demo.chart0 w' = (Ok (PyStr "top_left"), w').
Proof.
  pose proof (fun ch f g gl =>
                X11_outside_location_reads_back_as_anchor Demo.plotted_world
                  Demo.chart0 ch f g Demo.legend0 [] gl (PyStr "horizontal")) as H0.
  edestruct H0 as (w' & H1 & H2 & _).
  - reflexivity.
  - reflexivity.
  - reflexivity.
  - right. left. reflexivity.
  - reflexivity.
  - reflexivity.
  - reflexivity.
  - left. reflexivity.
  - exists w'. split; [exact H1 | exact H2].
Defined.

(** ** Export *)

Definition toolbar_shown (w : world) (ch : Chart) (f : Figure) : world :=
  with_heap (<[figure ch := OFigure (set_toolbar_location (PyStr "right") f)]>
               (heap w)) w.

Lemma set_toolbar_html_run (w : world) (self : loc) ch f :
  heap w !! self = Some (OChart ch) ->
  heap w !! figure ch = Some (OFigure f) ->
  _set_toolbar_for_format self (PyStr "html") w = (Ok tt, toolbar_shown w ch f).
Proof.
  intros Hc Hf. unfold _set_toolbar_for_format.
  cbn [py_eq_str String.eqb Ascii.eqb Bool.eqb andb].
  erewrite bind_run by (apply load_chart_run; exact Hc).
  erewrite bind_run by (apply load_figure_run; exact Hf).
  apply store_run.
Qed.

Lemma set_toolbar_png_run (w : world) (self : loc) ch f :
  heap w !! self = Some (OChart ch) ->
  heap w !! figure ch = Some (OFigure f) ->
  _set_toolbar_for_format self (PyStr "png") w = (Ok tt, toolbar_hidden w ch f).
Proof.
  intros Hc Hf. unfold _set_toolbar_for_format.
  cbn [py_eq_str String.eqb Ascii.eqb Bool.eqb andb].
  erewrite bind_run by (apply load_chart_run; exact Hc).
  erewrite bind_run by (apply load_figure_run; exact Hf).
  apply store_run.
Qed.

(** X12. [save(filename, 'html')] first puts the toolbar on the right,
    then writes the document rendered from the figure in that state under
    the title 'Chartify chart.', prints 'Saved to <filename>' and returns
    the chart; nothing is displayed and no warning is issued.  When the
    write fails, the failure propagates: nothing is printed and no file is
    recorded, but the toolbar has already been changed. *)
Theorem X12_save_html fh wc gs io rs hse ise
    (self : loc) (filename : string) (w : world) ch f :
  heap w !! self = Some (OChart ch) ->
  heap w !! figure ch = Some (OFigure f) ->
  (hse filename = None ->
     exists w',
       save fh wc gs io rs hse ise self filename (PyStr "html") w
       = (Ok (PyRef self), w')
       /\ files w'
          = (filename,
             FHtml (fh (heap (toolbar_shown w ch f)) (figure ch) "Chartify chart."))
            :: files w
       /\ stdout w' = stdout w ++ ["Saved to " +:+ filename]
       /\ heap w' = heap (toolbar_shown w ch f)
       /\ heap w' !! figure ch
          = Some (OFigure (set_toolbar_location (PyStr "right") f))
       /\ displayed w' = displayed w
       /\ warnings w' = warnings w)
  /\ (forall msg, hse filename = Some msg ->
        save fh wc gs io rs hse ise self filename (PyStr "html") w
        = (Err (LibraryError "bokeh" msg), toolbar_shown w ch f)).
Proof.
  intros Hc Hf.
  assert (Hne : figure ch <> self) by distinct_locs.
  assert (Hc1 : heap (toolbar_shown w ch f) !! self = Some (OChart ch)).
  { cbn [toolbar_shown heap with_heap]. eapply lookup_store_other; eassumption. }
  split.
  - intros Hok. eexists. split.
    + unfold save.
      erewrite bind_run by (eapply set_toolbar_html_run; eassumption).
      cbn [py_eq_str String.eqb Ascii.eqb Bool.eqb andb].
      erewrite bind_run.
      2:{ erewrite bind_run by (apply load_chart_run; exact Hc1).
          unfold io_failure. rewrite Hok.
          erewrite bind_run by reflexivity.
          erewrite bind_run by reflexivity.
          reflexivity. }
      reflexivity.
    + cbn [files stdout heap displayed warnings toolbar_shown with_heap].
      repeat split.
      eapply lookup_store_same. exact Hf.
  - intros msg Herr. unfold save.
    erewrite bind_run by (eapply set_toolbar_html_run; eassumption).
    cbn [py_eq_str String.eqb Ascii.eqb Bool.eqb andb].
    erewrite bind_fail.
    2:{ erewrite bind_run by (apply load_chart_run; exact Hc1).
        unfold io_failure. rewrite Herr.
        erewrite bind_fail by reflexivity.
        reflexivity. }
    reflexivity.
Qed.

Lemma X12_witness :
  exists w',
    Demo.save0 Demo.chart0 "chart.html" (PyStr "html") Demo.chart_world
    = (Ok (PyRef Demo.chart0), w')
    /\ files w' = [("chart.html", FHtml "<html></html>")]
    /\ stdout w' = ["Saved to chart.html"].
Proof.
  pose proof (fun ch f =>
                X12_save_html (fun _ _ _ => "<html></html>") (fun _ => inr tt)
                  (fun _ _ => inr []) (fun _ => inr Demo.screenshot) Demo.resample0
                  (fun _ => None) (fun _ _ => None)
                  Demo.chart0 "chart.html" Demo.chart_world ch f) as H0.
  edestruct H0 as [H _].
  - reflexivity.
  - reflexivity.
  - destruct (H eq_refl) as (w' & H1 & H2 & H3 & _).
    exists w'. split; [exact H1|]. split; [exact H2 | exact H3].
Defined.

(** X13. [show('html')] puts the toolbar on the right and displays the
    figure; [show('png')] hides the toolbar and displays the screenshot
    at the configured size.  Neither writes a file nor prints. *)
Theorem X13_show fh wc gs io rs (self : loc) (w : world) ch f :
  heap w !! self = Some (OChart ch) ->
  heap w !! figure ch = Some (OFigure f) ->
  (exists w',
      show fh wc gs io rs self (PyStr "html") w = (Ok PyNone, w')
      /\ displayed w' = displayed w ++ [ShownFigure (figure ch)]
      /\ heap w' = heap (toolbar_shown w ch f)
      /\ files w' = files w /\ stdout w' = stdout w)
  /\
  (forall image,
      screenshot_is fh wc gs io (toolbar_hidden w ch f) ch image ->
      size image = target_size ch
      \/ (0 < plot_width (style ch) /\ 0 < plot_height (style ch)) ->
      exists w' result,
        show fh wc gs io rs self (PyStr "png") w = (Ok PyNone, w')
        /\ displayed w' = displayed w ++ [ShownImage result]
        /\ size result = (plot_width (style ch), plot_height (style ch))
        /\ heap w' = heap (toolbar_hidden w ch f)
        /\ files w' = files w /\ stdout w' = stdout w).
Proof.
  intros Hc Hf.
  assert (Hne : figure ch <> self) by distinct_locs.
  split.
  - eexists. split.
    + unfold show.
      erewrite bind_run by (eapply set_toolbar_html_run; eassumption).
      cbn [py_eq_str String.eqb Ascii.eqb Bool.eqb andb].
      erewrite bind_run.
      2:{ apply load_chart_run. cbn [toolbar_shown heap with_heap].
          eapply lookup_store_other; eassumption. }
      erewrite bind_run by reflexivity.
      reflexivity.
    + repeat split.
  - intros image Hshot Hsize.
    assert (Hc1 : heap (toolbar_hidden w ch f) !! self = Some (OChart ch)).
    { cbn [toolbar_hidden heap with_heap]. eapply lookup_store_other; eassumption. }
    destruct (figure_to_png_run fh wc gs io rs self _ ch image Hc1 Hshot Hsize)
      as (result & Hrun & Hsz & _).
    eexists _, result. split.
    + unfold show.
      erewrite bind_run by (eapply set_toolbar_png_run; eassumption).
      cbn [py_eq_str String.eqb Ascii.eqb Bool.eqb andb].
      erewrite bind_run by exact Hrun.
      erewrite bind_run by reflexivity.
      reflexivity.
    + repeat split. exact Hsz.
Qed.

Lemma X13_witness :
  exists w' result,
    Demo.show0 Demo.chart0 (PyStr "png") Demo.chart_world = (Ok PyNone, w')
    /\ displayed w' = [ShownImage result]
    /\ size result = (12, 9).
Proof.
  pose proof (fun ch f =>
                X13_show (fun _ _ _ => "<html></html>") (fun _ => inr tt)
                  (fun _ _ => inr []) (fun _ => inr Demo.screenshot) Demo.resample0
                  Demo.chart0 Demo.chart_world ch f) as H0.
  edestruct H0 as [_ H].
  - reflexivity.
  - reflexivity.
  - destruct (H Demo.screenshot) as (w' & result & H1 & H2 & H3 & _).
    + split; [reflexivity|]. exists []. split; reflexivity.
    + right. cbn. lia.
    + exists w', result. split; [exact H1|]. split; [exact H2 | exact H3].
Defined.

(** The ways the conversion to PNG can fail: the browser does not start,
    the page cannot be captured, or the screenshot cannot be decoded. *)
Definition png_failure
    (fh : list obj -> loc -> string -> string)
    (wc : list string -> string + unit)
    (gs : list string -> string -> string + list Byte.byte)
    (io : list Byte.byte -> string + Image)
    (w : world) (ch : Chart) (origin msg : string) : Prop :=
  (wc (browser_options (style ch)) = inl msg /\ origin = "webdriver")
  \/ (wc (browser_options (style ch)) = inr tt
      /\ gs (browser_options (style ch)) (fh (heap w) (figure ch) "") = inl msg
      /\ origin = "webdriver")
  \/ (wc (browser_options (style ch)) = inr tt
      /\ exists png,
           gs (browser_options (style ch)) (fh (heap w) (figure ch) "") = inr png
           /\ io png = inl msg /\ origin = "PIL").

Lemma figure_to_png_fail fh wc gs io rs (self : loc) (w : world) ch origin msg :
  heap w !! self = Some (OChart ch) ->
  png_failure fh wc gs io w ch origin msg ->
  _figure_to_png fh wc gs io rs self w = (Err (LibraryError origin msg), w).
Proof.
  intros Hc Hfail. unfold _figure_to_png.
  erewrite bind_run by (apply load_chart_run; exact Hc).
  destruct Hfail as [[H1 ->] | [(H1 & H2 & ->) | (H1 & png & H2 & H3 & ->)]].
  - erewrite bind_fail by (apply lift_foreign_err; exact H1). reflexivity.
  - erewrite bind_run by (apply lift_foreign_ok; exact H1).
    erewrite bind_run by reflexivity.
    erewrite bind_fail by (apply lift_foreign_err; exact H2). reflexivity.
  - erewrite bind_run by (apply lift_foreign_ok; exact H1).
    erewrite bind_run by reflexivity.
    erewrite bind_run by (apply lift_foreign_ok; exact H2).
    erewrite bind_fail by (apply lift_foreign_err; exact H3). reflexivity.
Qed.

(** X14. A PNG export that fails in the browser or in decoding is not
    caught: [save] and [show] raise the collaborator's failure, no file is
    written, nothing is printed or displayed - and the toolbar, hidden
    before the conversion started, stays hidden. *)
Theorem X14_failed_png_export fh wc gs io rs hse ise
    (self : loc) (filename : string) (w : world) ch f (origin msg : string) :
  heap w !! self = Some (OChart ch) ->
  heap w !! figure ch = Some (OFigure f) ->
  png_failure fh wc gs io (toolbar_hidden w ch f) ch origin msg ->
  save fh wc gs io rs hse ise self filename (PyStr "png") w
  = (Err (LibraryError origin msg), toolbar_hidden w ch f)
  /\ show fh wc gs io rs self (PyStr "png") w
     = (Err (LibraryError origin msg), toolbar_hidden w ch f)
  /\ files (toolbar_hidden w ch f) = files w
  /\ stdout (toolbar_hidden w ch f) = stdout w
  /\ displayed (toolbar_hidden w ch f) = displayed w
  /\ heap (toolbar_hidden w ch f) !! figure ch
     = Some (OFigure (set_toolbar_location PyNone f)).
Proof.
  intros Hc Hf Hfail.
  assert (Hne : figure ch <> self) by distinct_locs.
  assert (Hc1 : heap (toolbar_hidden w ch f) !! self = Some (OChart ch)).
  { cbn [toolbar_hidden heap with_heap]. eapply lookup_store_other; eassumption. }
  pose proof (figure_to_png_fail fh wc gs io rs self _ ch origin msg Hc1 Hfail)
    as Hrun.
  split; [|split].
  - unfold save.
    erewrite bind_run by (eapply set_toolbar_png_run; eassumption).
    cbn [py_eq_str String.eqb Ascii.eqb Bool.eqb andb].
    erewrite bind_fail.
    2:{ erewrite bind_fail by exact Hrun. reflexivity. }
    reflexivity.
  - unfold show.
    erewrite bind_run by (eapply set_toolbar_png_run; eassumption).
    cbn [py_eq_str String.eqb Ascii.eqb Bool.eqb andb].
    erewrite bind_fail by exact Hrun. reflexivity.
  - repeat split. cbn [toolbar_hidden heap with_heap].
    eapply lookup_store_same. exact Hf.
Qed.

Lemma X14_witness :
  fst (save (fun _ _ _ => "<html></html>") (fun _ => inl "chromedriver not found")
            (fun _ _ => inr []) (fun _ => inr Demo.screenshot) Demo.resample0
            (fun _ => None) (fun _ _ => None)
            Demo.chart0 "chart.png" (PyStr "png") Demo.chart_world)
  = Err (LibraryError "webdriver" "chromedriver not found").
Proof.
  pose proof (fun ch f =>
                X14_failed_png_export (fun _ _ _ => "<html></html>")
                  (fun _ => inl "chromedriver not found")
                  (fun _ _ => inr []) (fun _ => inr Demo.screenshot) Demo.resample0
                  (fun _ => None) (fun _ _ => None)
                  Demo.chart0 "chart.png" Demo.chart_world ch f
                  "webdriver" "chromedriver not found") as H0.
  edestruct H0 as [H _].
  - reflexivity.
  - reflexivity.
  - left. split; reflexivity.
  - rewrite H. reflexivity.
Defined.

(** ** The logo *)

(** X15. [_resize_logo] always scales to the target height
    [int(plot_height * .1)] of the chart the logo belongs to: a square
    logo becomes a square of that side, any other logo gets that height
    and the width computed from its aspect ratio.  A logo of height zero
    that is not square makes the aspect ratio a division by zero.  The
    store is never changed. *)
Theorem X15_resize_logo rs it isc (self : loc) (logo_image : Image)
    (w : world) lg ch :
  heap w !! self = Some (OLogo lg) ->
  heap w !! _chart lg = Some (OChart ch) ->
  let target_height := it (plot_height (style ch)) in
  let logo_width := fst (size logo_image) in
  let logo_height := snd (size logo_image) in
  (logo_width = logo_height -> 0 < target_height ->
     exists r, _resize_logo rs it isc self logo_image w = (Ok r, w)
               /\ size r = (target_height, target_height)
               /\ pix r = rs LANCZOS (target_height, target_height) logo_image)
  /\ (logo_width <> logo_height -> logo_height <> 0 -> 0 < target_height ->
      0 < isc logo_width logo_height target_height ->
      exists r, _resize_logo rs it isc self logo_image w = (Ok r, w)
                /\ size r = (isc logo_width logo_height target_height, target_height))
  /\ (logo_width <> logo_height -> logo_height = 0 ->
      _resize_logo rs it isc self logo_image w
      = (Err (ZeroDivisionError "float division by zero"), w)).
Proof.
  intros Hl Hc th lw lh. subst th lw lh.
  split; [|split].
  - intros Heq Hpos.
    exists (mkImage (it (plot_height (style ch)), it (plot_height (style ch)))
                    (rs LANCZOS (it (plot_height (style ch)),
                                 it (plot_height (style ch))) logo_image)).
    split; [|split; reflexivity].
    unfold _resize_logo.
    erewrite bind_run by (apply load_logo_run; exact Hl).
    erewrite bind_run by (apply load_chart_run; exact Hc).
    rewrite (proj2 (Z.eqb_eq _ _) Heq).
    unfold lift, Image_resize. cbn [fst snd].
    rewrite (proj2 (Z.ltb_lt _ _) Hpos). reflexivity.
  - intros Hne Hnz Hpos Hpos'.
    exists (mkImage (isc (fst (size logo_image)) (snd (size logo_image))
                         (it (plot_height (style ch))),
                     it (plot_height (style ch)))
                    (rs LANCZOS
                        (isc (fst (size logo_image)) (snd (size logo_image))
                             (it (plot_height (style ch))),
                         it (plot_height (style ch))) logo_image)).
    split; [|reflexivity].
    unfold _resize_logo.
    erewrite bind_run by (apply load_logo_run; exact Hl).
    erewrite bind_run by (apply load_chart_run; exact Hc).
    rewrite (proj2 (Z.eqb_neq _ _) Hne), (proj2 (Z.eqb_neq _ _) Hnz).
    unfold lift, Image_resize. cbn [fst snd].
    rewrite (proj2 (Z.ltb_lt _ _) Hpos), (proj2 (Z.ltb_lt _ _) Hpos').
    reflexivity.
  - intros Hne Hz. unfold _resize_logo.
    erewrite bind_run by (apply load_logo_run; exact Hl).
    erewrite bind_run by (apply load_chart_run; exact Hc).
    rewrite (proj2 (Z.eqb_neq _ _) Hne), (proj2 (Z.eqb_eq _ _) Hz).
    reflexivity.
Qed.

Module LogoWorld.

Definition style960 : Style :=
  mkStyle (PyStr "slide_100%") 960 540 "left" "#5c5c5c" "12pt" "helvetica" PlaceAbove.

Definition chart : Chart :=
  mkChart (PyStr "linear") (PyStr "linear") (PyBool false) style960
          1%nat "PlotNumericXY" "NumericalXYAxes" 2%nat 3%nat.

Definition logo : Logo :=
  mkLogo 0%nat None "logos/" [("acme", "acme.png")].

Definition world0 : world := mkWorld [OChart chart; OLogo logo] [] [] [] [].

Definition tenth (h : Z) : Z := h / 10.
Definition scaled (lw lh t : Z) : Z := lw * t / lh.

Definition open_file (name : string) : string + Image :=
  if String.eqb name "logos/acme.png" then inr LogoDemo.logo_image
  else inl "No such file or directory".

End LogoWorld.

Lemma X15_witness :
  exists r,
    _resize_logo Demo.resample0 LogoWorld.tenth LogoWorld.scaled 1%nat
                 LogoDemo.logo_image LogoWorld.world0
    = (Ok r, LogoWorld.world0)
    /\ size r = (67, 54).
Proof.
  destruct (X15_resize_logo Demo.resample0 LogoWorld.tenth LogoWorld.scaled 1%nat
              LogoDemo.logo_image LogoWorld.world0 LogoWorld.logo LogoWorld.chart
              eq_refl eq_refl) as (_ & H & _).
  destruct H as (r & H1 & H2).
  - cbn. lia.
  - cbn. lia.
  - reflexivity.
  - reflexivity.
  - exists r. split; [exact H1 | exact H2].
Defined.

(** X16. [set_logo] with a registered name opens the file found under
    the logo path, resizes it and stores the result in the [Logo] object,
    whose chart, path and mapping stay as they were; the call returns
    [None].  When the file cannot be opened the failure propagates and the
    stored logo is left untouched. *)
Theorem X16_set_logo_registered_name iof rs it isc (self : loc) (name : string)
    (w : world) lg (filename : string) :
  heap w !! self = Some (OLogo lg) ->
  assoc name (_logo_file_mapping lg) = Some filename ->
  (forall img r,
      iof (_path lg +:+ filename) = inr img ->
      _resize_logo rs it isc self img w = (Ok r, w) ->
      set_logo iof rs it isc self (PyStr name) w
      = (Ok PyNone,
         with_heap (<[self := OLogo (mkLogo (_chart lg) (Some r) (_path lg)
                                            (_logo_file_mapping lg))]> (heap w)) w))
  /\ (forall msg,
        iof (_path lg +:+ filename) = inl msg ->
        set_logo iof rs it isc self (PyStr name) w
        = (Err (LibraryError "PIL" msg), w)).
Proof.
  intros Hl Hname. split.
  - intros img r Hopen Hresize. unfold set_logo.
    erewrite bind_run by (apply load_logo_run; exact Hl).
    cbn [py_getitem]. rewrite Hname.
    erewrite bind_run by (apply lift_foreign_ok; exact Hopen).
    erewrite bind_run by exact Hresize.
    erewrite bind_run by (apply load_logo_run; exact Hl).
    erewrite bind_run by apply store_run.
    reflexivity.
  - intros msg Hopen. unfold set_logo.
    erewrite bind_run by (apply load_logo_run; exact Hl).
    cbn [py_getitem]. rewrite Hname.
    erewrite bind_fail by (apply lift_foreign_err; exact Hopen).
    reflexivity.
Qed.

Lemma X16_witness :
  exists r,
    fst (set_logo LogoWorld.open_file Demo.resample0 LogoWorld.tenth LogoWorld.scaled
                  1%nat (PyStr "acme") LogoWorld.world0) = Ok PyNone
    /\ heap (snd (set_logo LogoWorld.open_file Demo.resample0 LogoWorld.tenth
                           LogoWorld.scaled 1%nat (PyStr "acme") LogoWorld.world0))
       !! 1%nat
       = Some (OLogo (mkLogo 0%nat (Some r) "logos/" [("acme", "acme.png")]))
    /\ size r = (67, 54).
Proof.
  destruct (X16_set_logo_registered_name LogoWorld.open_file Demo.resample0
              LogoWorld.tenth LogoWorld.scaled 1%nat "acme" LogoWorld.world0
              LogoWorld.logo "acme.png" eq_refl eq_refl) as [H _].
  eexists. rewrite (H LogoDemo.logo_image _ eq_refl eq_refl).
  repeat split.
Defined.

(** X17. A [Logo] is created with no image and an empty mapping.  On a
    new [Logo], [set_logo] therefore fails for every argument, with a
    [KeyError] that lists no name, and [_add_logo_to_image] returns every
    image as it is. *)
Theorem X17_new_logo_is_inert lp iof rs it isc blend
    (chart : loc) (w : world) (logo : value) (image : Image) :
  exists w',
    Logo__init__ lp chart w = (Ok (length (heap w)), w')
    /\ heap w' !! length (heap w)
       = Some (OLogo (mkLogo chart None lp []))
    /\ set_logo iof rs it isc (length (heap w)) logo w'
       = (Err (KeyError "Must supply a valid logo name: []"), w')
    /\ _add_logo_to_image blend (length (heap w)) image w' = (Ok image, w').
Proof.
  eexists. split; [reflexivity|].
  assert (Hl : heap (with_heap (heap w ++ [OLogo (mkLogo chart None lp [])]) w)
               !! length (heap w) = Some (OLogo (mkLogo chart None lp []))).
  { cbn [heap with_heap]. rewrite lookup_fresh0. reflexivity. }
  split; [exact Hl|]. split.
  - unfold set_logo.
    erewrite bind_run by (apply load_logo_run; exact Hl).
    destruct logo; reflexivity.
  - unfold _add_logo_to_image.
    erewrite bind_run by (apply load_logo_run; exact Hl).
    reflexivity.
Qed.

(** ** Bounding boxes *)

Lemma filter_none {A} (P : A -> bool) (l : list A) :
  (forall x, In x l -> P x = false) -> List.filter P l = [].
Proof.
  induction l as [|a l IH]; intros H; [reflexivity|].
  cbn [List.filter]. rewrite (H a (or_introl eq_refl)).
  apply IH. intros x Hx. apply H. right. exact Hx.
Qed.


Lemma in_seqZ (n x : Z) : In x (seqZ 0 n) <-> 0 <= x < n.
Proof.
  rewrite <- list_elem_of_In, elem_of_seqZ. lia.
Qed.


(** An image without any non-zero pixel has no bounding box; an image
    whose pixels are all non-zero has the whole image as bounding box. *)
Lemma getbbox_empty (im : Image) :
  (forall x y, 0 <= x < fst (size im) -> 0 <= y < snd (size im) ->
               pixel_nonzero (pix im x y) = false) ->
  getbbox im = None.
Proof.
  intros H. unfold getbbox.
  rewrite (filter_none _ (seqZ 0 (fst (size im)))); [reflexivity|].
  intros x Hx. apply in_seqZ in Hx.
  destruct (existsb (fun y => pixel_nonzero (pix im x y)) (seqZ 0 (snd (size im))))
    eqn:E; [|reflexivity].
  apply existsb_exists in E as (y & Hy & Hnz). apply in_seqZ in Hy.
  rewrite (H x y Hx Hy) in Hnz. discriminate Hnz.
Qed.


(** X18. With a logo set, [_add_logo_to_image] needs a bounding box of
    both images: on a chart image without any non-zero pixel, or with a
    logo without any non-zero pixel, [getbbox()] is [None] and the method
    raises a [TypeError]. *)
Theorem X18_logo_on_empty_image blend (self : loc) (image logo : Image)
    (w : world) lg :
  heap w !! self = Some (OLogo lg) ->
  _logo_image lg = Some logo ->
  (forall im : Image,
      (forall x y, 0 <= x < fst (size im) -> 0 <= y < snd (size im) ->
                   pix im x y = (0, 0, 0, 0)) ->
      getbbox im = None)
  /\ (getbbox image = None \/ getbbox logo = None ->
      _add_logo_to_image blend self image w
      = (Err (TypeError "'NoneType' object is not subscriptable"), w)).
Proof.
  intros Hl Hlogo. split.
  - intros im H. apply getbbox_empty. intros x y Hx Hy.
    rewrite (H x y Hx Hy). reflexivity.
  - intros Hnone. unfold _add_logo_to_image.
    erewrite bind_run by (apply load_logo_run; exact Hl).
    rewrite Hlogo. unfold bbox_right.
    destruct (getbbox image) as [[[[a b] c] d]|] eqn:Ei.
    + destruct Hnone as [E|E]; [discriminate E|]. rewrite E.
      erewrite bind_run by reflexivity. reflexivity.
    + reflexivity.
Qed.

Lemma X18_witness :
  _add_logo_to_image Demo.blend0 0%nat (mkImage (6, 4) (fun _ _ => (0, 0, 0, 0)))
                     LogoDemo.world0
  = (Err (TypeError "'NoneType' object is not subscriptable"), LogoDemo.world0).
Proof.
  destruct (X18_logo_on_empty_image Demo.blend0 0%nat
              (mkImage (6, 4) (fun _ _ => (0, 0, 0, 0))) LogoDemo.logo_image
              LogoDemo.world0 LogoDemo.logo0 eq_refl eq_refl) as [H1 H2].
  apply H2. left. apply H1. intros x y _ _. reflexivity.
Defined.



(** ** The chart the constructor builds *)




(** ** Chaining *)

Lemma bind_ok_inv {A B} (m : M A) (k : A -> M B) (w w' : world) (r : B) :
  bind m k w = (Ok r, w') ->
  exists a w1, m w = (Ok a, w1) /\ k a w1 = (Ok r, w').
Proof.
  unfold bind. destruct (m w) as [[a|e] w1]; intros H.
  - exists a, w1. split; [reflexivity | exact H].
  - discriminate H.
Qed.

Ltac invert_run H :=
  repeat (apply bind_ok_inv in H;
          let a := fresh "a" in
          let w1 := fresh "w1" in
          destruct H as (a & w1 & _ & H); cbn beta in H);
  unfold ret in H; injection H as <- _.

(** X21. [set_title], [set_subtitle], [set_source_label],
    [set_legend_location] and [save] have no other normal result than the
    chart they were called on: whatever the arguments and the state of the
    store, a call that returns, returns [self]. *)
Theorem X21_mutators_return_self fh wc gs io rs hse ise
    (self : loc) (w w' : world) (r : value) :
  (forall s, set_title self s w = (Ok r, w') -> r = PyRef self)
  /\ (forall s, set_subtitle self s w = (Ok r, w') -> r = PyRef self)
  /\ (forall s, set_source_label self s w = (Ok r, w') -> r = PyRef self)
  /\ (forall location orientation,
         set_legend_location self location orientation w = (Ok r, w') ->
         r = PyRef self)
  /\ (forall filename format,
         save fh wc gs io rs hse ise self filename format w = (Ok r, w') ->
         r = PyRef self).
Proof.
  repeat split.
  - intros s H. unfold set_title in H. invert_run H. reflexivity.
  - intros s H. unfold set_subtitle in H. invert_run H. reflexivity.
  - intros s H. unfold set_source_label in H. invert_run H. reflexivity.
  - intros location orientation H. unfold set_legend_location in H.
    apply bind_ok_inv in H. destruct H as (a & w1 & _ & H).
    injection H as <- _. reflexivity.
  - intros filename format H. unfold save in H.
    apply bind_ok_inv in H. destruct H as (a & w1 & _ & H).
    apply bind_ok_inv in H. destruct H as (a' & w2 & _ & H).
    apply bind_ok_inv in H. destruct H as (a'' & w3 & _ & H).
    injection H as <- _. reflexivity.
Qed.

Lemma X21_witness :
  fst (set_legend_location Demo.chart0 (PyStr "center") (PyStr "vertical")
                           Demo.plotted_world)
  = Ok (PyRef Demo.chart0).
Proof.
  destruct (set_legend_location Demo.chart0 (PyStr "center") (PyStr "vertical")
                                Demo.plotted_world) as [r w'] eqn:E.
  assert (Hr : exists v, r = Ok v).
  { assert (E' : r = fst (set_legend_location Demo.chart0 (PyStr "center")
                            (PyStr "vertical") Demo.plotted_world))
      by (rewrite E; reflexivity).
    vm_compute in E'. eexists. exact E'. }
  destruct Hr as [v ->].
  destruct (X21_mutators_return_self (fun _ _ _ => "<html></html>")
              (fun _ => inr tt) (fun _ _ => inr []) (fun _ => inr Demo.screenshot)
              Demo.resample0 (fun _ => None) (fun _ _ => None)
              Demo.chart0 Demo.plotted_world w' v) as (_ & _ & _ & H & _).
  cbn [fst]. f_equal. exact (H _ _ E).
Defined.
